(** * Wallet provider / marketplace purchase orchestration

    A shallow embedding of the asynchronous TypeScript composables
    [useMetamask], [useContractRegistry], [useMarketplace] and
    [useNftTokens].

    Every [await] on something outside the application (wallet RPC, contract
    read, HTTP fetch) is an _event_ appended to a chronological [trace]; the
    answer is chosen by a [World], a family of oracles that see the whole
    history of earlier events, so any deterministic environment (including
    one whose allowance grows after an approval) is an instance.  Code runs
    in a state-and-exception monad whose state holds the reactive [ref]s of
    the composables. *)

From Stdlib Require Import String ZArith List Bool Lia DecimalString.
Import ListNotations.

Local Open Scope string_scope.
Local Open Scope Z_scope.
Local Open Scope list_scope.

(* ===================================================================== *)
(** ** JavaScript values used by the composables *)
(* ===================================================================== *)

Module Js.

(** [!!s] for a string: only the empty string is falsy. *)
Definition truthy (s : string) : bool := negb (String.eqb s "").

(** [!!n] for a (non-NaN) number. *)
Definition truthy_num (n : Z) : bool := negb (n =? 0).

(** A [string | undefined] value seen through a truthiness test: [None]
    when the test fails ([undefined] or the empty string), the string
    otherwise. *)
Definition nonempty (o : option string) : option string :=
  match o with
  | Some s => if truthy s then Some s else None
  | None => None
  end.

End Js.

(** [type ChainId = string | number].  The wrapper only ever stores the
    initial empty string and the numeric [network.chainId]. *)
Inductive ChainId : Type :=
| ChainEmpty
| ChainNum (n : Z).

Definition chain_truthy (c : ChainId) : bool :=
  match c with
  | ChainEmpty => false
  | ChainNum n => Js.truthy_num n
  end.

(** [Number(chainId)]; the empty string converts to 0. *)
Definition Number (c : ChainId) : Z :=
  match c with
  | ChainEmpty => 0
  | ChainNum n => n
  end.

(** [BN] of [@/utils/math.util] wraps arbitrary-precision numbers; token
    amounts and allowances are decimal strings of integers and are carried
    as the integer they denote.  [compare] answers 1, 0 or -1. *)
Definition BN_compare (a b : Z) : Z :=
  match a ?= b with
  | Gt => 1
  | Eq => 0
  | Lt => -1
  end.

(** [new BN(x).toString()] on an integer. *)
Definition BN_toString (z : Z) : string := NilZero.string_of_int (Z.to_int z).

(* ===================================================================== *)
(** ** Data model *)
(* ===================================================================== *)

Record PaymentDetails := {
  paymentTokenAddress : string;
  paymentTokenPrice : string;
  discount : string;
  nftTokenId : string
}.

Record TokenMintData := {
  mint_tokenId : string;
  mint_tokenURI : string
}.

Record BuyParams := {
  paymentDetails : PaymentDetails;
  bp_tokenContract : string;
  recipient : string;
  tokenData : TokenMintData
}.

Record Signature := {
  sig_r : string;
  sig_s : string;
  sig_v : Z;
  endSigTimestamp : Z
}.

(** [contractInterface.encodeFunctionData(method, [buyParams, signature])]. *)
Record CallData := {
  cd_method : string;
  cd_buyParams : BuyParams;
  cd_signature : Signature
}.

Definition encodeFunctionData (method : string) (b : BuyParams) (s : Signature)
  : CallData :=
  {| cd_method := method; cd_buyParams := b; cd_signature := s |}.

(** [TxRequestBody]: [value] is present only when the caller spreads it in. *)
Record TxRequestBody := {
  tx_to : string;
  tx_data : CallData;
  tx_value : option string
}.

Record TransactionResponse := { tx_hash : string }.

(** [IMarketplace.UserTokensStructOutput]: token ids are [BigNumber]s. *)
Record UserTokensStructOutput := {
  raw_tokenContract : string;
  raw_tokenIds : list Z
}.

Record TokensRaw := {
  tr_tokenContract : string;
  tr_tokenIds : list string
}.

Record NftMetadata := {
  md_name : string;
  md_description : string;
  md_image : string;
  md_external_url : string
}.

(** The members of [TOKEN_TYPES] that [approveTokenSpend] distinguishes;
    [native] stands for every member taking the [default] branch. *)
Inductive TOKEN_TYPES : Type := native | erc20 | voucher | nft.

Record Erc20Data := {
  erc20_address : string;
  erc20_symbol : string;
  erc20_name : string;
  erc20_decimals : Z
}.

Record Payment := {
  pay_amount : string;
  pay_book_id : Z;
  pay_contract_address : string;
  pay_minted_token_price : string;
  pay_payer_address : string;
  pay_payment_token_price : string;
  pay_purchase_timestamp : string;
  pay_token_id : Z;
  pay_erc20_data : Erc20Data;
  pay_type : TOKEN_TYPES
}.

Record TokenBaseInfo := {
  tokenContract : string;
  tokenId : string;
  metadata : NftMetadata
}.

(** [data[0]] of the payments query is [undefined] on an empty page. *)
Record TokenFullInfo := {
  full_tokenContract : string;
  full_tokenId : string;
  full_metadata : NftMetadata;
  full_payment : option Payment
}.

(** An entry of [networkStore.list]. *)
Record Network := {
  chain_id : Z;
  factory_address : string
}.

(** [config.DEFAULT_CHAIN_ID] (as [Number(...)] reads it) and
    [config.DEFAULT_PAGE_LIMIT]. *)
Record Config := {
  DEFAULT_CHAIN_ID : Z;
  DEFAULT_PAGE_LIMIT : Z
}.

Definition MAX_METADATA_WAIT_TIME : Z := 8000.

(** *** Provider State *)

(** [currentProvider] / [defaultProvider] record whether the store's
    provider object carries the corresponding ethers provider. *)
Record Provider := {
  chainId : ChainId;
  selectedAddress : string;
  currentProvider : bool;
  defaultProvider : bool
}.

(** [computed(() => Boolean(selectedAddress.value && chainId.value))] *)
Definition isConnected (p : Provider) : bool :=
  Js.truthy (selectedAddress p) && chain_truthy (chainId p).

(* ===================================================================== *)
(** ** Events, the world and the application state *)
(* ===================================================================== *)

(** Which ethers provider a registry contract instance is connected to. *)
Inductive Via : Type := ViaCurrent | ViaDefault.

Inductive Event : Type :=
(* wallet provider wrapper *)
| EvDetectNetwork
| EvListAccounts
| EvSendTransaction (tx : TxRequestBody)
| EvWait (r : TransactionResponse)
| EvGetBalance (address : string)
(* network store *)
| EvLoadNetworks
(* registry contract *)
| EvGetMarketplaceContract (registry : string) (via : Via)
(* marketplace contract *)
| EvGetDetailedTokenInfo (market : string) (tokenContracts : list string)
| EvGetActiveTokenContractsCount (market : string)
| EvGetTokenContractsPart (market : string) (offset limit : Z)
| EvGetBriefTokenInfoPart (market : string) (offset limit : Z)
| EvGetUserTokensPart (market user : string) (offset limit : Z)
(* ERC-20 and ERC-721 accessors *)
| EvErc20Allowance (token owner spender : string)
| EvErc20Approve (token spender : string) (amount : Z)
| EvErc721TokenURI (collection token : string)
| EvErc721Approve (collection spender token : string)
(* HTTP *)
| EvFetchMetadata (uri : string) (timeout : Z)
| EvGetPayments (limit : Z) (order token_id contract_address : string)
(* the centralized error handler *)
| EvHandleEthError (error : string).

(** What an awaited external operation settles to: a value, or a rejection
    carrying the error. *)
Inductive reply (A : Type) : Type :=
| Ok (a : A)
| Err (e : string).
Arguments Ok {A} a.
Arguments Err {A} e.

(** Opaque payloads of the marketplace reads whose shape no code here
    inspects. *)
Definition Blob := string.

Definition History := list Event.

(** The environment.  Every oracle receives the events issued so far.
    Accessor-level oracles ([w_allowance], [w_erc20Approve], [w_tokenURI],
    [w_erc721Approve], [w_fetchMetadata]) answer [None] for the
    [undefined]/[null] those operations hand back on failure. *)
Record World := {
  w_detectNetwork : History -> reply Z;
  w_listAccounts : History -> reply (list string);
  w_sendTransaction : History -> TxRequestBody -> reply TransactionResponse;
  w_wait : History -> TransactionResponse -> reply unit;
  w_getBalance : History -> string -> reply Z;
  w_loadNetworks : History -> reply (list Network);
  w_getMarketplaceContract : History -> string -> Via -> reply string;
  w_getDetailedTokenInfo : History -> string -> list string -> reply Blob;
  w_getActiveTokenContractsCount : History -> string -> reply Z;
  w_getTokenContractsPart : History -> string -> Z -> Z -> reply (list string);
  w_getBriefTokenInfoPart : History -> string -> Z -> Z -> reply Blob;
  w_getUserTokensPart :
    History -> string -> string -> Z -> Z -> reply (list UserTokensStructOutput);
  w_allowance : History -> string -> string -> string -> option Z;
  w_erc20Approve : History -> string -> string -> Z -> option TransactionResponse;
  w_tokenURI : History -> string -> string -> option string;
  w_erc721Approve :
    History -> string -> string -> string -> option TransactionResponse;
  w_fetchMetadata : History -> string -> Z -> option NftMetadata;
  w_getPayments : History -> Z -> string -> string -> string -> reply (list Payment)
}.

(** The reactive references of the store and of the composables. *)
Record State := {
  provider : Provider;               (* web3ProvidersStore.provider *)
  networks : list Network;           (* networkStore.list *)
  registryAddress : string;          (* useContractRegistry: contractAddress *)
  marketAddress : string;            (* useMarketplace: contractAddress *)
  marketPlaceAddress : string;       (* useNftTokens: marketPlaceAddress *)
  erc721Address : string;            (* useErc721: contractAddress *)
  erc20Address : string;             (* useErc20: contractAddress *)
  trace : History
}.

Definition set_provider (p : Provider) (s : State) : State :=
  {| provider := p; networks := networks s;
     registryAddress := registryAddress s; marketAddress := marketAddress s;
     marketPlaceAddress := marketPlaceAddress s;
     erc721Address := erc721Address s; erc20Address := erc20Address s;
     trace := trace s |}.

Definition set_networks (l : list Network) (s : State) : State :=
  {| provider := provider s; networks := l;
     registryAddress := registryAddress s; marketAddress := marketAddress s;
     marketPlaceAddress := marketPlaceAddress s;
     erc721Address := erc721Address s; erc20Address := erc20Address s;
     trace := trace s |}.

Definition set_registryAddress (a : string) (s : State) : State :=
  {| provider := provider s; networks := networks s;
     registryAddress := a; marketAddress := marketAddress s;
     marketPlaceAddress := marketPlaceAddress s;
     erc721Address := erc721Address s; erc20Address := erc20Address s;
     trace := trace s |}.

Definition set_marketAddress (a : string) (s : State) : State :=
  {| provider := provider s; networks := networks s;
     registryAddress := registryAddress s; marketAddress := a;
     marketPlaceAddress := marketPlaceAddress s;
     erc721Address := erc721Address s; erc20Address := erc20Address s;
     trace := trace s |}.

Definition set_marketPlaceAddress (a : string) (s : State) : State :=
  {| provider := provider s; networks := networks s;
     registryAddress := registryAddress s; marketAddress := marketAddress s;
     marketPlaceAddress := a;
     erc721Address := erc721Address s; erc20Address := erc20Address s;
     trace := trace s |}.

Definition set_erc721Address (a : string) (s : State) : State :=
  {| provider := provider s; networks := networks s;
     registryAddress := registryAddress s; marketAddress := marketAddress s;
     marketPlaceAddress := marketPlaceAddress s;
     erc721Address := a; erc20Address := erc20Address s;
     trace := trace s |}.

Definition set_erc20Address (a : string) (s : State) : State :=
  {| provider := provider s; networks := networks s;
     registryAddress := registryAddress s; marketAddress := marketAddress s;
     marketPlaceAddress := marketPlaceAddress s;
     erc721Address := erc721Address s; erc20Address := a;
     trace := trace s |}.

Definition set_trace (t : History) (s : State) : State :=
  {| provider := provider s; networks := networks s;
     registryAddress := registryAddress s; marketAddress := marketAddress s;
     marketPlaceAddress := marketPlaceAddress s;
     erc721Address := erc721Address s; erc20Address := erc20Address s;
     trace := t |}.

(* ===================================================================== *)
(** ** The monad of asynchronous code *)
(* ===================================================================== *)

(** How a call ends: it returns, it throws (the promise rejects), or the
    recursion budget of the model is used up before it does either. *)
Inductive result (A : Type) : Type :=
| Return (a : A)
| Throw (e : string)
| Pending.
Arguments Return {A} a.
Arguments Throw {A} e.
Arguments Pending {A}.

Definition M (A : Type) : Type := State -> result A * State.

Definition ret {A} (a : A) : M A := fun s => (Return a, s).

Definition bind {A B} (m : M A) (k : A -> M B) : M B :=
  fun s =>
    match m s with
    | (Return a, s') => k a s'
    | (Throw e, s') => (Throw e, s')
    | (Pending, s') => (Pending, s')
    end.

Definition throw {A} (e : string) : M A := fun s => (Throw e, s).

Definition pending {A} : M A := fun s => (Pending, s).

(** [try { body } catch (error) { handler(error) }] *)
Definition try_catch {A} (body : M A) (handler : string -> M A) : M A :=
  fun s =>
    match body s with
    | (Throw e, s') => handler e s'
    | r => r
    end.

Definition gets {A} (f : State -> A) : M A := fun s => (Return (f s), s).

Definition modify (f : State -> State) : M unit := fun s => (Return tt, f s).

Definition emit (e : Event) : M unit :=
  modify (fun s => set_trace (trace s ++ [e]) s).

(** An awaited external operation that may reject. *)
Definition await {A} (e : Event) (oracle : History -> reply A) : M A :=
  fun s =>
    match oracle (trace s) with
    | Ok a => (Return a, set_trace (trace s ++ [e]) s)
    | Err err => (Throw err, set_trace (trace s ++ [e]) s)
    end.

(** An awaited accessor operation that never rejects. *)
Definition request {A} (e : Event) (oracle : History -> A) : M A :=
  fun s => (Return (oracle (trace s)), set_trace (trace s ++ [e]) s).

Declare Scope async_scope.
Delimit Scope async_scope with async.
Notation "x <- m ;; k" := (bind m (fun x => k))
  (at level 61, m at next level, right associativity) : async_scope.
Notation "m ;; k" := (bind m (fun _ => k))
  (at level 61, right associativity) : async_scope.
Local Open Scope async_scope.

(** [handleEthError(error)]: the centralized handler; reporting is an
    observable event. *)
Definition handleEthError (error : string) : M unit :=
  emit (EvHandleEthError error).

(* ===================================================================== *)
(** ** Contract instances of the accessors *)
(* ===================================================================== *)

(** [useContractRegistry]: the reactive address and the computed instance. *)
Module Registry.

(** The computed [contractInstance]: connected to the signer's provider
    when the wallet is connected, else to the read-only default one. *)
Definition contractInstance (s : State) : option (string * Via) :=
  let p := provider s in
  if isConnected p && currentProvider p && Js.truthy (registryAddress s)
  then Some (registryAddress s, ViaCurrent)
  else if defaultProvider p && Js.truthy (registryAddress s)
  then Some (registryAddress s, ViaDefault)
  else None.

Definition init (address : string) : M unit :=
  if negb (Js.truthy address) then ret tt
  else modify (set_registryAddress address).

End Registry.

(** [useMarketplace]: the reactive address and the computed instance. *)
Module Marketplace.

Definition contractInstance (s : State) : option string :=
  if currentProvider (provider s) && Js.truthy (marketAddress s)
  then Some (marketAddress s)
  else None.

Definition init (address : string) : M unit :=
  if negb (Js.truthy address) then ret tt
  else modify (set_marketAddress address).

End Marketplace.

Section Program.

Variable cfg : Config.
Variable w : World.

(* ===================================================================== *)
(** ** Wallet Provider Wrapper ([useMetamask]) *)
(* ===================================================================== *)

Definition with_selectedAddress (a : string) (p : Provider) : Provider :=
  {| chainId := chainId p; selectedAddress := a;
     currentProvider := currentProvider p;
     defaultProvider := defaultProvider p |}.

Definition with_chainId (c : ChainId) (p : Provider) : Provider :=
  {| chainId := c; selectedAddress := selectedAddress p;
     currentProvider := currentProvider p;
     defaultProvider := defaultProvider p |}.

(** The callback registered for the wallet's [disconnect] event. *)
Definition on_disconnect (p : Provider) : Provider :=
  with_selectedAddress "" p.

(** [currentAccounts[0]]; the [undefined] of an empty list is rendered as
    the (equally falsy) empty string. *)
Definition first_account (accounts : list string) : string :=
  hd "" accounts.

Definition _updateProviderState : M unit :=
  try_catch
    (network <- await EvDetectNetwork (w_detectNetwork w) ;;
     modify (fun s => set_provider (with_chainId (ChainNum network) (provider s)) s) ;;
     currentAccounts <- await EvListAccounts (w_listAccounts w) ;;
     modify (fun s =>
       set_provider
         (with_selectedAddress (first_account currentAccounts) (provider s)) s))
    (fun error => handleEthError error).

Definition signAndSendTransaction (txRequestBody : TxRequestBody)
  : M (option TransactionResponse) :=
  try_catch
    (transactionResponse <-
       await (EvSendTransaction txRequestBody)
             (fun h => w_sendTransaction w h txRequestBody) ;;
     await (EvWait transactionResponse)
           (fun h => w_wait w h transactionResponse) ;;
     ret (Some transactionResponse))
    (fun error => handleEthError error ;; ret None).

Definition getBalance (address : string) : M string :=
  balance <- await (EvGetBalance address) (fun h => w_getBalance w h address) ;;
  ret (BN_toString balance).

(** Modelled from the spec: the store's [provider.signAndSendTx] (the
    [useProvider] composable is not among the sources) hands the request
    to the wrapper, which signs, sends and awaits one confirmation. *)
Definition signAndSendTx (tx : TxRequestBody) : M (option TransactionResponse) :=
  signAndSendTransaction tx.

(* ===================================================================== *)
(** ** Contract Registry Accessor ([useContractRegistry]) *)
(* ===================================================================== *)

Definition getMarketPlaceAddress : M (option string) :=
  try_catch
    (inst <- gets Registry.contractInstance ;;
     match inst with
     | None => ret None
     | Some (addr, via) =>
         data <- await (EvGetMarketplaceContract addr via)
                       (fun h => w_getMarketplaceContract w h addr via) ;;
         ret (Some data)
     end)
    (fun error => handleEthError error ;; ret None).

(* ===================================================================== *)
(** ** Marketplace Contract Accessor ([useMarketplace]) *)
(* ===================================================================== *)

Definition getTokenParams (tokenContracts : list string) : M (option Blob) :=
  try_catch
    (inst <- gets Marketplace.contractInstance ;;
     match inst with
     | None => ret None
     | Some c =>
         data <- await (EvGetDetailedTokenInfo c tokenContracts)
                       (fun h => w_getDetailedTokenInfo w h c tokenContracts) ;;
         ret (Some data)
     end)
    (fun error => handleEthError error ;; ret None).

Definition getTokenContractsCount : M (option Z) :=
  try_catch
    (inst <- gets Marketplace.contractInstance ;;
     match inst with
     | None => ret None
     | Some c =>
         data <- await (EvGetActiveTokenContractsCount c)
                       (fun h => w_getActiveTokenContractsCount w h c) ;;
         ret (Some data)
     end)
    (fun error => handleEthError error ;; ret None).

Definition getBooksContracts (limit offset : Z) : M (option (list string)) :=
  try_catch
    (inst <- gets Marketplace.contractInstance ;;
     match inst with
     | None => ret None
     | Some c =>
         data <- await (EvGetTokenContractsPart c offset limit)
                       (fun h => w_getTokenContractsPart w h c offset limit) ;;
         ret (Some data)
     end)
    (fun error => handleEthError error ;; ret None).

Definition getBooksBatch (limit offset : Z) : M (option Blob) :=
  try_catch
    (inst <- gets Marketplace.contractInstance ;;
     match inst with
     | None => ret None
     | Some c =>
         data <- await (EvGetBriefTokenInfoPart c offset limit)
                       (fun h => w_getBriefTokenInfoPart w h c offset limit) ;;
         ret (Some data)
     end)
    (fun error => handleEthError error ;; ret None).

(** [{ to, data, ...(value ? { value } : {}) }] *)
Definition spread_value (value : option string) : option string :=
  Js.nonempty value.

Definition buyTokenWithETH (buyParams : BuyParams) (signature : Signature)
    (value : option string) : M (option TransactionResponse) :=
  inst <- gets Marketplace.contractInstance ;;
  match inst with
  | None => ret None
  | Some _ =>
      try_catch
        (let data := encodeFunctionData "buyTokenWithETH" buyParams signature in
         to <- gets marketAddress ;;
         receipt <- signAndSendTx
                      {| tx_to := to; tx_data := data;
                         tx_value := spread_value value |} ;;
         ret receipt)
        (fun error => handleEthError error ;; ret None)
  end.

Definition buyTokenWithERC20 (buyParams : BuyParams) (signature : Signature)
  : M (option TransactionResponse) :=
  try_catch
    (let data := encodeFunctionData "buyTokenWithERC20" buyParams signature in
     to <- gets marketAddress ;;
     receipt <- signAndSendTx
                  {| tx_to := to; tx_data := data; tx_value := None |} ;;
     ret receipt)
    (fun error => handleEthError error ;; ret None).

Definition buyTokenWithNFT (buyParams : BuyParams) (signature : Signature)
  : M (option TransactionResponse) :=
  try_catch
    (let data := encodeFunctionData "buyTokenWithNFT" buyParams signature in
     to <- gets marketAddress ;;
     receipt <- signAndSendTx
                  {| tx_to := to; tx_data := data; tx_value := None |} ;;
     ret receipt)
    (fun error => handleEthError error ;; ret None).

Definition getUserTokens (userAddress : string) (limit offset : Z)
  : M (option (list UserTokensStructOutput)) :=
  inst <- gets Marketplace.contractInstance ;;
  match inst with
  | None => ret None
  | Some c =>
      try_catch
        (data <- await (EvGetUserTokensPart c userAddress offset limit)
                       (fun h => w_getUserTokensPart w h c userAddress offset limit) ;;
         ret (Some data))
        (fun error => handleEthError error ;; ret None)
  end.

(* ===================================================================== *)
(** ** Token accessors ([useErc20], [useErc721]) and the network store *)
(* ===================================================================== *)

(** Modelled from the spec: [useErc20] is not among the sources.  Its
    [init] follows the accessor contract of the spec (no-op on a falsy
    address, otherwise sets the target contract address). *)
Definition initErc20 (address : string) : M unit :=
  if negb (Js.truthy address) then ret tt
  else modify (set_erc20Address address).

(** Modelled from the spec: reading the allowance a holder granted to a
    spender on the current ERC-20 contract; [undefined] on failure. *)
Definition getAllowance (owner spender : string) : M (option Z) :=
  token <- gets erc20Address ;;
  request (EvErc20Allowance token owner spender)
          (fun h => w_allowance w h token owner spender).

(** Modelled from the spec: an approval transaction on the current ERC-20
    contract; [undefined] on failure. *)
Definition approveErc20 (spender : string) (amount : Z)
  : M (option TransactionResponse) :=
  token <- gets erc20Address ;;
  request (EvErc20Approve token spender amount)
          (fun h => w_erc20Approve w h token spender amount).

(** Modelled from the spec: [useErc721] is not among the sources; [init]
    as for the other accessors. *)
Definition initErc721 (address : string) : M unit :=
  if negb (Js.truthy address) then ret tt
  else modify (set_erc721Address address).

(** Modelled from the spec: the on-chain metadata URI of a token of the
    current collection; [undefined] on failure. *)
Definition tokenURI (tokenId : string) : M (option string) :=
  collection <- gets erc721Address ;;
  request (EvErc721TokenURI collection tokenId)
          (fun h => w_tokenURI w h collection tokenId).

(** Modelled from the spec: per-token approval on the current collection. *)
Definition approveErc721 (spender tokenId : string)
  : M (option TransactionResponse) :=
  collection <- gets erc721Address ;;
  request (EvErc721Approve collection spender tokenId)
          (fun h => w_erc721Approve w h collection spender tokenId).

(** Modelled from the spec: [networkStore.loadNetworks()] fetches the list
    of networks from the backend into [networkStore.list]. *)
Definition loadNetworks : M unit :=
  l <- await EvLoadNetworks (w_loadNetworks w) ;;
  modify (set_networks l).

(* ===================================================================== *)
(** ** Token/Approval Orchestrator ([useNftTokens]) *)
(* ===================================================================== *)

Definition _initMarketPlace (address : option string) : M unit :=
  _marketPlaceAddress <-
    match Js.nonempty address with
    | Some a => ret (Some a)
    | None => getMarketPlaceAddress
    end ;;
  match Js.nonempty _marketPlaceAddress with
  | None => ret tt
  | Some a =>
      modify (set_marketPlaceAddress a) ;;
      Marketplace.init a
  end.

(** [networkStore.list.find(n => n.chain_id === chainId)?.factory_address],
    seen through the [!address] test that follows it. *)
Definition find_registry (chain : Z) (l : list Network) : option string :=
  Js.nonempty
    (option_map factory_address (find (fun n => chain_id n =? chain) l)).

Definition _initContractRegistry (chainId : Z) : M unit :=
  l <- gets networks ;;
  (if (length l =? 0)%nat then loadNetworks else ret tt) ;;
  list <- gets networks ;;
  match find_registry chainId list with
  | None =>
      (* in case we don't have registry on that chain - we use default one *)
      match find_registry (DEFAULT_CHAIN_ID cfg) list with
      | None => throw "failed to get default registry address"
      | Some defaultRegistryAddress => Registry.init defaultRegistryAddress
      end
  | Some appropriateRegistryAddress => Registry.init appropriateRegistryAddress
  end.

(** [allowance?.toString() || 0] *)
Definition allowance_or_0 (allowance : option Z) : Z :=
  match allowance with
  | Some a => a
  | None => 0
  end.

(** The recursion of the source has no bound; [fuel] counts the calls the
    model is willing to follow, and [pending] marks a call still running
    when it is used up. *)
Fixpoint _isErc20TokenApproved (fuel : nat) (tokenAmount : Z)
    (tokenAddress : option string) : M bool :=
  match fuel with
  | O => pending
  | S fuel' =>
      owner <- gets (fun s => selectedAddress (provider s)) ;;
      if negb (Js.truthy owner) then ret false
      else
        match Js.nonempty tokenAddress with
        | Some a => initErc20 a
        | None => ret tt
        end ;;
        spender <- gets marketPlaceAddress ;;
        allowance <- getAllowance owner spender ;;
        let cmp := BN_compare (allowance_or_0 allowance) tokenAmount in
        if (cmp =? 1) || (cmp =? 0) then ret true
        else
          (if cmp =? -1
           then approveErc20 spender tokenAmount ;; ret tt
           else ret tt) ;;
          _isErc20TokenApproved fuel' tokenAmount None
  end.

Definition _formatToken (token : UserTokensStructOutput) : TokensRaw :=
  {| tr_tokenContract := raw_tokenContract token;
     tr_tokenIds := map BN_toString (raw_tokenIds token) |}.

Definition _getPayment (tokenAddress tokenId : string) (pageLimit : option Z)
    (pageOrder : option string) : M (option Payment) :=
  let limit := match pageLimit with
               | Some n => if Js.truthy_num n then n else DEFAULT_PAGE_LIMIT cfg
               | None => DEFAULT_PAGE_LIMIT cfg
               end in
  let order := match Js.nonempty pageOrder with
               | Some o => o
               | None => "desc"
               end in
  data <- await (EvGetPayments limit order tokenId tokenAddress)
                (fun h => w_getPayments w h limit order tokenId tokenAddress) ;;
  ret (hd_error data).

(** [useFetch] settles without rejecting; [data.value] stays [null] when
    the request fails or runs into [timeout]. *)
Definition _loadMetadata (tokenUri : string) (maxTimeout : option Z)
  : M (option NftMetadata) :=
  let timeout := match maxTimeout with
                 | Some t => t
                 | None => MAX_METADATA_WAIT_TIME
                 end in
  request (EvFetchMetadata tokenUri timeout)
          (fun h => w_fetchMetadata w h tokenUri timeout).

(** [for (const tokenId of tokenIds) { ... }] of [getNftList];
    [proccessedData] is the array the loop pushes to. *)
Fixpoint getNftList_tokenIds (tokenContract : string) (tokenIds : list string)
    (proccessedData : list TokenBaseInfo) : M (list TokenBaseInfo) :=
  match tokenIds with
  | [] => ret proccessedData
  | tokenId :: rest =>
      metadataUrl <- tokenURI tokenId ;;
      match Js.nonempty metadataUrl with
      | None => getNftList_tokenIds tokenContract rest proccessedData
      | Some url =>
          metadata <- _loadMetadata url None ;;
          match metadata with
          | None => getNftList_tokenIds tokenContract rest proccessedData
          | Some m =>
              getNftList_tokenIds tokenContract rest
                (proccessedData ++
                   [{| tokenContract := tokenContract;
                       tokenId := tokenId;
                       metadata := m |}])
          end
      end
  end.

(** [for (const { tokenContract, tokenIds } of filteredData) { ... }] *)
Fixpoint getNftList_contracts (filteredData : list TokensRaw)
    (proccessedData : list TokenBaseInfo) : M (list TokenBaseInfo) :=
  match filteredData with
  | [] => ret proccessedData
  | el :: rest =>
      initErc721 (tr_tokenContract el) ;;
      pushed <- getNftList_tokenIds (tr_tokenContract el) (tr_tokenIds el)
                  proccessedData ;;
      getNftList_contracts rest pushed
  end.

Definition has_tokenIds (el : UserTokensStructOutput) : bool :=
  (0 <? length (raw_tokenIds el))%nat.

Definition getNftList (userAddress : string) (limit offset : Z)
  : M (list TokenBaseInfo) :=
  if negb (Js.truthy_num limit) then ret []
  else
    chain <- gets (fun s => Number (chainId (provider s))) ;;
    _initContractRegistry chain ;;
    _initMarketPlace None ;;
    rawData <- getUserTokens userAddress limit offset ;;
    match rawData with
    | None => ret []
    | Some rawData =>
        let filteredData := map _formatToken (filter has_tokenIds rawData) in
        getNftList_contracts filteredData []
    end.

Definition getNft (collectionAddress tokenId : string) : M TokenFullInfo :=
  connected <- gets (fun s => isConnected (provider s)) ;;
  if negb connected then throw "Provider is not connected"
  else
    chain <- gets (fun s => Number (chainId (provider s))) ;;
    _initContractRegistry chain ;;
    _initMarketPlace None ;;
    initErc721 collectionAddress ;;
    metadataUrl <- tokenURI tokenId ;;
    match Js.nonempty metadataUrl with
    | None => throw "Failed to get tokenURI"
    | Some url =>
        metadata <- _loadMetadata url None ;;
        match metadata with
        | None => throw "Failed to get metadata"
        | Some m =>
            paymentInfo <- _getPayment collectionAddress tokenId None None ;;
            ret {| full_tokenContract := collectionAddress;
                   full_tokenId := tokenId;
                   full_metadata := m;
                   full_payment := paymentInfo |}
        end
    end.

Definition mintWithEth (buyParams : BuyParams) (signature : Signature)
    (amountOfEth : string) : M unit :=
  chain <- gets (fun s => chainId (provider s)) ;;
  if negb (chain_truthy chain) then ret tt
  else buyTokenWithETH buyParams signature (Some amountOfEth) ;; ret tt.

Definition mintWithErc20 (buyParams : BuyParams) (signature : Signature)
  : M unit :=
  chain <- gets (fun s => chainId (provider s)) ;;
  if negb (chain_truthy chain) then ret tt
  else buyTokenWithERC20 buyParams signature ;; ret tt.

Definition mintWithNft (buyParams : BuyParams) (signature : Signature)
  : M unit :=
  chain <- gets (fun s => chainId (provider s)) ;;
  if negb (chain_truthy chain) then ret tt
  else buyTokenWithNFT buyParams signature ;; ret tt.

(** [tokenAmount] is [None] for an absent or empty amount string. *)
Definition approveTokenSpend (fuel : nat) (tokenType : TOKEN_TYPES)
    (tokenAmount : option Z) (tokenAddress tokenId : option string) : M unit :=
  owner <- gets (fun s => selectedAddress (provider s)) ;;
  spender <- gets marketPlaceAddress ;;
  if negb (Js.truthy owner) || negb (Js.truthy spender) then ret tt
  else
    match tokenType with
    | erc20 | voucher =>
        match Js.nonempty tokenAddress, tokenAmount with
        | Some a, Some amount =>
            _isErc20TokenApproved fuel amount (Some a) ;; ret tt
        | _, _ => ret tt
        end
    | nft =>
        match Js.nonempty tokenAddress, Js.nonempty tokenId with
        | Some a, Some id =>
            initErc721 a ;;
            approveErc721 spender id ;;
            ret tt
        | _, _ => ret tt
        end
    | native => ret tt
    end.

(** The watcher on [provider.value.chainId] (also run once, immediately). *)
Definition on_chainId_change : M unit :=
  chain <- gets (fun s => Number (chainId (provider s))) ;;
  _initContractRegistry chain ;;
  _initMarketPlace None.

End Program.

(* ===================================================================== *)
(** ** Vocabulary of the statements *)
(* ===================================================================== *)

(** The state after [if (tokenAddress) initErc20(tokenAddress)]. *)
Definition select_token (tokenAddress : option string) (s : State) : State :=
  match Js.nonempty tokenAddress with
  | Some a => set_erc20Address a s
  | None => s
  end.

Definition is_approval (e : Event) : bool :=
  match e with
  | EvErc20Approve _ _ _ => true
  | _ => false
  end.

(** Number of ERC-20 approval transactions requested in a history. *)
Definition approvals (h : History) : nat := length (filter is_approval h).

(** Events of the metadata pipeline: tokenURI reads and metadata fetches. *)
Definition is_metadata_event (e : Event) : bool :=
  match e with
  | EvErc721TokenURI _ _ => true
  | EvFetchMetadata _ _ => true
  | _ => false
  end.

(** [issues_only allowed m]: whatever the state, [m] only appends events
    satisfying [allowed] to the trace. *)
Definition issues_only {A} (allowed : Event -> bool) (m : M A) : Prop :=
  forall s, exists rest,
    trace (snd (m s)) = trace s ++ rest /\ forallb allowed rest = true.

(** An operation that always returns: it neither throws nor stays
    pending. *)
Definition always_returns {A} (m : M A) : Prop :=
  forall s, exists a s', m s = (Return a, s').

(** Everything except the metadata pipeline. *)
Definition not_metadata_event (e : Event) : bool := negb (is_metadata_event e).


(** What [getNftList] keeps of one token when the world answers reads by
    [uri] and fetches by [meta]. *)
Definition kept_entry (uri : string -> string -> option string)
    (meta : string -> option NftMetadata) (contract id : string)
  : list TokenBaseInfo :=
  match Js.nonempty (uri contract id) with
  | None => []
  | Some u =>
      match meta u with
      | None => []
      | Some m => [{| tokenContract := contract; tokenId := id; metadata := m |}]
      end
  end.

Definition kept_entries (uri : string -> string -> option string)
    (meta : string -> option NftMetadata) (filteredData : list TokensRaw)
  : list TokenBaseInfo :=
  flat_map
    (fun el => flat_map (kept_entry uri meta (tr_tokenContract el))
                        (tr_tokenIds el))
    filteredData.

(* ===================================================================== *)
(** ** Sample worlds and states *)
(* ===================================================================== *)

Module Sample.

Definition cfg : Config := {| DEFAULT_CHAIN_ID := 1; DEFAULT_PAGE_LIMIT := 10 |}.

Definition book : NftMetadata :=
  {| md_name := "Book #1"; md_description := "First edition";
     md_image := "ipfs://image/1"; md_external_url := "https://books.example/1" |}.

Definition receipt : TransactionResponse := {| tx_hash := "0xfeed" |}.

(** The amount of the latest approval of a history, if any. *)
Fixpoint approved (h : History) : option Z :=
  match h with
  | [] => None
  | e :: rest =>
      match approved rest with
      | Some a => Some a
      | None =>
          match e with
          | EvErc20Approve _ _ a => Some a
          | _ => None
          end
      end
  end.

Definition uri (collection token : string) : option string :=
  if String.eqb token "1" then Some "ipfs://meta/1"
  else if String.eqb token "2" then Some "ipfs://meta/2"
  else None.

(** The document of token 1 arrives; every other fetch runs into the
    timeout. *)
Definition meta (u : string) : option NftMetadata :=
  if String.eqb u "ipfs://meta/1" then Some book else None.

(** A chain on which approvals take effect and the user owns tokens 1 and
    2 of one collection. *)
Definition online : World :=
  {| w_detectNetwork := fun _ => Ok 1;
     w_listAccounts := fun _ => Ok ["0xA11CE"];
     w_sendTransaction := fun _ _ => Ok receipt;
     w_wait := fun _ _ => Ok tt;
     w_getBalance := fun _ _ => Ok 1000;
     w_loadNetworks :=
       fun _ => Ok [{| chain_id := 1; factory_address := "0xREG" |}];
     w_getMarketplaceContract := fun _ _ _ => Ok "0xMARKET";
     w_getDetailedTokenInfo := fun _ _ _ => Ok "info";
     w_getActiveTokenContractsCount := fun _ _ => Ok 1;
     w_getTokenContractsPart := fun _ _ _ _ => Ok ["0xBOOK"];
     w_getBriefTokenInfoPart := fun _ _ _ _ => Ok "brief";
     w_getUserTokensPart :=
       fun _ _ _ _ _ =>
         Ok [{| raw_tokenContract := "0xBOOK"; raw_tokenIds := [1; 2] |}];
     w_allowance := fun h _ _ _ => approved h;
     w_erc20Approve := fun _ _ _ _ => Some receipt;
     w_tokenURI := fun _ => uri;
     w_erc721Approve := fun _ _ _ _ => Some receipt;
     w_fetchMetadata := fun _ u _ => meta u;
     w_getPayments := fun _ _ _ _ _ => Ok [] |}.


(** Every request is rejected and every accessor hands back [undefined]. *)
Definition offline : World :=
  {| w_detectNetwork := fun _ => Err "offline";
     w_listAccounts := fun _ => Err "offline";
     w_sendTransaction := fun _ _ => Err "offline";
     w_wait := fun _ _ => Err "offline";
     w_getBalance := fun _ _ => Err "offline";
     w_loadNetworks := fun _ => Err "offline";
     w_getMarketplaceContract := fun _ _ _ => Err "offline";
     w_getDetailedTokenInfo := fun _ _ _ => Err "offline";
     w_getActiveTokenContractsCount := fun _ _ => Err "offline";
     w_getTokenContractsPart := fun _ _ _ _ => Err "offline";
     w_getBriefTokenInfoPart := fun _ _ _ _ => Err "offline";
     w_getUserTokensPart := fun _ _ _ _ _ => Err "offline";
     w_allowance := fun _ _ _ _ => None;
     w_erc20Approve := fun _ _ _ _ => None;
     w_tokenURI := fun _ _ _ => None;
     w_erc721Approve := fun _ _ _ _ => None;
     w_fetchMetadata := fun _ _ _ => None;
     w_getPayments := fun _ _ _ _ _ => Err "offline" |}.

(** Freshly constructed composables: nothing connected, nothing
    initialized, nothing requested yet. *)
Definition fresh : State :=
  {| provider := {| chainId := ChainEmpty; selectedAddress := "";
                    currentProvider := true; defaultProvider := true |};
     networks := [];
     registryAddress := ""; marketAddress := ""; marketPlaceAddress := "";
     erc721Address := ""; erc20Address := "";
     trace := [] |}.

(** A wallet connected on chain 1, accessors not yet initialized. *)
Definition connected : State :=
  set_provider
    {| chainId := ChainNum 1; selectedAddress := "0xA11CE";
       currentProvider := true; defaultProvider := true |}
    fresh.

(** The connected wallet once the marketplace address is bound. *)
Definition ready : State :=
  set_marketAddress "0xMARKET" (set_marketPlaceAddress "0xMARKET" connected).

Definition buyParams : BuyParams :=
  {| paymentDetails :=
       {| paymentTokenAddress := "0xTOKEN"; paymentTokenPrice := "100";
          discount := "0"; nftTokenId := "0" |};
     bp_tokenContract := "0xBOOK";
     recipient := "0xA11CE";
     tokenData := {| mint_tokenId := "3"; mint_tokenURI := "ipfs://meta/3" |} |}.

Definition signature : Signature :=
  {| sig_r := "0x01"; sig_s := "0x02"; sig_v := 27; endSigTimestamp := 1700000000 |}.

End Sample.

From Stdlib Require DecimalPos DecimalZ.

(* ===================================================================== *)
(** ** Further vocabulary: traces of the listing and of the approval loop *)
(* ===================================================================== *)

(** [sub] keeps some elements of [l], in their order. *)
Inductive subsequence {A : Type} : list A -> list A -> Prop :=
| subseq_nil : subsequence [] []
| subseq_skip x sub l : subsequence sub l -> subsequence sub (x :: l)
| subseq_keep x sub l : subsequence sub l -> subsequence (x :: sub) (x :: l).

(** The (collection, token id) pair an entry of the listing stands for. *)
Definition entry_key (e : TokenBaseInfo) : string * string :=
  (tokenContract e, tokenId e).

(** Every (collection, token id) pair of an enumeration, in loop order. *)
Definition candidates (filteredData : list TokensRaw) : list (string * string) :=
  flat_map (fun el => map (pair (tr_tokenContract el)) (tr_tokenIds el))
           filteredData.

Definition is_tokenURI_read (e : Event) : bool :=
  match e with
  | EvErc721TokenURI _ _ => true
  | _ => false
  end.

Definition is_metadata_fetch (e : Event) : bool :=
  match e with
  | EvFetchMetadata _ _ => true
  | _ => false
  end.

Definition tokenURI_reads (h : History) : nat :=
  length (filter is_tokenURI_read h).

Definition metadata_fetches (h : History) : nat :=
  length (filter is_metadata_fetch h).

(** One turn of the approval loop: an allowance read found short, then the
    approval it triggers. *)
Definition approval_round (tok owner mp : string) (amt : Z) : History :=
  [EvErc20Allowance tok owner mp; EvErc20Approve tok mp amt].

Fixpoint approval_rounds (n : nat) (tok owner mp : string) (amt : Z) : History :=
  match n with
  | O => []
  | S n' => approval_round tok owner mp amt ++ approval_rounds n' tok owner mp amt
  end.

(** The registry [_initContractRegistry] settles on for a chain: the
    chain's own, else the default chain's. *)
Definition chosen_registry (cfg : Config) (chain : Z) (l : list Network)
  : option string :=
  match find_registry chain l with
  | Some a => Some a
  | None => find_registry (DEFAULT_CHAIN_ID cfg) l
  end.

(** *** Further sample worlds *)

Module Scenario.

(** The wallet reports its network but refuses to list accounts. *)
Definition locked : World :=
  {| w_detectNetwork := fun _ => Ok 5;
     w_listAccounts := fun _ => Err "wallet locked";
     w_sendTransaction := w_sendTransaction Sample.online;
     w_wait := w_wait Sample.online;
     w_getBalance := w_getBalance Sample.online;
     w_loadNetworks := w_loadNetworks Sample.online;
     w_getMarketplaceContract := w_getMarketplaceContract Sample.online;
     w_getDetailedTokenInfo := w_getDetailedTokenInfo Sample.online;
     w_getActiveTokenContractsCount := w_getActiveTokenContractsCount Sample.online;
     w_getTokenContractsPart := w_getTokenContractsPart Sample.online;
     w_getBriefTokenInfoPart := w_getBriefTokenInfoPart Sample.online;
     w_getUserTokensPart := w_getUserTokensPart Sample.online;
     w_allowance := w_allowance Sample.online;
     w_erc20Approve := w_erc20Approve Sample.online;
     w_tokenURI := w_tokenURI Sample.online;
     w_erc721Approve := w_erc721Approve Sample.online;
     w_fetchMetadata := w_fetchMetadata Sample.online;
     w_getPayments := w_getPayments Sample.online |}.

(** Two networks are known; chain 1 is the default one. *)
Definition two_networks : list Network :=
  [{| chain_id := 1; factory_address := "0xREG" |};
   {| chain_id := 137; factory_address := "0xREG137" |}].

Definition payment : Payment :=
  {| pay_amount := "100"; pay_book_id := 1; pay_contract_address := "0xBOOK";
     pay_minted_token_price := "100"; pay_payer_address := "0xA11CE";
     pay_payment_token_price := "1"; pay_purchase_timestamp := "1700000000";
     pay_token_id := 1;
     pay_erc20_data :=
       {| erc20_address := "0xTOKEN"; erc20_symbol := "TKN";
          erc20_name := "Token"; erc20_decimals := 18 |};
     pay_type := erc20 |}.

(** The sample chain with one payment on record for every token. *)
Definition with_payment : World :=
  {| w_detectNetwork := w_detectNetwork Sample.online;
     w_listAccounts := w_listAccounts Sample.online;
     w_sendTransaction := w_sendTransaction Sample.online;
     w_wait := w_wait Sample.online;
     w_getBalance := w_getBalance Sample.online;
     w_loadNetworks := w_loadNetworks Sample.online;
     w_getMarketplaceContract := w_getMarketplaceContract Sample.online;
     w_getDetailedTokenInfo := w_getDetailedTokenInfo Sample.online;
     w_getActiveTokenContractsCount := w_getActiveTokenContractsCount Sample.online;
     w_getTokenContractsPart := w_getTokenContractsPart Sample.online;
     w_getBriefTokenInfoPart := w_getBriefTokenInfoPart Sample.online;
     w_getUserTokensPart := w_getUserTokensPart Sample.online;
     w_allowance := w_allowance Sample.online;
     w_erc20Approve := w_erc20Approve Sample.online;
     w_tokenURI := w_tokenURI Sample.online;
     w_erc721Approve := w_erc721Approve Sample.online;
     w_fetchMetadata := w_fetchMetadata Sample.online;
     w_getPayments := fun _ _ _ _ _ => Ok [payment] |}.

End Scenario.

(* ===================================================================== *)
(** ** Wallet requests of the wrapper: connecting and adding chains *)
(* ===================================================================== *)

Module Wallet.

(** [NativeCurrency] of a chain to be added. *)
Record NativeCurrency := {
  nc_name : string;
  nc_symbol : string;
  nc_decimals : Z
}.

(** What [getNetworkInfo] knows of a chain. *)
Record NetworkURLs := {
  rpcUrl : string;
  blockExplorerUrl : string
}.

(** What [networkStore.getNetworkByID] knows of a chain. *)
Record NetworkInfo := {
  net_name : string;
  token_name : string;
  token_symbol : string;
  decimals : Z
}.

(** What the wrapper asks of the browser, of the wallet and of the error
    reporters. *)
Inductive Action : Type :=
| WindowOpen (url : string)
| LocationReload
| ConnectEthAccounts
| RequestSwitchEthChain (chain : Z)
| RequestAddEthChain (chain : Z) (chainName chainRpcUrl : string)
    (nativeCurrency : NativeCurrency) (explorerUrl : string)
| HandleEthError (error : string)
| ErrorHandlerProcess (error : string).

(** The runtime and the helpers of [@/helpers] the wrapper relies on;
    requests see the actions taken so far. *)
Record Env := {
  isMobile : bool;
  userAgentIncludesMetaMask : bool;
  APP_URL : string;
  window_open : list Action -> string -> reply unit;
  connectEthAccounts : list Action -> reply unit;
  requestSwitchEthChain : list Action -> Z -> reply unit;
  requestAddEthChain :
    list Action -> Z -> string -> string -> NativeCurrency -> string -> reply unit;
  getNetworkInfo : ChainId -> option NetworkURLs;
  getNetworkByID : Z -> option NetworkInfo
}.

(** Code of the wrapper that only talks to the wallet: a log of actions
    with exceptions. *)
Definition W (A : Type) : Type := list Action -> result A * list Action.

Definition ret {A} (a : A) : W A := fun h => (Return a, h).

Definition bind {A B} (m : W A) (k : A -> W B) : W B :=
  fun h =>
    match m h with
    | (Return a, h') => k a h'
    | (Throw e, h') => (Throw e, h')
    | (Pending, h') => (Pending, h')
    end.

Definition throw {A} (e : string) : W A := fun h => (Throw e, h).

Definition try_catch {A} (body : W A) (handler : string -> W A) : W A :=
  fun h =>
    match body h with
    | (Throw e, h') => handler e h'
    | r => r
    end.

Definition act (a : Action) : W unit := fun h => (Return tt, h ++ [a]).

Definition await (a : Action) (answer : list Action -> reply unit) : W unit :=
  fun h =>
    match answer h with
    | Ok _ => (Return tt, h ++ [a])
    | Err e => (Throw e, h ++ [a])
    end.

Section Wrapper.

Variable env : Env.

Definition redirect : W unit :=
  try_catch
    (await (WindowOpen (APP_URL env)) (fun h => window_open env h (APP_URL env)))
    (fun _ => act LocationReload).

Definition connect : W unit :=
  try_catch
    (if isMobile env && negb (userAgentIncludesMetaMask env)
     then redirect
     else await ConnectEthAccounts (connectEthAccounts env))
    (fun error => act (HandleEthError error)).

Definition switchChain (chainId : ChainId) : W unit :=
  try_catch
    (await (RequestSwitchEthChain (Number chainId))
           (fun h => requestSwitchEthChain env h (Number chainId)))
    (fun error => act (HandleEthError error)).

Definition addChain (chainId : ChainId) (chainName chainRpcUrl : string)
    (nativeCurrency : NativeCurrency) (blockExplorerUrl : string) : W unit :=
  try_catch
    (await (RequestAddEthChain (Number chainId) chainName chainRpcUrl
              nativeCurrency blockExplorerUrl)
           (fun h => requestAddEthChain env h (Number chainId) chainName
                       chainRpcUrl nativeCurrency blockExplorerUrl))
    (fun error => act (HandleEthError error)).

Definition addNetwork (chainID : ChainId) : W unit :=
  try_catch
    (let networkURLs := getNetworkInfo env chainID in
     let networkInfo := getNetworkByID env (Number chainID) in
     match networkInfo, networkURLs with
     | Some networkInfo, Some networkURLs =>
         addChain chainID (net_name networkInfo) (rpcUrl networkURLs)
           {| nc_name := token_name networkInfo;
              nc_symbol := token_symbol networkInfo;
              nc_decimals := decimals networkInfo |}
           (blockExplorerUrl networkURLs)
     | _, _ => throw "Unsupported network"
     end)
    (fun error => act (ErrorHandlerProcess error)).

End Wrapper.

Definition is_wallet_request (a : Action) : bool :=
  match a with
  | ConnectEthAccounts => true
  | RequestSwitchEthChain _ => true
  | RequestAddEthChain _ _ _ _ _ => true
  | _ => false
  end.

(** A phone browser without the wallet, where opening windows works. *)
Definition phone : Env :=
  {| isMobile := true;
     userAgentIncludesMetaMask := false;
     APP_URL := "https://metamask.app.link/dapp/books.example/";
     window_open := fun _ _ => Ok tt;
     connectEthAccounts := fun _ => Ok tt;
     requestSwitchEthChain := fun _ _ => Ok tt;
     requestAddEthChain := fun _ _ _ _ _ _ => Ok tt;
     getNetworkInfo := fun _ => None;
     getNetworkByID := fun _ => None |}.

(** A desktop browser whose wallet rejects what it is asked, and which
    knows chain 137. *)
Definition desktop : Env :=
  {| isMobile := false;
     userAgentIncludesMetaMask := false;
     APP_URL := "https://metamask.app.link/dapp/books.example/";
     window_open := fun _ _ => Ok tt;
     connectEthAccounts := fun _ => Err "User rejected the request";
     requestSwitchEthChain := fun _ _ => Err "Unrecognized chain";
     requestAddEthChain := fun _ _ _ _ _ _ => Err "User rejected the request";
     getNetworkInfo :=
       fun c => if Number c =? 137
                then Some {| rpcUrl := "https://rpc.example/137";
                             blockExplorerUrl := "https://scan.example/137" |}
                else None;
     getNetworkByID :=
       fun c => if c =? 137
                then Some {| net_name := "Polygon"; token_name := "Matic";
                             token_symbol := "MATIC"; decimals := 18 |}
                else None |}.

End Wallet.

(* ===================================================================== *)
(** ** Formatting helpers *)
(* ===================================================================== *)

Module Formatting.

(** Addresses are ASCII, so the UTF-16 units [slice] counts are the
    characters of the string. *)

(** [s.slice(0, n)] *)
Definition slice_to (n : nat) (s : string) : string := substring 0 n s.

(** [s.slice(-n)]: the last [n] characters, the whole string when it is
    shorter. *)
Definition slice_last (n : nat) (s : string) : string :=
  substring (String.length s - n) n s.

Definition cropAddress (address : string) : string :=
  (slice_to 6 address ++ "..." ++ slice_last 5 address)%string.

End Formatting.

(* ===================================================================== *)
(** ** The context-menu listener of the image editor *)
(* ===================================================================== *)

Module ContextMenu.

(** [enum MOUSE_BUTTONS { left, middle, right }] *)
Definition MOUSE_left : Z := 0.
Definition MOUSE_middle : Z := 1.
Definition MOUSE_right : Z := 2.

Section Listener.

(** Canvas objects, pointer positions and the hit test of the graphics
    library. *)
Variable Obj : Type.
Variable Point : Type.
Variable containsPoint : Obj -> Point -> bool.

(** The part of the canvas the listener reads and writes, with the
    reactive [contextMenuState]. *)
Record Canvas := {
  objects : list Obj;            (* canvas.getObjects() *)
  activeObject : option Obj;
  contextMenuState : bool
}.

(** The [mouse:down] callback; [pointer] is [canvas.getPointer(event.e)]. *)
Definition on_mouse_down (button : Z) (pointer : Point) (canvas : Canvas)
  : Canvas :=
  if negb (button =? MOUSE_right) then canvas
  else
    match find (fun object => containsPoint object pointer) (objects canvas) with
    | None => canvas
    | Some target =>
        {| objects := objects canvas;
           activeObject := Some target;
           contextMenuState := negb (contextMenuState canvas) |}
    end.

End Listener.

End ContextMenu.

(* ===================================================================== *)
(** ** Style switches of the text tool *)
(* ===================================================================== *)

Module TextStyle.

(** A [fontWeight]: [string | number]. *)
Inductive FontWeight : Type :=
| WeightName (name : string)
| WeightNumber (n : Z).

(** [value.fontWeight === 'bold'] *)
Definition is_bold (v : FontWeight) : bool :=
  match v with
  | WeightName name => String.eqb name "bold"
  | WeightNumber _ => false
  end.

(** [wholeTextStyle] of [switchBoldness]. *)
Definition bold_wholeTextStyle (currentStyle : FontWeight) : string :=
  if negb (is_bold currentStyle) then "bold" else "normal".

(** [selectionStyle] of [switchBoldness]; the selection is given by the
    weights of its characters. *)
Definition bold_selectionStyle (currentSelection : list FontWeight) : string :=
  let boldChars :=
    fold_left (fun count value => if is_bold value then (count + 1)%nat else count)
              currentSelection 0%nat in
  if (boldChars =? length currentSelection)%nat then "normal" else "bold".

(** [wholeTextStyle] of [switchItalic]. *)
Definition italic_wholeTextStyle (currentStyle : string) : string :=
  if String.eqb currentStyle "italic" then "normal" else "italic".

(** [selectionStyle] of [switchItalic]; the selection is given by the
    font styles of its characters. *)
Definition italic_selectionStyle (currentSelection : list string) : string :=
  let italicChars :=
    fold_left (fun count value =>
                 if String.eqb value "italic" then (count + 1)%nat else count)
              currentSelection 0%nat in
  if (italicChars =? length currentSelection)%nat then "normal" else "italic".

End TextStyle.

(* ===================================================================== *)
(** ** The contract of a marketplace read *)
(* ===================================================================== *)

(** One guarded contract read: nothing without a contract instance;
    otherwise one call [ev c], whose rejection is reported and turned into
    [undefined]. *)
Definition read_outcome {A} (ev : string -> Event)
    (answer : History -> string -> reply A) (s : State)
  : result (option A) * State :=
  match Marketplace.contractInstance s with
  | None => (Return None, s)
  | Some c =>
      match answer (trace s) c with
      | Ok a => (Return (Some a), set_trace (trace s ++ [ev c]) s)
      | Err e =>
          (Return None, set_trace (trace s ++ [ev c; EvHandleEthError e]) s)
      end
  end.

(* ===================================================================== *)
(** ** The metadata pass of the listing, told flat *)
(* ===================================================================== *)

(** One pass over (collection, token id) pairs from history [h]: the
    tokenURI of the pair is read on its collection; if a non-empty URI
    comes back its metadata is fetched with the fixed timeout; the token
    is kept if a document comes back.  Yields the history reached and the
    tokens kept. *)
Fixpoint listing_pass (w : World) (h : History) (pairs : list (string * string))
  : History * list TokenBaseInfo :=
  match pairs with
  | [] => (h, [])
  | (collection, id) :: rest =>
      let h1 := h ++ [EvErc721TokenURI collection id] in
      match Js.nonempty (w_tokenURI w h collection id) with
      | None => listing_pass w h1 rest
      | Some u =>
          let h2 := h1 ++ [EvFetchMetadata u MAX_METADATA_WAIT_TIME] in
          match w_fetchMetadata w h1 u MAX_METADATA_WAIT_TIME with
          | None => listing_pass w h2 rest
          | Some m =>
              let (h', kept) := listing_pass w h2 rest in
              (h', {| tokenContract := collection; tokenId := id;
                      metadata := m |} :: kept)
          end
      end
  end.




(* ===================================================================== *)
(** * Properties *)
(* ===================================================================== *)

(** ** Truthiness and connection state *)

Lemma truthy_false_iff s : Js.truthy s = false <-> s = "".
Proof.
  unfold Js.truthy. rewrite negb_false_iff. apply String.eqb_eq.
Qed.

Lemma truthy_true_iff s : Js.truthy s = true <-> s <> "".
Proof.
  unfold Js.truthy. rewrite negb_true_iff. apply String.eqb_neq.
Qed.

Lemma nonempty_Some_iff o s : Js.nonempty o = Some s <-> o = Some s /\ s <> "".
Proof.
  destruct o as [t|]; simpl.
  - destruct (Js.truthy t) eqn:E.
    + apply truthy_true_iff in E. split.
      * intros [= ->]. now split.
      * now intros [[= ->] _].
    + apply truthy_false_iff in E. subst t. split; [discriminate|].
      intros [[= <-] H]. now elim H.
  - split; [discriminate | now intros [? _]].
Qed.

(** The wallet counts as disconnected exactly when the selected address is
    empty or the chain id is falsy (the initial empty string, or 0). *)
Lemma isConnected_false_iff p :
  isConnected p = false <->
  selectedAddress p = "" \/ chain_truthy (chainId p) = false.
Proof.
  unfold isConnected. rewrite andb_false_iff, truthy_false_iff. tauto.
Qed.

Lemma isConnected_empty_address p : selectedAddress p = "" -> isConnected p = false.
Proof. intros H. apply isConnected_false_iff. now left. Qed.

Lemma isConnected_empty_chain p : chainId p = ChainEmpty -> isConnected p = false.
Proof. intros H. apply isConnected_false_iff. right. now rewrite H. Qed.

(** ** The [disconnect] handler *)

(** C9. The wallet [disconnect] handler clears only the selected address:
    afterwards [selectedAddress] is the empty string, [chainId] (and the
    provider handles) keep their values, and the derived [isConnected] is
    false. *)
Theorem disconnect_clears_only_selectedAddress (p : Provider) :
  selectedAddress (on_disconnect p) = "" /\
  chainId (on_disconnect p) = chainId p /\
  currentProvider (on_disconnect p) = currentProvider p /\
  defaultProvider (on_disconnect p) = defaultProvider p /\
  isConnected (on_disconnect p) = false.
Proof.
  repeat split.
Qed.

(** ** Early exits of the orchestrator *)

(** C8. With [limit = 0], [getNftList] returns the empty list at once: the
    state, and with it the trace of external calls, is left as it was,
    whatever the provider state and whatever the world would answer. *)
Theorem getNftList_limit_zero
    (cfg : Config) (w : World) (userAddress : string) (offset : Z) (s : State) :
  getNftList cfg w userAddress 0 offset s = (Return [], s).
Proof.
  reflexivity.
Qed.

(** C4. While the provider is not connected, [getNft] throws
    'Provider is not connected' and leaves the state untouched: no event
    (registry, marketplace, ERC-721 or HTTP) is issued before the throw. *)
Theorem getNft_not_connected
    (cfg : Config) (w : World) (collectionAddress tokenId : string) (s : State) :
  isConnected (provider s) = false ->
  getNft cfg w collectionAddress tokenId s
  = (Throw "Provider is not connected", s).
Proof.
  intros H. unfold getNft, bind, gets. now rewrite H.
Qed.

(** C4, at a wallet that never connected. *)
Lemma getNft_not_connected_witness :
  getNft Sample.cfg Sample.online "0xBOOK" "1" Sample.fresh
  = (Throw "Provider is not connected", Sample.fresh).
Proof.
  apply (getNft_not_connected Sample.cfg Sample.online "0xBOOK" "1" Sample.fresh).
  reflexivity.
Defined.

(** ** The allowance check *)

Lemma BN_compare_ge a b :
  (BN_compare a b =? 1) || (BN_compare a b =? 0) = (b <=? a).
Proof.
  unfold BN_compare. destruct (Z.compare_spec a b); simpl; symmetry.
  - apply Z.leb_le. lia.
  - apply Z.leb_gt. lia.
  - apply Z.leb_le. lia.
Qed.

Lemma BN_compare_lt a b : (b <=? a) = false -> (BN_compare a b =? -1) = true.
Proof.
  intros H. apply Z.leb_gt in H. unfold BN_compare.
  destruct (Z.compare_spec a b); (reflexivity || lia).
Qed.

Lemma nonempty_truthy o a : Js.nonempty o = Some a -> Js.truthy a = true.
Proof.
  intros H. apply nonempty_Some_iff in H. now apply truthy_true_iff.
Qed.

Lemma select_token_frame addr s :
  provider (select_token addr s) = provider s /\
  marketPlaceAddress (select_token addr s) = marketPlaceAddress s /\
  trace (select_token addr s) = trace s.
Proof.
  unfold select_token. now destruct (Js.nonempty addr).
Qed.

(** One call of [_isErc20TokenApproved] by a selected address: a single
    allowance read, then either [true] or one approval and the recursive
    call. *)
Lemma _isErc20TokenApproved_step (w : World) fuel amt addr s :
  Js.truthy (selectedAddress (provider s)) = true ->
  let s1 := select_token addr s in
  let tok := erc20Address s1 in
  let owner := selectedAddress (provider s) in
  let mp := marketPlaceAddress s in
  _isErc20TokenApproved w (S fuel) amt addr s =
  if amt <=? allowance_or_0 (w_allowance w (trace s) tok owner mp)
  then (Return true, set_trace (trace s ++ [EvErc20Allowance tok owner mp]) s1)
  else _isErc20TokenApproved w fuel amt None
         (set_trace (trace s ++ [EvErc20Allowance tok owner mp;
                                 EvErc20Approve tok mp amt]) s1).
Proof.
  intros H s1 tok owner mp.
  assert (E1 : (match Js.nonempty addr with
                | Some a => initErc20 a
                | None => ret tt
                end) s = (Return tt, s1)).
  { unfold s1, select_token. destruct (Js.nonempty addr) eqn:E; [|reflexivity].
    unfold initErc20. now rewrite (nonempty_truthy _ _ E). }
  destruct (select_token_frame addr s) as (_ & T2 & T1). fold s1 in T1, T2.
  cbn [_isErc20TokenApproved]. unfold bind at 1, gets at 1. rewrite H. cbn [negb].
  unfold bind at 1. rewrite E1.
  unfold bind at 1, gets at 1.
  unfold bind at 1, getAllowance, bind at 1, gets at 1, request.
  rewrite T1, T2. fold tok owner mp.
  rewrite BN_compare_ge.
  destruct (amt <=? _) eqn:Hle.
  - reflexivity.
  - unfold bind at 1. rewrite (BN_compare_lt _ _ Hle).
    unfold bind at 1, approveErc20, bind at 1, gets at 1, request, ret.
    cbn. rewrite <- app_assoc. reflexivity.
Qed.

Lemma _isErc20TokenApproved_no_address (w : World) fuel amt addr s :
  Js.truthy (selectedAddress (provider s)) = false ->
  _isErc20TokenApproved w (S fuel) amt addr s = (Return false, s).
Proof.
  intros H. cbn [_isErc20TokenApproved]. unfold bind, gets. now rewrite H.
Qed.

(** The trace only grows, and everything but the trace and the ERC-20
    target is left alone. *)
Lemma _isErc20TokenApproved_extends (w : World) amt fuel :
  forall addr s,
    let out := snd (_isErc20TokenApproved w fuel amt addr s) in
    provider out = provider s /\
    marketPlaceAddress out = marketPlaceAddress s /\
    exists rest, trace out = trace s ++ rest.
Proof.
  induction fuel as [|fuel IH]; intros addr s out.
  - repeat split. exists []. subst out. simpl. now rewrite app_nil_r.
  - subst out. destruct (Js.truthy (selectedAddress (provider s))) eqn:H.
    + rewrite (_isErc20TokenApproved_step w fuel amt addr s H).
      destruct (select_token_frame addr s) as (P & Q & R).
      destruct (amt <=? _).
      * simpl. repeat split; auto. eauto.
      * match goal with |- context [_isErc20TokenApproved w fuel amt None ?st] =>
          destruct (IH None st) as (P' & Q' & rest & R') end.
        rewrite P', Q'. simpl. repeat split; auto.
        rewrite R'. simpl. rewrite <- app_assoc. eauto.
    + rewrite (_isErc20TokenApproved_no_address w fuel amt addr s H). simpl.
      repeat split. exists []. now rewrite app_nil_r.
Qed.

(** C10. With no selected wallet address, [_isErc20TokenApproved] returns
    [false] at once and [approveTokenSpend] (for every token type, ERC-20
    and voucher among them) returns at its own guard: the state, trace
    included, is unchanged, so no allowance is read and no approval
    issued. *)
Theorem no_selected_address_no_approval (w : World) (fuel : nat) (amt : Z)
    (addr : option string) (tokenType : TOKEN_TYPES) (tokenAmount : option Z)
    (tokenAddress tokenId : option string) (s : State) :
  selectedAddress (provider s) = "" ->
  _isErc20TokenApproved w (S fuel) amt addr s = (Return false, s) /\
  approveTokenSpend w fuel tokenType tokenAmount tokenAddress tokenId s
  = (Return tt, s).
Proof.
  intros H. split.
  - apply _isErc20TokenApproved_no_address. now apply truthy_false_iff.
  - unfold approveTokenSpend, bind, gets. now rewrite H.
Qed.

Lemma no_selected_address_no_approval_witness :
  _isErc20TokenApproved Sample.online 1 100 (Some "0xTOKEN") Sample.fresh
  = (Return false, Sample.fresh) /\
  approveTokenSpend Sample.online 0 erc20 (Some 100) (Some "0xTOKEN") None
    Sample.fresh
  = (Return tt, Sample.fresh).
Proof.
  apply (no_selected_address_no_approval Sample.online 0 100 (Some "0xTOKEN")
           erc20 (Some 100) (Some "0xTOKEN") None Sample.fresh).
  reflexivity.
Defined.

(** C1. A call by a selected address reads the allowance once.  If it
    covers the amount the call returns [true] and the only event is that
    read (no approval).  If it is short, the call continues as the
    recursive call from a state whose trace gained that read and exactly
    one approval of [amt]; the next event the recursion issues is the
    re-read of the allowance. *)
Theorem allowance_check_decides_approval (w : World) (fuel : nat) (amt : Z)
    (addr : option string) (s : State) :
  Js.truthy (selectedAddress (provider s)) = true ->
  let s1 := select_token addr s in
  let tok := erc20Address s1 in
  let owner := selectedAddress (provider s) in
  let mp := marketPlaceAddress s in
  let allowance := allowance_or_0 (w_allowance w (trace s) tok owner mp) in
  (amt <= allowance ->
   _isErc20TokenApproved w (S fuel) amt addr s
   = (Return true, set_trace (trace s ++ [EvErc20Allowance tok owner mp]) s1))
  /\
  (allowance < amt ->
   _isErc20TokenApproved w (S fuel) amt addr s
   = _isErc20TokenApproved w fuel amt None
       (set_trace (trace s ++ [EvErc20Allowance tok owner mp;
                               EvErc20Approve tok mp amt]) s1)
   /\
   exists rest,
     trace (snd (_isErc20TokenApproved w (S (S fuel)) amt addr s))
     = trace s ++ [EvErc20Allowance tok owner mp;
                   EvErc20Approve tok mp amt;
                   EvErc20Allowance tok owner mp] ++ rest).
Proof.
  intros H s1 tok owner mp allowance.
  destruct (select_token_frame addr s) as (P & Q & R).
  split.
  - intros Hge. rewrite (_isErc20TokenApproved_step w fuel amt addr s H).
    fold s1 tok owner mp allowance.
    now rewrite (proj2 (Z.leb_le amt allowance) Hge).
  - intros Hlt.
    assert (Hleb : (amt <=? allowance) = false) by now apply Z.leb_gt.
    split.
    + rewrite (_isErc20TokenApproved_step w fuel amt addr s H).
      fold s1 tok owner mp allowance. now rewrite Hleb.
    + rewrite (_isErc20TokenApproved_step w (S fuel) amt addr s H).
      fold s1 tok owner mp allowance. rewrite Hleb.
      set (s2 := set_trace _ s1).
      assert (H2 : Js.truthy (selectedAddress (provider s2)) = true).
      { subst s2. simpl. fold s1 in P. now rewrite P. }
      rewrite (_isErc20TokenApproved_step w fuel amt None s2 H2).
      assert (E : select_token None s2 = s2) by reflexivity. rewrite E.
      assert (Etok : erc20Address s2 = tok) by reflexivity.
      assert (Eown : selectedAddress (provider s2) = owner).
      { subst s2 owner. simpl. fold s1 in P. now rewrite P. }
      assert (Emp : marketPlaceAddress s2 = mp).
      { subst s2 mp. simpl. now fold s1 in Q. }
      rewrite Etok, Eown, Emp.
      destruct (amt <=? allowance_or_0 (w_allowance w (trace s2) tok owner mp)).
      * exists []. subst s2. simpl. now rewrite <- app_assoc.
      * match goal with |- context [_isErc20TokenApproved w fuel amt None ?st] =>
          destruct (_isErc20TokenApproved_extends w amt fuel None st)
            as (_ & _ & rest & Hr) end.
        exists (EvErc20Approve tok mp amt :: rest).
        rewrite Hr. subst s2. simpl. now rewrite <- !app_assoc.
Qed.

(** When the approval takes effect the second read settles the call: two
    calls deep the result is [true], after exactly one approval. *)
Lemma _isErc20TokenApproved_effective_approval (w : World) fuel amt addr s :
  Js.truthy (selectedAddress (provider s)) = true ->
  let s1 := select_token addr s in
  let tok := erc20Address s1 in
  let owner := selectedAddress (provider s) in
  let mp := marketPlaceAddress s in
  let round := [EvErc20Allowance tok owner mp; EvErc20Approve tok mp amt] in
  allowance_or_0 (w_allowance w (trace s) tok owner mp) < amt ->
  amt <= allowance_or_0 (w_allowance w (trace s ++ round) tok owner mp) ->
  _isErc20TokenApproved w (S (S fuel)) amt addr s
  = (Return true,
     set_trace (trace s ++ round ++ [EvErc20Allowance tok owner mp]) s1).
Proof.
  intros H s1 tok owner mp round Hlow Hhigh.
  destruct (select_token_frame addr s) as (P & Q & R).
  rewrite (_isErc20TokenApproved_step w (S fuel) amt addr s H).
  fold s1 tok owner mp. rewrite (proj2 (Z.leb_gt _ _) Hlow).
  fold round. set (s2 := set_trace (trace s ++ round) s1).
  assert (H2 : Js.truthy (selectedAddress (provider s2)) = true).
  { subst s2. simpl. fold s1 in P. now rewrite P. }
  rewrite (_isErc20TokenApproved_step w fuel amt None s2 H2).
  assert (Eown : selectedAddress (provider s2) = owner).
  { subst s2 owner. simpl. fold s1 in P. now rewrite P. }
  assert (Emp : marketPlaceAddress s2 = mp).
  { subst s2 mp. simpl. now fold s1 in Q. }
  assert (E : select_token None s2 = s2) by reflexivity.
  rewrite E, Eown, Emp.
  assert (Etok : erc20Address s2 = tok) by reflexivity. rewrite Etok.
  assert (Etr : trace s2 = trace s ++ round) by reflexivity. rewrite Etr.
  rewrite (proj2 (Z.leb_le _ _) Hhigh).
  subst s2. simpl. now rewrite <- app_assoc.
Qed.

(** C1 on the sample chain: once 100 is approved a request for 100 returns
    [true] after a single read; with nothing approved yet it costs one
    approval between two reads. *)
Lemma allowance_check_decides_approval_witness :
  _isErc20TokenApproved Sample.online 1 100 None
    (set_erc20Address "0xTOKEN"
       (set_trace [EvErc20Approve "0xTOKEN" "0xMARKET" 100] Sample.ready))
  = (Return true,
     set_erc20Address "0xTOKEN"
       (set_trace [EvErc20Approve "0xTOKEN" "0xMARKET" 100;
                   EvErc20Allowance "0xTOKEN" "0xA11CE" "0xMARKET"]
          Sample.ready))
  /\
  exists rest,
    trace (snd (_isErc20TokenApproved Sample.online 2 100 (Some "0xTOKEN")
                  Sample.ready))
    = [EvErc20Allowance "0xTOKEN" "0xA11CE" "0xMARKET";
       EvErc20Approve "0xTOKEN" "0xMARKET" 100;
       EvErc20Allowance "0xTOKEN" "0xA11CE" "0xMARKET"] ++ rest.
Proof.
  split.
  - apply (allowance_check_decides_approval Sample.online 0 100 None
             (set_erc20Address "0xTOKEN"
                (set_trace [EvErc20Approve "0xTOKEN" "0xMARKET" 100]
                   Sample.ready)));
      [reflexivity | vm_compute; discriminate].
  - apply (allowance_check_decides_approval Sample.online 0 100
             (Some "0xTOKEN") Sample.ready); reflexivity.
Defined.

(** ** The approval recursion has no bound *)

Lemma _isErc20TokenApproved_returns (w : World) amt fuel :
  forall addr s b s',
    _isErc20TokenApproved w fuel amt addr s = (Return b, s') ->
    (Js.truthy (selectedAddress (provider s)) = false /\ b = false /\ s' = s)
    \/
    (Js.truthy (selectedAddress (provider s)) = true /\ b = true /\
     exists h tok,
       trace s' = h ++ [EvErc20Allowance tok (selectedAddress (provider s))
                          (marketPlaceAddress s)] /\
       amt <= allowance_or_0
                (w_allowance w h tok (selectedAddress (provider s))
                   (marketPlaceAddress s))).
Proof.
  induction fuel as [|fuel IH]; intros addr s b s' Hrun; [discriminate|].
  destruct (Js.truthy (selectedAddress (provider s))) eqn:H.
  - right. split; [reflexivity|].
    rewrite (_isErc20TokenApproved_step w fuel amt addr s H) in Hrun.
    destruct (select_token_frame addr s) as (P & Q & R).
    destruct (amt <=? _) eqn:Hle.
    + injection Hrun as <- <-. split; [reflexivity|].
      exists (trace s), (erc20Address (select_token addr s)). split.
      * reflexivity.
      * now apply Z.leb_le.
    + apply IH in Hrun. simpl in Hrun. rewrite P, Q in Hrun.
      destruct Hrun as [(Hf & _) | (_ & Hb & Hex)]; [congruence|].
      split; assumption.
  - left. rewrite (_isErc20TokenApproved_no_address w fuel amt addr s H) in Hrun.
    injection Hrun as <- <-. auto.
Qed.

Lemma _isErc20TokenApproved_never_throws (w : World) amt fuel :
  forall addr s e s', _isErc20TokenApproved w fuel amt addr s <> (Throw e, s').
Proof.
  induction fuel as [|fuel IH]; intros addr s e s'; [discriminate|].
  destruct (Js.truthy (selectedAddress (provider s))) eqn:H.
  - rewrite (_isErc20TokenApproved_step w fuel amt addr s H).
    destruct (amt <=? _); [discriminate | apply IH].
  - rewrite (_isErc20TokenApproved_no_address w fuel amt addr s H). discriminate.
Qed.

Lemma approvals_app h1 h2 : approvals (h1 ++ h2) = (approvals h1 + approvals h2)%nat.
Proof.
  unfold approvals. now rewrite filter_app, length_app.
Qed.

Lemma _isErc20TokenApproved_diverges (w : World) amt owner mp :
  (forall h tok, allowance_or_0 (w_allowance w h tok owner mp) < amt) ->
  forall fuel addr s,
    selectedAddress (provider s) = owner ->
    marketPlaceAddress s = mp ->
    Js.truthy owner = true ->
    fst (_isErc20TokenApproved w fuel amt addr s) = Pending /\
    approvals (trace (snd (_isErc20TokenApproved w fuel amt addr s)))
    = (approvals (trace s) + fuel)%nat.
Proof.
  intros Hlow. induction fuel as [|fuel IH]; intros addr s Ho Hm Ht.
  - simpl. split; [reflexivity | lia].
  - assert (H : Js.truthy (selectedAddress (provider s)) = true) by now rewrite Ho.
    rewrite (_isErc20TokenApproved_step w fuel amt addr s H).
    destruct (select_token_frame addr s) as (P & Q & R).
    rewrite Ho, Hm.
    rewrite (proj2 (Z.leb_gt _ _) (Hlow (trace s) _)).
    match goal with |- context [_isErc20TokenApproved w fuel amt None ?st] =>
      destruct (IH None st) as (F & A) end.
    + simpl. now rewrite P.
    + simpl. now rewrite Q.
    + assumption.
    + split; [assumption|]. rewrite A. simpl. rewrite approvals_app.
      unfold approvals at 2. simpl. lia.
Qed.

(** C2. [_isErc20TokenApproved] returns only in two ways: [false] with
    nothing done when no address is selected, or [true] right after an
    allowance read that covers the amount.  It never throws.  When every
    allowance read stays below the amount, no number of recursive calls
    reaches a result: after [fuel] calls the run is still pending and has
    requested [fuel] further approvals, so the retries have no limit. *)
Theorem approval_recursion_has_no_bound (w : World) (amt : Z)
    (addr : option string) (s : State) :
  let owner := selectedAddress (provider s) in
  let mp := marketPlaceAddress s in
  (forall fuel b s',
     _isErc20TokenApproved w fuel amt addr s = (Return b, s') ->
     (Js.truthy owner = false /\ b = false /\ s' = s) \/
     (Js.truthy owner = true /\ b = true /\
      exists h tok,
        trace s' = h ++ [EvErc20Allowance tok owner mp] /\
        amt <= allowance_or_0 (w_allowance w h tok owner mp)))
  /\
  (forall fuel e s', _isErc20TokenApproved w fuel amt addr s <> (Throw e, s'))
  /\
  (Js.truthy owner = true ->
   (forall h tok, allowance_or_0 (w_allowance w h tok owner mp) < amt) ->
   forall fuel,
     fst (_isErc20TokenApproved w fuel amt addr s) = Pending /\
     approvals (trace (snd (_isErc20TokenApproved w fuel amt addr s)))
     = (approvals (trace s) + fuel)%nat).
Proof.
  intros owner mp. split; [|split].
  - intros fuel b s'. apply _isErc20TokenApproved_returns.
  - intros fuel. apply _isErc20TokenApproved_never_throws.
  - intros Ht Hlow fuel.
    now apply (_isErc20TokenApproved_diverges w amt owner mp Hlow).
Qed.

(** C2 on the sample worlds: where approvals take effect the call returns
    after a sufficient re-read; where they silently fail, three calls deep
    the run is still pending with three approvals requested. *)
Lemma approval_recursion_has_no_bound_witness :
  (exists h tok,
     trace (snd (_isErc20TokenApproved Sample.online 2 100 (Some "0xTOKEN")
                   Sample.ready))
     = h ++ [EvErc20Allowance tok "0xA11CE" "0xMARKET"] /\
     100 <= allowance_or_0 (w_allowance Sample.online h tok "0xA11CE" "0xMARKET"))
  /\
  fst (_isErc20TokenApproved Sample.offline 3 100 (Some "0xTOKEN") Sample.ready)
  = Pending
  /\
  approvals
    (trace (snd (_isErc20TokenApproved Sample.offline 3 100 (Some "0xTOKEN")
                   Sample.ready)))
  = 3%nat.
Proof.
  split.
  - destruct (proj1 (approval_recursion_has_no_bound Sample.online 100
                       (Some "0xTOKEN") Sample.ready)
                2%nat true
                (snd (_isErc20TokenApproved Sample.online 2 100
                        (Some "0xTOKEN") Sample.ready))
                eq_refl)
      as [(F & _) | (_ & _ & h & tok & Ht & Ha)].
    + discriminate F.
    + exists h, tok. split; assumption.
  - apply (proj2 (proj2 (approval_recursion_has_no_bound Sample.offline 100
                           (Some "0xTOKEN") Sample.ready))).
    + reflexivity.
    + intros h tok. reflexivity.
Defined.

(** ** Which events an operation may issue *)

Section IssuesOnly.

Variable allowed : Event -> bool.

Lemma issues_ret {A} (a : A) : issues_only allowed (ret a).
Proof. intros s. exists []. simpl. now rewrite app_nil_r. Qed.

Lemma issues_throw {A} e : issues_only allowed (@throw A e).
Proof. intros s. exists []. simpl. now rewrite app_nil_r. Qed.

Lemma issues_gets {A} (f : State -> A) : issues_only allowed (gets f).
Proof. intros s. exists []. simpl. now rewrite app_nil_r. Qed.

Lemma issues_modify f :
  (forall s, trace (f s) = trace s) -> issues_only allowed (modify f).
Proof. intros H s. exists []. simpl. now rewrite H, app_nil_r. Qed.

Lemma issues_emit e : allowed e = true -> issues_only allowed (emit e).
Proof. intros H s. exists [e]. simpl. now rewrite H. Qed.

Lemma issues_await {A} e (o : History -> reply A) :
  allowed e = true -> issues_only allowed (await e o).
Proof.
  intros H s. exists [e]. unfold await.
  destruct (o (trace s)); simpl; now rewrite H.
Qed.

Lemma issues_request {A} e (o : History -> A) :
  allowed e = true -> issues_only allowed (request e o).
Proof. intros H s. exists [e]. simpl. now rewrite H. Qed.

Lemma issues_bind {A B} (m : M A) (k : A -> M B) :
  issues_only allowed m -> (forall a, issues_only allowed (k a)) ->
  issues_only allowed (bind m k).
Proof.
  intros Hm Hk s. unfold bind.
  destruct (Hm s) as (r1 & E1 & F1).
  destruct (m s) as [[a|e|] s1]; simpl in E1; simpl; eauto.
  destruct (Hk a s1) as (r2 & E2 & F2).
  exists (r1 ++ r2). rewrite E2, E1, app_assoc. split; [reflexivity|].
  now rewrite forallb_app, F1, F2.
Qed.

Lemma issues_try_catch {A} (m : M A) (h : string -> M A) :
  issues_only allowed m -> (forall e, issues_only allowed (h e)) ->
  issues_only allowed (try_catch m h).
Proof.
  intros Hm Hh s. unfold try_catch.
  destruct (Hm s) as (r1 & E1 & F1).
  destruct (m s) as [[a|e|] s1]; simpl in E1; simpl; eauto.
  destruct (Hh e s1) as (r2 & E2 & F2).
  exists (r1 ++ r2). rewrite E2, E1, app_assoc. split; [reflexivity|].
  now rewrite forallb_app, F1, F2.
Qed.

End IssuesOnly.

(** *** Operations that always return *)

Lemma returns_ret {A} (a : A) : always_returns (ret a).
Proof. intros s. now exists a, s. Qed.

Lemma returns_gets {A} (f : State -> A) : always_returns (gets f).
Proof. intros s. now exists (f s), s. Qed.

Lemma returns_modify f : always_returns (modify f).
Proof. intros s. now exists tt, (f s). Qed.

Lemma returns_request {A} e (o : History -> A) : always_returns (request e o).
Proof. intros s. unfold request. eauto. Qed.

Lemma returns_bind {A B} (m : M A) (k : A -> M B) :
  always_returns m -> (forall a, always_returns (k a)) ->
  always_returns (bind m k).
Proof.
  intros Hm Hk s. unfold bind.
  destruct (Hm s) as (a & s1 & ->). apply Hk.
Qed.

(** A [try]/[catch] whose body cannot stay pending and whose handler
    returns, returns. *)
Lemma returns_try_catch {A} (m : M A) (h : string -> M A) :
  (forall s s', m s <> (Pending, s')) ->
  (forall e, always_returns (h e)) ->
  always_returns (try_catch m h).
Proof.
  intros Hm Hh s. unfold try_catch.
  destruct (m s) as [[a|e|] s1] eqn:E; eauto.
  - apply Hh.
  - now elim (Hm s s1).
Qed.

(** ** Marketplace accessor and wallet wrapper: failures and guards *)

(** The body shared by the contract reads: one awaited call; a rejection
    goes to [handleEthError] and the read yields [undefined]. *)
Lemma await_or_report {A} (ev : Event) (o : History -> reply A) (s : State) :
  try_catch (data <- await ev o ;; ret (Some data))
            (fun error => handleEthError error ;; ret None) s
  = match o (trace s) with
    | Ok a => (Return (Some a), set_trace (trace s ++ [ev]) s)
    | Err e => (Return None, set_trace (trace s ++ [ev; EvHandleEthError e]) s)
    end.
Proof.
  unfold try_catch, bind, await, handleEthError, emit, modify, ret.
  destruct (o (trace s)); simpl; [reflexivity|].
  now rewrite <- app_assoc.
Qed.

Lemma signAndSendTransaction_spec (w : World) (tx : TxRequestBody) (s : State) :
  signAndSendTransaction w tx s =
  match w_sendTransaction w (trace s) tx with
  | Err e =>
      (Return None,
       set_trace (trace s ++ [EvSendTransaction tx; EvHandleEthError e]) s)
  | Ok r =>
      match w_wait w (trace s ++ [EvSendTransaction tx]) r with
      | Ok _ =>
          (Return (Some r),
           set_trace (trace s ++ [EvSendTransaction tx; EvWait r]) s)
      | Err e =>
          (Return None,
           set_trace (trace s ++ [EvSendTransaction tx; EvWait r;
                                  EvHandleEthError e]) s)
      end
  end.
Proof.
  unfold signAndSendTransaction, try_catch, bind, await, handleEthError, emit,
    modify, ret.
  destruct (w_sendTransaction w (trace s) tx) as [r|e]; simpl.
  - destruct (w_wait w (trace s ++ [EvSendTransaction tx]) r); simpl;
      now rewrite <- ?app_assoc.
  - now rewrite <- app_assoc.
Qed.

Lemma signAndSendTransaction_returns (w : World) tx :
  always_returns (signAndSendTransaction w tx).
Proof.
  intros s. rewrite signAndSendTransaction_spec.
  destruct (w_sendTransaction w (trace s) tx) as [r|e]; eauto.
  destruct (w_wait w (trace s ++ [EvSendTransaction tx]) r); eauto.
Qed.

(** A purchase wrapped in [try]/[catch] around a sender that does not
    throw is just the send. *)
Lemma try_catch_returns {A} (m : M A) (h : string -> M A) s :
  (exists a s', m s = (Return a, s')) -> try_catch m h s = m s.
Proof.
  intros (a & s' & E). unfold try_catch. now rewrite E.
Qed.

Lemma purchase_body (w : World) (tx : State -> TxRequestBody)
    (h : string -> M (option TransactionResponse)) (s : State) :
  try_catch (to <- gets marketAddress ;;
             receipt <- signAndSendTx w (tx (set_marketAddress to s)) ;;
             ret receipt) h s
  = signAndSendTransaction w (tx s) s.
Proof.
  assert (Es : set_marketAddress (marketAddress s) s = s) by now destruct s.
  assert (E : (to <- gets marketAddress ;;
               receipt <- signAndSendTx w (tx (set_marketAddress to s)) ;;
               ret receipt) s = signAndSendTransaction w (tx s) s).
  { unfold bind at 1, gets at 1. rewrite Es. unfold bind, signAndSendTx, ret.
    destruct (signAndSendTransaction_returns w (tx s) s) as (a & s' & ->).
    reflexivity. }
  rewrite try_catch_returns; [exact E|].
  rewrite E. apply signAndSendTransaction_returns.
Qed.

Lemma buyTokenWithERC20_sends (w : World) b sg s :
  buyTokenWithERC20 w b sg s
  = signAndSendTransaction w
      {| tx_to := marketAddress s;
         tx_data := encodeFunctionData "buyTokenWithERC20" b sg;
         tx_value := None |} s.
Proof.
  unfold buyTokenWithERC20.
  apply (purchase_body w
           (fun st => {| tx_to := marketAddress st;
                         tx_data := encodeFunctionData "buyTokenWithERC20" b sg;
                         tx_value := None |})).
Qed.

Lemma buyTokenWithNFT_sends (w : World) b sg s :
  buyTokenWithNFT w b sg s
  = signAndSendTransaction w
      {| tx_to := marketAddress s;
         tx_data := encodeFunctionData "buyTokenWithNFT" b sg;
         tx_value := None |} s.
Proof.
  unfold buyTokenWithNFT.
  apply (purchase_body w
           (fun st => {| tx_to := marketAddress st;
                         tx_data := encodeFunctionData "buyTokenWithNFT" b sg;
                         tx_value := None |})).
Qed.

Lemma buyTokenWithETH_sends (w : World) b sg value s :
  buyTokenWithETH w b sg value s
  = match Marketplace.contractInstance s with
    | None => (Return None, s)
    | Some _ =>
        signAndSendTransaction w
          {| tx_to := marketAddress s;
             tx_data := encodeFunctionData "buyTokenWithETH" b sg;
             tx_value := spread_value value |} s
    end.
Proof.
  unfold buyTokenWithETH. unfold bind at 1, gets at 1.
  destruct (Marketplace.contractInstance s); [|reflexivity].
  apply (purchase_body w
           (fun st => {| tx_to := marketAddress st;
                         tx_data := encodeFunctionData "buyTokenWithETH" b sg;
                         tx_value := spread_value value |})).
Qed.

Lemma signAndSendTransaction_first_event (w : World) tx s :
  exists rest,
    trace (snd (signAndSendTransaction w tx s))
    = trace s ++ EvSendTransaction tx :: rest.
Proof.
  rewrite signAndSendTransaction_spec.
  destruct (w_sendTransaction w (trace s) tx) as [r|e]; simpl; eauto.
  destruct (w_wait w (trace s ++ [EvSendTransaction tx]) r); simpl; eauto.
Qed.

Lemma contractInstance_uninitialized s :
  marketAddress s = "" -> Marketplace.contractInstance s = None.
Proof.
  intros H. unfold Marketplace.contractInstance. rewrite H. simpl.
  now rewrite andb_false_r.
Qed.

(** While the contract address is empty the five reads and the ETH
    purchase return [undefined] with the state, trace included,
    untouched. *)
Lemma uninitialized_accessor_guarded (w : World) (s : State)
    tokenContracts limit offset user b sg value :
  marketAddress s = "" ->
  getTokenParams w tokenContracts s = (Return None, s) /\
  getTokenContractsCount w s = (Return None, s) /\
  getBooksContracts w limit offset s = (Return None, s) /\
  getBooksBatch w limit offset s = (Return None, s) /\
  getUserTokens w user limit offset s = (Return None, s) /\
  buyTokenWithETH w b sg value s = (Return None, s).
Proof.
  intros H. apply contractInstance_uninitialized in H.
  unfold getTokenParams, getTokenContractsCount, getBooksContracts,
    getBooksBatch, getUserTokens, buyTokenWithETH, try_catch, bind, gets.
  rewrite H. repeat split.
Qed.

(** C3 (code defect). [buyTokenWithERC20] and [buyTokenWithNFT] lack the
    [contractInstance] guard of [buyTokenWithETH]: with the contract
    address still empty each of them hands the wallet a transaction
    addressed to the empty string. *)
Theorem purchase_before_initialization_sends (w : World) (b : BuyParams)
    (sg : Signature) (s : State) :
  marketAddress s = "" ->
  (exists rest,
     trace (snd (buyTokenWithERC20 w b sg s))
     = trace s ++
       EvSendTransaction
         {| tx_to := "";
            tx_data := encodeFunctionData "buyTokenWithERC20" b sg;
            tx_value := None |} :: rest)
  /\
  (exists rest,
     trace (snd (buyTokenWithNFT w b sg s))
     = trace s ++
       EvSendTransaction
         {| tx_to := "";
            tx_data := encodeFunctionData "buyTokenWithNFT" b sg;
            tx_value := None |} :: rest).
Proof.
  intros H. split.
  - rewrite buyTokenWithERC20_sends, H. apply signAndSendTransaction_first_event.
  - rewrite buyTokenWithNFT_sends, H. apply signAndSendTransaction_first_event.
Qed.

Lemma purchase_before_initialization_sends_witness :
  (exists rest,
     trace (snd (buyTokenWithERC20 Sample.online Sample.buyParams
                   Sample.signature Sample.connected))
     = [] ++
       EvSendTransaction
         {| tx_to := "";
            tx_data := encodeFunctionData "buyTokenWithERC20" Sample.buyParams
                         Sample.signature;
            tx_value := None |} :: rest)
  /\
  (exists rest,
     trace (snd (buyTokenWithNFT Sample.online Sample.buyParams
                   Sample.signature Sample.connected))
     = [] ++
       EvSendTransaction
         {| tx_to := "";
            tx_data := encodeFunctionData "buyTokenWithNFT" Sample.buyParams
                         Sample.signature;
            tx_value := None |} :: rest).
Proof.
  apply (purchase_before_initialization_sends Sample.online Sample.buyParams
           Sample.signature Sample.connected).
  reflexivity.
Defined.

(** The reads, the purchases and [signAndSendTransaction] never let an
    exception out: they always return (possibly [undefined]). *)
Lemma caught_operations_return (w : World) tokenContracts limit offset user
    b sg value tx :
  always_returns (getTokenParams w tokenContracts) /\
  always_returns (getTokenContractsCount w) /\
  always_returns (getBooksContracts w limit offset) /\
  always_returns (getBooksBatch w limit offset) /\
  always_returns (getUserTokens w user limit offset) /\
  always_returns (buyTokenWithETH w b sg value) /\
  always_returns (buyTokenWithERC20 w b sg) /\
  always_returns (buyTokenWithNFT w b sg) /\
  always_returns (signAndSendTransaction w tx).
Proof.
  repeat split; intros s.
  1-4: unfold getTokenParams, getTokenContractsCount, getBooksContracts,
         getBooksBatch, try_catch, bind, gets, await, handleEthError, emit,
         modify, ret;
       destruct (Marketplace.contractInstance s); eauto;
       match goal with |- context [match ?o with Ok _ => _ | Err _ => _ end] =>
         destruct o end; eauto.
  - unfold getUserTokens, bind at 1, gets at 1.
    destruct (Marketplace.contractInstance s); [|unfold ret; eauto].
    rewrite await_or_report.
    match goal with |- context [match ?o with Ok _ => _ | Err _ => _ end] =>
      destruct o end; eauto.
  - rewrite buyTokenWithETH_sends.
    destruct (Marketplace.contractInstance s); eauto.
    apply signAndSendTransaction_returns.
  - rewrite buyTokenWithERC20_sends. apply signAndSendTransaction_returns.
  - rewrite buyTokenWithNFT_sends. apply signAndSendTransaction_returns.
  - apply signAndSendTransaction_returns.
Qed.

(** A rejected [getUserTokensPart] is reported and turned into
    [undefined]. *)
Lemma getUserTokens_failure_reported (w : World) user limit offset s c e :
  Marketplace.contractInstance s = Some c ->
  w_getUserTokensPart w (trace s) c user offset limit = Err e ->
  getUserTokens w user limit offset s
  = (Return None,
     set_trace (trace s ++ [EvGetUserTokensPart c user offset limit;
                            EvHandleEthError e]) s).
Proof.
  intros Hc He. unfold getUserTokens, bind at 1, gets at 1. rewrite Hc.
  rewrite await_or_report. now rewrite He.
Qed.

(** C7 (code defect). [getBalance] has no [try]/[catch]: when the
    provider rejects the balance query the rejection reaches the caller as
    a thrown error, and the only event is the query itself, so the
    centralized handler is never told. *)
Theorem getBalance_failure_propagates (w : World) (address : string)
    (s : State) (e : string) :
  w_getBalance w (trace s) address = Err e ->
  getBalance w address s
  = (Throw e, set_trace (trace s ++ [EvGetBalance address]) s).
Proof.
  intros H. unfold getBalance, bind, await. now rewrite H.
Qed.

Lemma getBalance_failure_propagates_witness :
  getBalance Sample.offline "0xA11CE" Sample.connected
  = (Throw "offline", set_trace [EvGetBalance "0xA11CE"] Sample.connected).
Proof.
  apply (getBalance_failure_propagates Sample.offline "0xA11CE"
           Sample.connected "offline").
  reflexivity.
Defined.

(** ** The NFT listing and the single-token query *)

Ltac issues_step :=
  first
    [ apply issues_ret | apply issues_throw | apply issues_gets
    | apply issues_bind; [|intros ?]
    | apply issues_try_catch; [|intros ?]
    | apply issues_await; reflexivity
    | apply issues_request; reflexivity
    | apply issues_emit; reflexivity
    | apply issues_modify; reflexivity
    | match goal with
      | |- issues_only _ (if ?b then _ else _) => destruct b
      | |- issues_only _ (match ?x with _ => _ end) => destruct x
      end ].

Lemma getUserTokens_spec (w : World) user limit offset s :
  getUserTokens w user limit offset s
  = match Marketplace.contractInstance s with
    | None => (Return None, s)
    | Some c =>
        match w_getUserTokensPart w (trace s) c user offset limit with
        | Ok raw =>
            (Return (Some raw),
             set_trace (trace s ++ [EvGetUserTokensPart c user offset limit]) s)
        | Err e =>
            (Return None,
             set_trace (trace s ++ [EvGetUserTokensPart c user offset limit;
                                    EvHandleEthError e]) s)
        end
    end.
Proof.
  unfold getUserTokens, bind at 1, gets at 1.
  destruct (Marketplace.contractInstance s); [|reflexivity].
  apply await_or_report.
Qed.

Lemma getUserTokens_returns (w : World) user limit offset :
  always_returns (getUserTokens w user limit offset).
Proof.
  intros s. rewrite getUserTokens_spec.
  destruct (Marketplace.contractInstance s) as [c|]; eauto.
  destruct (w_getUserTokensPart w (trace s) c user offset limit); eauto.
Qed.

Lemma getMarketPlaceAddress_returns (w : World) :
  always_returns (getMarketPlaceAddress w).
Proof.
  intros s.
  unfold getMarketPlaceAddress, try_catch, bind, gets, await, handleEthError,
    emit, modify, ret.
  destruct (Registry.contractInstance s) as [[addr via]|]; eauto.
  destruct (w_getMarketplaceContract w (trace s) addr via); eauto.
Qed.

Lemma _initMarketPlace_returns (w : World) address :
  always_returns (_initMarketPlace w address).
Proof.
  unfold _initMarketPlace. apply returns_bind.
  - destruct (Js.nonempty address);
      [apply returns_ret | apply getMarketPlaceAddress_returns].
  - intros a. destruct (Js.nonempty a) as [market|]; [|apply returns_ret].
    apply returns_bind; [apply returns_modify|]. intros _.
    unfold Marketplace.init.
    destruct (negb (Js.truthy market)); [apply returns_ret | apply returns_modify].
Qed.

Lemma _initMarketPlace_returns_tt (w : World) address s :
  exists s', _initMarketPlace w address s = (Return tt, s').
Proof.
  destruct (_initMarketPlace_returns w address s) as ([] & s' & E). eauto.
Qed.

Lemma issues_initContractRegistry cfg (w : World) chain :
  issues_only not_metadata_event (_initContractRegistry cfg w chain).
Proof.
  unfold _initContractRegistry, loadNetworks, Registry.init.
  repeat issues_step.
Qed.

Lemma issues_initMarketPlace (w : World) address :
  issues_only not_metadata_event (_initMarketPlace w address).
Proof.
  unfold _initMarketPlace, getMarketPlaceAddress, Marketplace.init,
    handleEthError.
  repeat issues_step.
Qed.

Lemma issues_getUserTokens (w : World) user limit offset :
  issues_only not_metadata_event (getUserTokens w user limit offset).
Proof.
  unfold getUserTokens, handleEthError. repeat issues_step.
Qed.

Lemma getNftList_unfold cfg (w : World) user limit offset s :
  limit <> 0 ->
  getNftList cfg w user limit offset s
  = (_initContractRegistry cfg w (Number (chainId (provider s))) ;;
     _initMarketPlace w None ;;
     rawData <- getUserTokens w user limit offset ;;
     match rawData with
     | None => ret []
     | Some rawData =>
         getNftList_contracts w (map _formatToken (filter has_tokenIds rawData)) []
     end) s.
Proof.
  intros H. unfold getNftList, Js.truthy_num.
  rewrite (proj2 (Z.eqb_neq limit 0) H). reflexivity.
Qed.

Lemma bind_ext {A B} (m : M A) (k1 k2 : A -> M B) s :
  (forall a s', k1 a s' = k2 a s') -> bind m k1 s = bind m k2 s.
Proof.
  intros H. unfold bind. destruct (m s) as [[a|e|] s']; auto.
Qed.



Section StableMetadata.

(** A world in which the tokenURI of a token and the document behind a
    URI do not depend on when they are asked for. *)
Variable w : World.
Variable uri : string -> string -> option string.
Variable meta : string -> option NftMetadata.
Hypothesis w_uri : forall h collection id, w_tokenURI w h collection id = uri collection id.
Hypothesis w_meta : forall h u timeout, w_fetchMetadata w h u timeout = meta u.

Lemma getNftList_tokenIds_stable contract :
  forall ids acc s,
    erc721Address s = contract ->
    exists s',
      getNftList_tokenIds w contract ids acc s
      = (Return (acc ++ flat_map (kept_entry uri meta contract) ids), s') /\
      erc721Address s' = contract.
Proof.
  induction ids as [|id ids IH]; intros acc s Hc.
  - exists s. simpl. now rewrite app_nil_r.
  - cbn [getNftList_tokenIds flat_map].
    unfold bind at 1, tokenURI, bind at 1, gets at 1, request.
    rewrite Hc, w_uri. unfold kept_entry at 1.
    destruct (Js.nonempty (uri contract id)) as [u|].
    + unfold bind at 1, _loadMetadata, request. cbn [trace set_trace].
      rewrite w_meta. destruct (meta u) as [m|].
      * match goal with |- context [getNftList_tokenIds w contract ids ?a ?st] =>
          destruct (IH a st) as (s' & E & Hs'); [exact Hc|] end.
        exists s'. rewrite E, <- app_assoc. now split.
      * apply IH. exact Hc.
    + apply IH. exact Hc.
Qed.

Lemma getNftList_contracts_stable :
  forall filteredData acc s,
    Forall (fun el => tr_tokenContract el <> "") filteredData ->
    exists s',
      getNftList_contracts w filteredData acc s
      = (Return (acc ++ kept_entries uri meta filteredData), s').
Proof.
  induction filteredData as [|el rest IH]; intros acc s Hall.
  - exists s. simpl. now rewrite app_nil_r.
  - inversion Hall as [|? ? Hel Hrest]; subst.
    cbn [getNftList_contracts]. unfold bind at 1, initErc721.
    rewrite (proj2 (truthy_true_iff _) Hel). cbn [negb modify].
    destruct (getNftList_tokenIds_stable (tr_tokenContract el) (tr_tokenIds el)
                acc (set_erc721Address (tr_tokenContract el) s) eq_refl)
      as (s1 & E & _).
    unfold bind. rewrite E.
    destruct (IH (acc ++ flat_map (kept_entry uri meta (tr_tokenContract el))
                           (tr_tokenIds el)) s1 Hrest) as (s' & E').
    exists s'. rewrite E'. unfold kept_entries. simpl.
    now rewrite <- app_assoc.
Qed.

Lemma getNft_metadata_failure cfg collection id s :
  isConnected (provider s) = true ->
  collection <> "" ->
  fst (_initContractRegistry cfg w (Number (chainId (provider s))) s) = Return tt ->
  (Js.nonempty (uri collection id) = None ->
   fst (getNft cfg w collection id s) = Throw "Failed to get tokenURI") /\
  (forall u,
     Js.nonempty (uri collection id) = Some u ->
     meta u = None ->
     fst (getNft cfg w collection id s) = Throw "Failed to get metadata").
Proof.
  intros Hconn Hcol Hreg.
  assert (E : exists s3,
             getNft cfg w collection id s
             = match Js.nonempty (uri collection id) with
               | None => throw "Failed to get tokenURI"
               | Some url =>
                   metadata <- _loadMetadata w url None ;;
                   match metadata with
                   | None => throw "Failed to get metadata"
                   | Some m =>
                       paymentInfo <- _getPayment cfg w collection id None None ;;
                       ret {| full_tokenContract := collection;
                              full_tokenId := id;
                              full_metadata := m;
                              full_payment := paymentInfo |}
                   end
               end s3).
  { unfold getNft, bind at 1, gets at 1. rewrite Hconn. cbn [negb].
    unfold bind at 1, gets at 1. unfold bind at 1.
    destruct (_initContractRegistry cfg w _ s) as [r s1]. simpl in Hreg. subst r.
    unfold bind at 1.
    destruct (_initMarketPlace_returns_tt w None s1) as (s2 & ->).
    unfold bind at 1, initErc721.
    rewrite (proj2 (truthy_true_iff _) Hcol). cbn [negb modify].
    unfold bind at 1, tokenURI, bind at 1, gets at 1, request.
    cbn [erc721Address set_erc721Address trace]. rewrite w_uri.
    eexists. reflexivity. }
  destruct E as (s3 & ->).
  split.
  - intros H. now rewrite H.
  - intros u H Hm. rewrite H. unfold bind at 1, _loadMetadata, request.
    now rewrite w_meta, Hm.
Qed.

End StableMetadata.

(** C5. In a world whose tokenURI and metadata answers are stable, once
    the marketplace has enumerated [raw], [getNftList] returns exactly the
    tokens whose URI read and metadata fetch both succeed, in order: a
    token whose read or fetch fails (or times out) is dropped without
    disturbing the others.  [getNft] in the same situation throws
    'Failed to get tokenURI', respectively 'Failed to get metadata'. *)
Theorem metadata_failure_skips_or_throws (cfg : Config) (w : World)
    (uri : string -> string -> option string)
    (meta : string -> option NftMetadata) :
  (forall h collection id, w_tokenURI w h collection id = uri collection id) ->
  (forall h u timeout, w_fetchMetadata w h u timeout = meta u) ->
  (forall user limit offset s s1 s2 s3 raw,
     limit <> 0 ->
     _initContractRegistry cfg w (Number (chainId (provider s))) s
     = (Return tt, s1) ->
     _initMarketPlace w None s1 = (Return tt, s2) ->
     getUserTokens w user limit offset s2 = (Return (Some raw), s3) ->
     Forall (fun el => raw_tokenContract el <> "") raw ->
     fst (getNftList cfg w user limit offset s)
     = Return (kept_entries uri meta
                 (map _formatToken (filter has_tokenIds raw))))
  /\
  (forall collection id s,
     isConnected (provider s) = true ->
     collection <> "" ->
     fst (_initContractRegistry cfg w (Number (chainId (provider s))) s)
     = Return tt ->
     (Js.nonempty (uri collection id) = None ->
      fst (getNft cfg w collection id s) = Throw "Failed to get tokenURI") /\
     (forall u,
        Js.nonempty (uri collection id) = Some u ->
        meta u = None ->
        fst (getNft cfg w collection id s) = Throw "Failed to get metadata")).
Proof.
  intros Huri Hmeta. split.
  - intros user limit offset s s1 s2 s3 raw Hl Hreg Hmp Hraw Hall.
    rewrite (getNftList_unfold cfg w user limit offset s Hl).
    unfold bind. rewrite Hreg, Hmp, Hraw.
    destruct (getNftList_contracts_stable w uri meta Huri Hmeta
                (map _formatToken (filter has_tokenIds raw)) [] s3)
      as (s' & ->); [|reflexivity].
    apply Forall_map. apply Forall_forall. intros el Hin.
    apply filter_In in Hin. destruct Hin as [Hin _].
    rewrite Forall_forall in Hall. now apply Hall.
  - intros collection id s.
    apply (getNft_metadata_failure w uri meta Huri Hmeta).
Qed.

(** C5 on the sample chain: the user holds tokens 1 and 2 of one
    collection, the document of 1 arrives and the fetch for 2 times out.
    The listing is exactly the entry of token 1; asking for token 2 alone
    throws, as does asking for a token without URI. *)
Lemma metadata_failure_skips_or_throws_witness :
  fst (getNftList Sample.cfg Sample.online "0xA11CE" 10 0 Sample.connected)
  = Return [{| tokenContract := "0xBOOK"; tokenId := "1";
               metadata := Sample.book |}]
  /\
  fst (getNft Sample.cfg Sample.online "0xBOOK" "2" Sample.connected)
  = Throw "Failed to get metadata"
  /\
  fst (getNft Sample.cfg Sample.online "0xBOOK" "7" Sample.connected)
  = Throw "Failed to get tokenURI".
Proof.
  destruct (metadata_failure_skips_or_throws Sample.cfg Sample.online
              Sample.uri Sample.meta
              (fun _ _ _ => eq_refl) (fun _ _ _ => eq_refl)) as [L N].
  split; [|split].
  - set (s1 := snd (_initContractRegistry Sample.cfg Sample.online 1
                      Sample.connected)).
    set (s2 := snd (_initMarketPlace Sample.online None s1)).
    set (s3 := snd (getUserTokens Sample.online "0xA11CE" 10 0 s2)).
    apply (L "0xA11CE" 10 0 Sample.connected s1 s2 s3
             [{| raw_tokenContract := "0xBOOK"; raw_tokenIds := [1; 2] |}]).
    + discriminate.
    + reflexivity.
    + reflexivity.
    + reflexivity.
    + constructor; [discriminate | constructor].
  - destruct (N "0xBOOK" "2" Sample.connected) as [_ Hmeta].
    + reflexivity.
    + discriminate.
    + reflexivity.
    + apply (Hmeta "ipfs://meta/2"); reflexivity.
  - destruct (N "0xBOOK" "7" Sample.connected) as [Huri _].
    + reflexivity.
    + discriminate.
    + reflexivity.
    + apply Huri. reflexivity.
Defined.

(* ===================================================================== *)
(** * Further properties of the wrapper and the accessors *)
(* ===================================================================== *)

(** ** Provider state refresh *)

Lemma _updateProviderState_spec (w : World) (s : State) :
  _updateProviderState w s =
  match w_detectNetwork w (trace s) with
  | Err e =>
      (Return tt, set_trace (trace s ++ [EvDetectNetwork; EvHandleEthError e]) s)
  | Ok n =>
      match w_listAccounts w (trace s ++ [EvDetectNetwork]) with
      | Ok accounts =>
          (Return tt,
           set_trace (trace s ++ [EvDetectNetwork; EvListAccounts])
             (set_provider
                (with_selectedAddress (first_account accounts)
                   (with_chainId (ChainNum n) (provider s))) s))
      | Err e =>
          (Return tt,
           set_trace (trace s ++ [EvDetectNetwork; EvListAccounts;
                                  EvHandleEthError e])
             (set_provider (with_chainId (ChainNum n) (provider s)) s))
      end
  end.
Proof.
  unfold _updateProviderState, try_catch, bind, await, handleEthError, emit,
    modify, ret.
  destruct (w_detectNetwork w (trace s)) as [n|e]; simpl.
  - destruct (w_listAccounts w (trace s ++ [EvDetectNetwork])) as [a|e]; simpl;
      now rewrite <- ?app_assoc.
  - now rewrite <- app_assoc.
Qed.

(** X1. The refresh is not atomic: when the network is detected but the
    account query is rejected, [_updateProviderState] still returns
    normally, with the chain id already replaced by the detected one and
    the selected address left at its previous value; the rejection goes to
    the error handler. *)
Theorem updateProviderState_partial_update (w : World) (s : State)
    (n : Z) (e : string) :
  w_detectNetwork w (trace s) = Ok n ->
  w_listAccounts w (trace s ++ [EvDetectNetwork]) = Err e ->
  exists s',
    _updateProviderState w s = (Return tt, s') /\
    chainId (provider s') = ChainNum n /\
    selectedAddress (provider s') = selectedAddress (provider s) /\
    trace s' = trace s ++ [EvDetectNetwork; EvListAccounts; EvHandleEthError e].
Proof.
  intros Hn He. rewrite _updateProviderState_spec, Hn, He.
  eexists. split; [reflexivity|]. repeat split.
Qed.

Lemma updateProviderState_partial_update_witness :
  exists s',
    _updateProviderState Scenario.locked Sample.connected = (Return tt, s') /\
    chainId (provider s') = ChainNum 5 /\
    selectedAddress (provider s') = "0xA11CE" /\
    trace s' = [] ++ [EvDetectNetwork; EvListAccounts;
                      EvHandleEthError "wallet locked"].
Proof.
  apply (updateProviderState_partial_update Scenario.locked Sample.connected
           5 "wallet locked"); reflexivity.
Defined.

(** X2. [_updateProviderState] never throws, and touches nothing but the
    chain id and the selected address: the provider handles and every
    accessor address are as before.  If the network cannot even be
    detected, the whole provider state is as before. *)
Theorem updateProviderState_frame (w : World) (s : State) :
  exists s',
    _updateProviderState w s = (Return tt, s') /\
    currentProvider (provider s') = currentProvider (provider s) /\
    defaultProvider (provider s') = defaultProvider (provider s) /\
    networks s' = networks s /\
    registryAddress s' = registryAddress s /\
    marketAddress s' = marketAddress s /\
    marketPlaceAddress s' = marketPlaceAddress s /\
    erc721Address s' = erc721Address s /\
    erc20Address s' = erc20Address s /\
    (forall e, w_detectNetwork w (trace s) = Err e -> provider s' = provider s).
Proof.
  rewrite _updateProviderState_spec.
  destruct (w_detectNetwork w (trace s)) as [n|e].
  - destruct (w_listAccounts w (trace s ++ [EvDetectNetwork])) as [a|e];
      eexists; (split; [reflexivity|]); repeat split; discriminate.
  - eexists. split; [reflexivity|]. repeat split.
Qed.

(** X3. After a refresh in which both queries succeed, the wallet counts
    as connected exactly when the wallet listed a non-empty first account
    and the detected chain id is not 0; a wallet that lists no account is
    left disconnected. *)
Theorem updateProviderState_connected (w : World) (s : State)
    (n : Z) (accounts : list string) :
  w_detectNetwork w (trace s) = Ok n ->
  w_listAccounts w (trace s ++ [EvDetectNetwork]) = Ok accounts ->
  let s' := snd (_updateProviderState w s) in
  chainId (provider s') = ChainNum n /\
  selectedAddress (provider s') = hd "" accounts /\
  (isConnected (provider s') = true <-> hd "" accounts <> "" /\ n <> 0) /\
  (accounts = [] -> isConnected (provider s') = false).
Proof.
  intros Hn Ha s'. subst s'. rewrite _updateProviderState_spec, Hn, Ha.
  cbn [snd provider set_trace set_provider chainId selectedAddress
       with_selectedAddress with_chainId first_account].
  repeat split.
  - unfold isConnected in H. cbn in H. apply andb_true_iff in H.
    now apply truthy_true_iff.
  - unfold isConnected in H. cbn in H. apply andb_true_iff in H.
    destruct H as [_ H]. unfold Js.truthy_num in H.
    apply negb_true_iff, Z.eqb_neq in H. exact H.
  - intros [H1 H2]. unfold isConnected. cbn. apply andb_true_iff. split.
    + now apply truthy_true_iff.
    + unfold Js.truthy_num. now apply negb_true_iff, Z.eqb_neq.
  - intros ->. reflexivity.
Qed.

Lemma updateProviderState_connected_witness :
  let s' := snd (_updateProviderState Sample.online Sample.fresh) in
  chainId (provider s') = ChainNum 1 /\
  selectedAddress (provider s') = hd "" ["0xA11CE"] /\
  (isConnected (provider s') = true <-> hd "" ["0xA11CE"] <> "" /\ 1 <> 0) /\
  (["0xA11CE"] = [] -> isConnected (provider s') = false).
Proof.
  apply (updateProviderState_connected Sample.online Sample.fresh 1 ["0xA11CE"]);
    reflexivity.
Defined.

(** ** Signing and sending *)

(** X4. [signAndSendTransaction] always returns.  It hands back a
    transaction response only when the transaction was sent and its
    confirmation awaited, these being the only two events; otherwise it
    hands back [undefined] and the last event is the report of the error
    to the handler (when the send itself is rejected no confirmation is
    awaited). *)
Theorem signAndSendTransaction_confirmed_or_reported (w : World)
    (tx : TxRequestBody) (s : State) :
  exists o s',
    signAndSendTransaction w tx s = (Return o, s') /\
    match o with
    | Some r =>
        trace s' = trace s ++ [EvSendTransaction tx; EvWait r] /\
        w_sendTransaction w (trace s) tx = Ok r
    | None =>
        exists e,
          (w_sendTransaction w (trace s) tx = Err e /\
           trace s' = trace s ++ [EvSendTransaction tx; EvHandleEthError e])
          \/
          (exists r,
             w_sendTransaction w (trace s) tx = Ok r /\
             trace s' = trace s ++ [EvSendTransaction tx; EvWait r;
                                    EvHandleEthError e])
    end.
Proof.
  rewrite signAndSendTransaction_spec.
  destruct (w_sendTransaction w (trace s) tx) as [r|e].
  - destruct (w_wait w (trace s ++ [EvSendTransaction tx]) r) as [[]|e].
    + exists (Some r). eexists. split; [reflexivity|]. now split.
    + exists None. eexists. split; [reflexivity|]. exists e. right.
      exists r. now split.
  - exists None. eexists. split; [reflexivity|]. exists e. left. now split.
Qed.

Lemma updateProviderState_frame_witness :
  exists s',
    _updateProviderState Sample.offline Sample.connected = (Return tt, s') /\
    provider s' = provider Sample.connected.
Proof.
  destruct (updateProviderState_frame Sample.offline Sample.connected)
    as (s' & E & _ & _ & _ & _ & _ & _ & _ & _ & P).
  exists s'. split; [exact E|]. apply (P "offline"). reflexivity.
Defined.

(** ** Resolving the marketplace address *)

Lemma getMarketPlaceAddress_spec (w : World) (s : State) :
  getMarketPlaceAddress w s =
  match Registry.contractInstance s with
  | None => (Return None, s)
  | Some (addr, via) =>
      match w_getMarketplaceContract w (trace s) addr via with
      | Ok a =>
          (Return (Some a),
           set_trace (trace s ++ [EvGetMarketplaceContract addr via]) s)
      | Err e =>
          (Return None,
           set_trace (trace s ++ [EvGetMarketplaceContract addr via;
                                  EvHandleEthError e]) s)
      end
  end.
Proof.
  unfold getMarketPlaceAddress, try_catch, bind, gets, await, handleEthError,
    emit, modify, ret.
  destruct (Registry.contractInstance s) as [[addr via]|]; [|reflexivity].
  destruct (w_getMarketplaceContract w (trace s) addr via); simpl;
    now rewrite <- ?app_assoc.
Qed.

(** X5. Which provider the registry is read through: a connected wallet
    with a provider handle reads through its own provider; otherwise, if a
    default provider exists, the read goes through that one, so a
    disconnected visitor still resolves the marketplace; with no registry
    address, or with no usable provider, nothing is read and the result is
    [undefined]. *)
Theorem getMarketPlaceAddress_provider_choice (w : World) (s : State) :
  let p := provider s in
  let reg := registryAddress s in
  (reg <> "" -> isConnected p = true -> currentProvider p = true ->
   exists rest,
     trace (snd (getMarketPlaceAddress w s))
     = trace s ++ EvGetMarketplaceContract reg ViaCurrent :: rest)
  /\
  (reg <> "" -> isConnected p && currentProvider p = false ->
   defaultProvider p = true ->
   exists rest,
     trace (snd (getMarketPlaceAddress w s))
     = trace s ++ EvGetMarketplaceContract reg ViaDefault :: rest)
  /\
  (reg = "" \/ (isConnected p && currentProvider p = false /\
                defaultProvider p = false) ->
   getMarketPlaceAddress w s = (Return None, s)).
Proof.
  intros p reg. rewrite getMarketPlaceAddress_spec.
  unfold Registry.contractInstance. fold p reg.
  split; [|split].
  - intros Hr Hc Hp. rewrite Hc, Hp, (proj2 (truthy_true_iff reg) Hr). simpl.
    destruct (w_getMarketplaceContract w (trace s) reg ViaCurrent); simpl; eauto.
  - intros Hr Hc Hd. rewrite Hc, Hd, (proj2 (truthy_true_iff reg) Hr). simpl.
    destruct (w_getMarketplaceContract w (trace s) reg ViaDefault); simpl; eauto.
  - intros [Hr | [Hc Hd]].
    + rewrite (proj2 (truthy_false_iff reg) Hr), !andb_false_r. reflexivity.
    + rewrite Hc, Hd. reflexivity.
Qed.

Lemma getMarketPlaceAddress_provider_choice_witness :
  (exists rest,
     trace (snd (getMarketPlaceAddress Sample.online
                   (set_registryAddress "0xREG" Sample.connected)))
     = [] ++ EvGetMarketplaceContract "0xREG" ViaCurrent :: rest)
  /\
  (exists rest,
     trace (snd (getMarketPlaceAddress Sample.online
                   (set_registryAddress "0xREG" Sample.fresh)))
     = [] ++ EvGetMarketplaceContract "0xREG" ViaDefault :: rest)
  /\
  getMarketPlaceAddress Sample.online Sample.connected
  = (Return None, Sample.connected).
Proof.
  split; [|split].
  - apply (proj1 (getMarketPlaceAddress_provider_choice Sample.online
                    (set_registryAddress "0xREG" Sample.connected)));
      [discriminate | reflexivity | reflexivity].
  - apply (proj1 (proj2 (getMarketPlaceAddress_provider_choice Sample.online
                           (set_registryAddress "0xREG" Sample.fresh))));
      [discriminate | reflexivity | reflexivity].
  - apply (proj2 (proj2 (getMarketPlaceAddress_provider_choice Sample.online
                           Sample.connected))).
    left. reflexivity.
Defined.

(** ** Binding the marketplace *)

Lemma _initMarketPlace_spec (w : World) (address : option string) (s : State) :
  exists found s1,
    (match Js.nonempty address with
     | Some a => ret (Some a)
     | None => getMarketPlaceAddress w
     end) s = (Return found, s1) /\
    (forall a, Js.nonempty address = Some a -> found = Some a /\ s1 = s) /\
    provider s1 = provider s /\
    networks s1 = networks s /\
    registryAddress s1 = registryAddress s /\
    marketAddress s1 = marketAddress s /\
    marketPlaceAddress s1 = marketPlaceAddress s /\
    erc721Address s1 = erc721Address s /\
    erc20Address s1 = erc20Address s /\
    _initMarketPlace w address s
    = match Js.nonempty found with
      | None => (Return tt, s1)
      | Some a => (Return tt, set_marketAddress a (set_marketPlaceAddress a s1))
      end.
Proof.
  unfold _initMarketPlace, bind at 1.
  destruct (Js.nonempty address) as [a|] eqn:Ea.
  - exists (Some a), s. split; [reflexivity|].
    split; [intros ? [= <-]; now split|].
    repeat split. unfold ret.
    assert (Ha : a <> "") by (apply nonempty_Some_iff in Ea; tauto).
    rewrite (proj2 (nonempty_Some_iff (Some a) a) (conj eq_refl Ha)).
    unfold bind, modify, Marketplace.init.
    now rewrite (nonempty_truthy _ _ Ea).
  - rewrite getMarketPlaceAddress_spec.
    destruct (Registry.contractInstance s) as [[addr via]|].
    + destruct (w_getMarketplaceContract w (trace s) addr via) as [m|e].
      * eexists (Some m), _. split; [reflexivity|].
        split; [discriminate|]. repeat split.
        destruct (Js.nonempty (Some m)) as [a|] eqn:Em; [|reflexivity].
        unfold bind, modify, Marketplace.init.
        now rewrite (nonempty_truthy _ _ Em).
      * eexists None, _. split; [reflexivity|].
        split; [discriminate|]. repeat split.
    + exists None, s. split; [reflexivity|]. split; [discriminate|].
      repeat split.
Qed.

(** X6. [_initMarketPlace] keeps the two copies of the marketplace address
    in step: if the orchestrator's [marketPlaceAddress] (the approval
    spender) and the accessor's [contractAddress] (the purchase target)
    agree before the call, they agree after it, whatever the registry
    answers.  It never throws, and it never clears a binding: an address
    that was non-empty stays non-empty. *)
Theorem initMarketPlace_keeps_binding_in_step (w : World)
    (address : option string) (s : State) :
  exists s',
    _initMarketPlace w address s = (Return tt, s') /\
    (marketPlaceAddress s = marketAddress s ->
     marketPlaceAddress s' = marketAddress s') /\
    (marketAddress s <> "" -> marketAddress s' <> "") /\
    (marketPlaceAddress s <> "" -> marketPlaceAddress s' <> "").
Proof.
  destruct (_initMarketPlace_spec w address s)
    as (found & s1 & _ & _ & _ & _ & _ & Hm & Hmp & _ & _ & E).
  rewrite E. destruct (Js.nonempty found) as [a|] eqn:Ef.
  - eexists. split; [reflexivity|]. simpl.
    apply nonempty_Some_iff in Ef. destruct Ef as [_ Ha]. auto.
  - exists s1. split; [reflexivity|]. rewrite Hm, Hmp. auto.
Qed.

Lemma initMarketPlace_keeps_binding_in_step_witness :
  exists s',
    _initMarketPlace Sample.offline None Sample.ready = (Return tt, s') /\
    marketPlaceAddress s' = marketAddress s' /\
    marketAddress s' <> "" /\
    marketPlaceAddress s' <> "".
Proof.
  destruct (initMarketPlace_keeps_binding_in_step Sample.offline None
              Sample.ready) as (s' & E & H1 & H2 & H3).
  exists s'. split; [exact E|]. split; [|split].
  - apply H1. reflexivity.
  - apply H2. discriminate.
  - apply H3. discriminate.
Defined.

Lemma _initMarketPlace_binds_address (w : World) (s : State) :
  (forall a, a <> "" ->
     _initMarketPlace w (Some a) s
     = (Return tt, set_marketAddress a (set_marketPlaceAddress a s)))
  /\
  (forall reg via a,
     Registry.contractInstance s = Some (reg, via) ->
     w_getMarketplaceContract w (trace s) reg via = Ok a ->
     a <> "" ->
     let s' := snd (_initMarketPlace w None s) in
     marketAddress s' = a /\ marketPlaceAddress s' = a /\
     trace s' = trace s ++ [EvGetMarketplaceContract reg via]).
Proof.
  split.
  - intros a Ha.
    destruct (_initMarketPlace_spec w (Some a) s)
      as (found & s1 & _ & Hexp & _ & _ & _ & _ & _ & _ & _ & E).
    destruct (Hexp a) as [-> ->].
    { apply nonempty_Some_iff. now split. }
    rewrite E. now rewrite (proj2 (nonempty_Some_iff (Some a) a) (conj eq_refl Ha)).
  - intros reg via a Hinst Hw Ha s'.
    assert (E : _initMarketPlace w None s
                = (Return tt,
                   set_marketAddress a
                     (set_marketPlaceAddress a
                        (set_trace
                           (trace s ++ [EvGetMarketplaceContract reg via]) s)))).
    { unfold _initMarketPlace, bind at 1. cbn [Js.nonempty].
      rewrite getMarketPlaceAddress_spec, Hinst, Hw.
      rewrite (proj2 (nonempty_Some_iff (Some a) a) (conj eq_refl Ha)).
      unfold bind, modify, Marketplace.init.
      now rewrite (proj2 (truthy_true_iff a) Ha). }
    subst s'. rewrite E. repeat split.
Qed.

(** X7. Given an explicit non-empty address, [_initMarketPlace] binds it
    without asking the registry: no event is issued and both copies of the
    marketplace address become that address.  Given none, a successful
    registry read binds the address the registry answered. *)
Theorem initMarketPlace_binds (w : World) (s : State) :
  (forall a, a <> "" ->
     _initMarketPlace w (Some a) s
     = (Return tt, set_marketAddress a (set_marketPlaceAddress a s)))
  /\
  (forall reg via a,
     Registry.contractInstance s = Some (reg, via) ->
     w_getMarketplaceContract w (trace s) reg via = Ok a ->
     a <> "" ->
     let s' := snd (_initMarketPlace w None s) in
     marketAddress s' = a /\ marketPlaceAddress s' = a /\
     trace s' = trace s ++ [EvGetMarketplaceContract reg via]).
Proof.
  exact (_initMarketPlace_binds_address w s).
Qed.

Lemma initMarketPlace_binds_witness :
  _initMarketPlace Sample.offline (Some "0xMARKET") Sample.connected
  = (Return tt,
     set_marketAddress "0xMARKET"
       (set_marketPlaceAddress "0xMARKET" Sample.connected))
  /\
  (let s' := snd (_initMarketPlace Sample.online None
                    (set_registryAddress "0xREG" Sample.connected)) in
   marketAddress s' = "0xMARKET" /\ marketPlaceAddress s' = "0xMARKET" /\
   trace s' = [] ++ [EvGetMarketplaceContract "0xREG" ViaCurrent]).
Proof.
  split.
  - apply (proj1 (initMarketPlace_binds Sample.offline Sample.connected)).
    discriminate.
  - apply (proj2 (initMarketPlace_binds Sample.online
                    (set_registryAddress "0xREG" Sample.connected))
             "0xREG" ViaCurrent "0xMARKET");
      [reflexivity | reflexivity | discriminate].
Defined.

(** ** Choosing the registry *)

Lemma Registry_init_nonempty a s :
  a <> "" -> Registry.init a s = (Return tt, set_registryAddress a s).
Proof.
  intros H. unfold Registry.init. now rewrite (proj2 (truthy_true_iff a) H).
Qed.

Lemma find_registry_nonempty chain l a : find_registry chain l = Some a -> a <> "".
Proof.
  unfold find_registry. intros H. apply nonempty_Some_iff in H. tauto.
Qed.

Lemma find_registry_In chain l a :
  find_registry chain l = Some a ->
  exists n, In n l /\ chain_id n = chain /\ factory_address n = a.
Proof.
  unfold find_registry. intros H. apply nonempty_Some_iff in H.
  destruct H as [H _].
  destruct (find (fun n => chain_id n =? chain) l) as [n|] eqn:F; [|discriminate].
  apply find_some in F. destruct F as [Hin Hc]. injection H as <-.
  exists n. repeat split; [exact Hin | now apply Z.eqb_eq].
Qed.

(** What [_initContractRegistry] does once the network list is at hand. *)
Lemma registry_choice (cfg : Config) (chain : Z) (s : State) :
  (match find_registry chain (networks s) with
   | None =>
       match find_registry (DEFAULT_CHAIN_ID cfg) (networks s) with
       | None => throw "failed to get default registry address"
       | Some d => Registry.init d
       end
   | Some a => Registry.init a
   end) s
  = match chosen_registry cfg chain (networks s) with
    | Some a => (Return tt, set_registryAddress a s)
    | None => (Throw "failed to get default registry address", s)
    end.
Proof.
  unfold chosen_registry.
  destruct (find_registry chain (networks s)) as [a|] eqn:E.
  - apply Registry_init_nonempty. now apply find_registry_nonempty in E.
  - destruct (find_registry (DEFAULT_CHAIN_ID cfg) (networks s)) as [d|] eqn:D.
    + apply Registry_init_nonempty. now apply find_registry_nonempty in D.
    + reflexivity.
Qed.

Lemma _initContractRegistry_spec (cfg : Config) (w : World) (chain : Z)
    (s : State) :
  _initContractRegistry cfg w chain s =
  match networks s with
  | _ :: _ =>
      match chosen_registry cfg chain (networks s) with
      | Some a => (Return tt, set_registryAddress a s)
      | None => (Throw "failed to get default registry address", s)
      end
  | [] =>
      match w_loadNetworks w (trace s) with
      | Err e => (Throw e, set_trace (trace s ++ [EvLoadNetworks]) s)
      | Ok l =>
          let s1 := set_networks l (set_trace (trace s ++ [EvLoadNetworks]) s) in
          match chosen_registry cfg chain l with
          | Some a => (Return tt, set_registryAddress a s1)
          | None => (Throw "failed to get default registry address", s1)
          end
      end
  end.
Proof.
  unfold _initContractRegistry, bind at 1, gets at 1.
  destruct (networks s) as [|n l] eqn:N.
  - cbn [length Nat.eqb]. unfold bind at 1, loadNetworks, bind at 1, await.
    destruct (w_loadNetworks w (trace s)) as [l|e]; [|reflexivity].
    unfold modify. unfold bind at 1, gets at 1.
    apply (registry_choice cfg chain
             (set_networks l (set_trace (trace s ++ [EvLoadNetworks]) s))).
  - cbn [length Nat.eqb]. unfold bind at 1, ret. unfold bind at 1, gets at 1.
    rewrite N. rewrite <- N. apply registry_choice.
Qed.

(** X8. With a network list already loaded, [_initContractRegistry] asks
    nothing of the outside world, whatever the chain: it either binds a
    registry or throws 'failed to get default registry address', and in
    both cases the trace is as before.  Only an empty list triggers the
    loading of the networks, as the first and only event. *)
Theorem initContractRegistry_requests (cfg : Config) (w : World) (chain : Z)
    (s : State) :
  (networks s <> [] ->
   trace (snd (_initContractRegistry cfg w chain s)) = trace s /\
   (fst (_initContractRegistry cfg w chain s) = Return tt \/
    _initContractRegistry cfg w chain s
    = (Throw "failed to get default registry address", s)))
  /\
  (networks s = [] ->
   trace (snd (_initContractRegistry cfg w chain s))
   = trace s ++ [EvLoadNetworks]).
Proof.
  rewrite _initContractRegistry_spec. split.
  - intros H. destruct (networks s) as [|n l]; [now elim H|].
    destruct (chosen_registry cfg chain (n :: l)); simpl; auto.
  - intros ->. destruct (w_loadNetworks w (trace s)) as [l|e]; [|reflexivity].
    cbn zeta. destruct (chosen_registry cfg chain l); reflexivity.
Qed.

Lemma initContractRegistry_requests_witness :
  (trace (snd (_initContractRegistry Sample.cfg Sample.offline 137
                 (set_networks Scenario.two_networks Sample.connected)))
   = trace (set_networks Scenario.two_networks Sample.connected) /\
   (fst (_initContractRegistry Sample.cfg Sample.offline 137
           (set_networks Scenario.two_networks Sample.connected)) = Return tt \/
    _initContractRegistry Sample.cfg Sample.offline 137
      (set_networks Scenario.two_networks Sample.connected)
    = (Throw "failed to get default registry address",
       set_networks Scenario.two_networks Sample.connected)))
  /\
  trace (snd (_initContractRegistry Sample.cfg Sample.online 137 Sample.connected))
  = trace Sample.connected ++ [EvLoadNetworks].
Proof.
  split.
  - apply (proj1 (initContractRegistry_requests Sample.cfg Sample.offline 137
                    (set_networks Scenario.two_networks Sample.connected))).
    discriminate.
  - apply (proj2 (initContractRegistry_requests Sample.cfg Sample.online 137
                    Sample.connected)).
    reflexivity.
Defined.

Lemma _initContractRegistry_post (cfg : Config) (w : World)
    (chain : Z) (s : State) :
  (forall s',
     _initContractRegistry cfg w chain s = (Return tt, s') ->
     registryAddress s' <> "" /\
     exists n,
       In n (networks s') /\
       factory_address n = registryAddress s' /\
       (chain_id n = chain \/
        (find_registry chain (networks s') = None /\
         chain_id n = DEFAULT_CHAIN_ID cfg)))
  /\
  (forall e s',
     _initContractRegistry cfg w chain s = (Throw e, s') ->
     registryAddress s' = registryAddress s).
Proof.
  assert (Hchoice : forall st a,
            chosen_registry cfg chain (networks st) = Some a ->
            a <> "" /\
            exists n,
              In n (networks st) /\ factory_address n = a /\
              (chain_id n = chain \/
               (find_registry chain (networks st) = None /\
                chain_id n = DEFAULT_CHAIN_ID cfg))).
  { intros st a. unfold chosen_registry.
    destruct (find_registry chain (networks st)) as [b|] eqn:E.
    - intros [= <-]. split; [now apply find_registry_nonempty in E|].
      apply find_registry_In in E. destruct E as (n & Hin & Hc & Hf).
      exists n. auto.
    - intros D. split; [now apply find_registry_nonempty in D|].
      apply find_registry_In in D. destruct D as (n & Hin & Hc & Hf).
      exists n. auto. }
  rewrite _initContractRegistry_spec. split.
  - intros s'. destruct (networks s) as [|n0 l0] eqn:N.
    + destruct (w_loadNetworks w (trace s)) as [l|e]; [|discriminate].
      cbn zeta.
      destruct (chosen_registry cfg chain l) as [a|] eqn:C; [|discriminate].
      intros [= <-]. simpl.
      apply (Hchoice (set_networks l (set_trace (trace s ++ [EvLoadNetworks]) s))).
      exact C.
    + destruct (chosen_registry cfg chain (n0 :: l0)) as [a|] eqn:C;
        [|discriminate].
      intros [= <-]. simpl. rewrite N. rewrite <- N in C.
      rewrite <- N. now apply (Hchoice s).
  - intros e s'. destruct (networks s) as [|n0 l0].
    + destruct (w_loadNetworks w (trace s)) as [l|e'].
      * cbn zeta. destruct (chosen_registry cfg chain l); [discriminate|].
        now intros [= _ <-].
      * now intros [= _ <-].
    + destruct (chosen_registry cfg chain (n0 :: l0)); [discriminate|].
      now intros [= _ <-].
Qed.



(** ** Token identifiers *)

Lemma BN_toString_inj (a b : Z) : BN_toString a = BN_toString b -> a = b.
Proof.
  unfold BN_toString. intros H.
  assert (P : forall z, NilZero.int_of_string (NilZero.string_of_int (Z.to_int z))
                        = Some (Z.to_int z)).
  { intros z. apply NilZero.isi; destruct z; simpl; try discriminate.
    - intros [= E]. now apply (DecimalPos.Unsigned.to_uint_nonnil p).
    - intros [= E]. now apply (DecimalPos.Unsigned.to_uint_nonnil p). }
  apply (f_equal NilZero.int_of_string) in H. rewrite !P in H.
  injection H as H. now apply DecimalZ.to_int_inj.
Qed.

(** X10. [_formatToken] loses nothing: the collection address is kept,
    there are as many id strings as ids, in the same order, and two
    different ids never get the same string, so the enumeration can be
    recovered from its formatted form. *)
Theorem formatToken_faithful (t u : UserTokensStructOutput) :
  tr_tokenContract (_formatToken t) = raw_tokenContract t /\
  length (tr_tokenIds (_formatToken t)) = length (raw_tokenIds t) /\
  (forall i d, nth_error (raw_tokenIds t) i = Some d ->
               nth_error (tr_tokenIds (_formatToken t)) i = Some (BN_toString d)) /\
  (_formatToken t = _formatToken u -> t = u).
Proof.
  repeat split.
  - simpl. apply length_map.
  - intros i d H. simpl. now apply map_nth_error.
  - destruct t as [c ids], u as [c' ids']. unfold _formatToken. simpl.
    intros [= -> H]. f_equal.
    revert ids' H. induction ids as [|x xs IH]; intros [|y ys] H;
      try discriminate; [reflexivity|].
    simpl in H. injection H as Hx Hxs.
    apply BN_toString_inj in Hx. subst y. f_equal. now apply IH.
Qed.

Lemma formatToken_faithful_witness :
  nth_error
    (tr_tokenIds (_formatToken {| raw_tokenContract := "0xBOOK";
                                  raw_tokenIds := [7; 42] |})) 1
  = Some "42".
Proof.
  apply (proj1 (proj2 (proj2 (formatToken_faithful
                                {| raw_tokenContract := "0xBOOK";
                                   raw_tokenIds := [7; 42] |}
                                {| raw_tokenContract := "0xBOOK";
                                   raw_tokenIds := [] |}))) 1%nat 42).
  reflexivity.
Defined.

(** ** The single-token query, beyond its failures *)

Lemma getNft_after_init (cfg : Config) (w : World) (collection id : string)
    (s : State) :
  isConnected (provider s) = true ->
  collection <> "" ->
  fst (_initContractRegistry cfg w (Number (chainId (provider s))) s) = Return tt ->
  exists s2,
    getNft cfg w collection id s
    = match Js.nonempty (w_tokenURI w (trace s2) collection id) with
      | None => throw "Failed to get tokenURI"
      | Some url =>
          metadata <- _loadMetadata w url None ;;
          match metadata with
          | None => throw "Failed to get metadata"
          | Some m =>
              paymentInfo <- _getPayment cfg w collection id None None ;;
              ret {| full_tokenContract := collection;
                     full_tokenId := id;
                     full_metadata := m;
                     full_payment := paymentInfo |}
          end
      end (set_trace (trace s2 ++ [EvErc721TokenURI collection id])
             (set_erc721Address collection s2)).
Proof.
  intros Hconn Hcol Hreg.
  unfold getNft, bind at 1, gets at 1. rewrite Hconn. cbn [negb].
  unfold bind at 1, gets at 1. unfold bind at 1.
  destruct (_initContractRegistry cfg w _ s) as [r s1]. simpl in Hreg. subst r.
  unfold bind at 1.
  destruct (_initMarketPlace_returns_tt w None s1) as (s2 & ->).
  unfold bind at 1, initErc721.
  rewrite (proj2 (truthy_true_iff _) Hcol). cbn [negb modify].
  unfold bind at 1, tokenURI, bind at 1, gets at 1, request.
  cbn [erc721Address set_erc721Address trace].
  exists s2. reflexivity.
Qed.

(** X11. When the URI read and the metadata fetch succeed, [getNft] asks
    the backend for the payments of that token (default page limit, order
    'desc') as its last event.  It returns the token with the first
    payment of the page, or with no payment at all when the page is empty;
    a rejected payments query is not caught and makes [getNft] throw. *)
Theorem getNft_joins_first_payment (cfg : Config) (w : World)
    (collection id u : string) (m : NftMetadata) (r : reply (list Payment))
    (s : State) :
  isConnected (provider s) = true ->
  collection <> "" ->
  fst (_initContractRegistry cfg w (Number (chainId (provider s))) s) = Return tt ->
  (forall h, Js.nonempty (w_tokenURI w h collection id) = Some u) ->
  (forall h, w_fetchMetadata w h u MAX_METADATA_WAIT_TIME = Some m) ->
  (forall h, w_getPayments w h (DEFAULT_PAGE_LIMIT cfg) "desc" id collection = r) ->
  fst (getNft cfg w collection id s)
  = match r with
    | Ok page =>
        Return {| full_tokenContract := collection;
                  full_tokenId := id;
                  full_metadata := m;
                  full_payment := hd_error page |}
    | Err e => Throw e
    end
  /\
  exists before,
    trace (snd (getNft cfg w collection id s))
    = before ++ [EvErc721TokenURI collection id;
                 EvFetchMetadata u MAX_METADATA_WAIT_TIME;
                 EvGetPayments (DEFAULT_PAGE_LIMIT cfg) "desc" id collection].
Proof.
  intros Hconn Hcol Hreg Huri Hmeta Hpay.
  destruct (getNft_after_init cfg w collection id s Hconn Hcol Hreg) as (s2 & E).
  set (final :=
         set_trace
           (trace s2 ++ [EvErc721TokenURI collection id;
                         EvFetchMetadata u MAX_METADATA_WAIT_TIME;
                         EvGetPayments (DEFAULT_PAGE_LIMIT cfg) "desc" id
                           collection])
           (set_erc721Address collection s2)).
  assert (E' : getNft cfg w collection id s
               = (match r with
                  | Ok page =>
                      Return {| full_tokenContract := collection;
                                full_tokenId := id;
                                full_metadata := m;
                                full_payment := hd_error page |}
                  | Err e => Throw e
                  end, final)).
  { rewrite E, Huri. unfold bind at 1, _loadMetadata, request. rewrite Hmeta.
    unfold bind at 1, _getPayment, bind at 1, await. cbn [Js.nonempty].
    rewrite Hpay. subst final.
    destruct r as [page|e]; simpl; now rewrite <- !app_assoc. }
  rewrite E'. split; [reflexivity|]. now exists (trace s2).
Qed.

Lemma getNft_joins_first_payment_witness :
  fst (getNft Sample.cfg Scenario.with_payment "0xBOOK" "1" Sample.connected)
  = Return {| full_tokenContract := "0xBOOK";
              full_tokenId := "1";
              full_metadata := Sample.book;
              full_payment := Some Scenario.payment |}
  /\
  fst (getNft Sample.cfg Sample.online "0xBOOK" "1" Sample.connected)
  = Return {| full_tokenContract := "0xBOOK";
              full_tokenId := "1";
              full_metadata := Sample.book;
              full_payment := None |}.
Proof.
  split.
  - apply (getNft_joins_first_payment Sample.cfg Scenario.with_payment
             "0xBOOK" "1" "ipfs://meta/1" Sample.book (Ok [Scenario.payment])
             Sample.connected); try reflexivity. discriminate.
  - apply (getNft_joins_first_payment Sample.cfg Sample.online
             "0xBOOK" "1" "ipfs://meta/1" Sample.book (Ok [])
             Sample.connected); try reflexivity. discriminate.
Defined.

(** ** The listing in an arbitrary world *)

Lemma subsequence_refl_nil {A} (l : list A) : subsequence [] l.
Proof. induction l; constructor; assumption. Qed.

Lemma subsequence_app {A} (a b c d : list A) :
  subsequence a b -> subsequence c d -> subsequence (a ++ c) (b ++ d).
Proof.
  intros Hab Hcd. induction Hab; simpl; [assumption | |]; now constructor.
Qed.

Lemma subsequence_length {A} (a b : list A) :
  subsequence a b -> (length a <= length b)%nat.
Proof. induction 1; simpl; lia. Qed.

Lemma tokenURI_reads_app h1 h2 :
  tokenURI_reads (h1 ++ h2) = (tokenURI_reads h1 + tokenURI_reads h2)%nat.
Proof. unfold tokenURI_reads. now rewrite filter_app, length_app. Qed.

Lemma metadata_fetches_app h1 h2 :
  metadata_fetches (h1 ++ h2) = (metadata_fetches h1 + metadata_fetches h2)%nat.
Proof. unfold metadata_fetches. now rewrite filter_app, length_app. Qed.

Lemma tokenURI_reads_snoc h e :
  tokenURI_reads (h ++ [e])
  = (tokenURI_reads h + if is_tokenURI_read e then 1 else 0)%nat.
Proof.
  rewrite tokenURI_reads_app. unfold tokenURI_reads at 2. simpl.
  now destruct (is_tokenURI_read e).
Qed.

Lemma metadata_fetches_snoc h e :
  metadata_fetches (h ++ [e])
  = (metadata_fetches h + if is_metadata_fetch e then 1 else 0)%nat.
Proof.
  rewrite metadata_fetches_app. unfold metadata_fetches at 2. simpl.
  now destruct (is_metadata_fetch e).
Qed.

(** The inner loop, whatever the world answers. *)
Lemma getNftList_tokenIds_general (w : World) contract :
  forall ids acc s,
    exists kept s',
      getNftList_tokenIds w contract ids acc s = (Return (acc ++ kept), s') /\
      subsequence (map entry_key kept) (map (pair contract) ids) /\
      tokenURI_reads (trace s') = (tokenURI_reads (trace s) + length ids)%nat /\
      (metadata_fetches (trace s) + length kept
       <= metadata_fetches (trace s'))%nat /\
      (metadata_fetches (trace s')
       <= metadata_fetches (trace s) + length ids)%nat /\
      erc721Address s' = erc721Address s.
Proof.
  induction ids as [|id ids IH]; intros acc s.
  - exists [], s. simpl. rewrite app_nil_r. repeat split; try lia. constructor.
  - cbn [getNftList_tokenIds].
    unfold bind at 1, tokenURI, bind at 1, gets at 1, request.
    set (s1 := set_trace (trace s ++ [EvErc721TokenURI (erc721Address s) id]) s).
    assert (R1 : tokenURI_reads (trace s1) = S (tokenURI_reads (trace s))).
    { subst s1. simpl. rewrite tokenURI_reads_snoc. simpl. lia. }
    assert (F1 : metadata_fetches (trace s1) = metadata_fetches (trace s)).
    { subst s1. simpl. rewrite metadata_fetches_snoc. simpl. lia. }
    destruct (Js.nonempty (w_tokenURI w (trace s) (erc721Address s) id)) as [u|].
    + unfold bind at 1, _loadMetadata, request.
      set (s2 := set_trace (trace s1 ++ [EvFetchMetadata u MAX_METADATA_WAIT_TIME]) s1).
      assert (R2 : tokenURI_reads (trace s2) = S (tokenURI_reads (trace s))).
      { rewrite <- R1. subst s2. cbn [trace set_trace].
        rewrite tokenURI_reads_snoc. simpl. lia. }
      assert (F2 : metadata_fetches (trace s2) = S (metadata_fetches (trace s))).
      { rewrite <- F1. subst s2. cbn [trace set_trace].
        rewrite metadata_fetches_snoc. simpl. lia. }
      destruct (w_fetchMetadata w (trace s1) u MAX_METADATA_WAIT_TIME) as [m|].
      * destruct (IH (acc ++ [{| tokenContract := contract; tokenId := id;
                                 metadata := m |}]) s2)
          as (kept & s' & E & Hsub & Hr & Hf1 & Hf2 & Ha).
        exists ({| tokenContract := contract; tokenId := id; metadata := m |}
                  :: kept), s'.
        rewrite E, <- app_assoc. simpl.
        repeat split; try lia; try assumption.
        now constructor.
      * destruct (IH acc s2) as (kept & s' & E & Hsub & Hr & Hf1 & Hf2 & Ha).
        exists kept, s'. rewrite E. simpl.
        repeat split; try lia; try assumption.
        now constructor.
    + destruct (IH acc s1) as (kept & s' & E & Hsub & Hr & Hf1 & Hf2 & Ha).
      exists kept, s'. rewrite E. simpl.
      repeat split; try lia; try assumption.
      now constructor.
Qed.

Lemma initErc721_trace a s :
  exists s', initErc721 a s = (Return tt, s') /\ trace s' = trace s.
Proof.
  unfold initErc721. destruct (negb (Js.truthy a)); eexists; split; reflexivity.
Qed.

Lemma getNftList_contracts_general (w : World)
    (filteredData : list TokensRaw) (acc : list TokenBaseInfo) (s : State) :
  exists kept s',
    getNftList_contracts w filteredData acc s = (Return (acc ++ kept), s') /\
    subsequence (map entry_key kept) (candidates filteredData) /\
    tokenURI_reads (trace s')
    = (tokenURI_reads (trace s) + length (candidates filteredData))%nat /\
    (metadata_fetches (trace s) + length kept
     <= metadata_fetches (trace s'))%nat /\
    (metadata_fetches (trace s')
     <= metadata_fetches (trace s) + length (candidates filteredData))%nat.
Proof.
  revert acc s. induction filteredData as [|el rest IH]; intros acc s.
  - exists [], s. simpl. rewrite app_nil_r. repeat split; try lia. constructor.
  - cbn [getNftList_contracts]. unfold bind at 1.
    destruct (initErc721_trace (tr_tokenContract el) s) as (s0 & -> & T0).
    unfold bind at 1.
    destruct (getNftList_tokenIds_general w (tr_tokenContract el)
                (tr_tokenIds el) acc s0)
      as (k1 & s1 & -> & Hsub1 & Hr1 & Hf1 & Hg1 & _).
    destruct (IH (acc ++ k1) s1) as (k2 & s2 & E2 & Hsub2 & Hr2 & Hf2 & Hg2).
    exists (k1 ++ k2), s2. rewrite E2, <- app_assoc.
    unfold candidates. cbn [flat_map]. fold (candidates rest).
    rewrite map_app, !length_app, length_map. rewrite T0 in *.
    repeat split; try lia.
    now apply subsequence_app.
Qed.

Lemma listing_pass_app (w : World) (p1 p2 : list (string * string)) :
  forall h,
    listing_pass w h (p1 ++ p2)
    = (fst (listing_pass w (fst (listing_pass w h p1)) p2),
       snd (listing_pass w h p1)
       ++ snd (listing_pass w (fst (listing_pass w h p1)) p2)).
Proof.
  induction p1 as [|[c id] p1 IH]; intros h; cbn [app listing_pass fst snd].
  - now destruct (listing_pass w h p2).
  - destruct (Js.nonempty (w_tokenURI w h c id)) as [u|]; [|apply IH].
    destruct (w_fetchMetadata w (h ++ [EvErc721TokenURI c id]) u
                MAX_METADATA_WAIT_TIME) as [m|]; [|apply IH].
    rewrite IH.
    destruct (listing_pass w
                ((h ++ [EvErc721TokenURI c id])
                 ++ [EvFetchMetadata u MAX_METADATA_WAIT_TIME]) p1)
      as [h1 k1].
    reflexivity.
Qed.

(** The inner loop is the flat pass over the ids of one collection. *)
Lemma getNftList_tokenIds_pass (w : World) contract :
  forall ids acc s,
    erc721Address s = contract ->
    getNftList_tokenIds w contract ids acc s
    = (Return (acc ++ snd (listing_pass w (trace s) (map (pair contract) ids))),
       set_trace (fst (listing_pass w (trace s) (map (pair contract) ids))) s).
Proof.
  induction ids as [|id ids IH]; intros acc s Hc.
  - cbn. rewrite app_nil_r. now destruct s.
  - cbn [getNftList_tokenIds map listing_pass].
    unfold bind at 1, tokenURI, bind at 1, gets at 1, request. rewrite Hc.
    destruct (Js.nonempty (w_tokenURI w (trace s) contract id)) as [u|].
    + unfold bind at 1, _loadMetadata, request. cbn [trace set_trace].
      destruct (w_fetchMetadata w (trace s ++ [EvErc721TokenURI contract id]) u
                  MAX_METADATA_WAIT_TIME) as [m|].
      * rewrite IH by exact Hc. cbn [trace set_trace].
        destruct (listing_pass w
                    ((trace s ++ [EvErc721TokenURI contract id])
                     ++ [EvFetchMetadata u MAX_METADATA_WAIT_TIME])
                    (map (pair contract) ids)) as [h' kept].
        cbn [fst snd]. now rewrite <- app_assoc.
      * rewrite IH by exact Hc. reflexivity.
    + rewrite IH by exact Hc. reflexivity.
Qed.

(** The nested loops are the flat pass over all enumerated pairs, as long
    as every collection address is non-empty (so that [initErc721]
    retargets the accessor). *)
Lemma getNftList_contracts_pass (w : World) :
  forall filteredData acc s,
    Forall (fun el => tr_tokenContract el <> "") filteredData ->
    exists s',
      getNftList_contracts w filteredData acc s
      = (Return (acc ++ snd (listing_pass w (trace s) (candidates filteredData))),
         s') /\
      trace s' = fst (listing_pass w (trace s) (candidates filteredData)).
Proof.
  induction filteredData as [|el rest IH]; intros acc s Hall.
  - exists s. cbn. now rewrite app_nil_r.
  - inversion Hall as [|? ? Hel Hrest]; subst.
    cbn [getNftList_contracts]. unfold bind at 1, initErc721.
    rewrite (proj2 (truthy_true_iff _) Hel). cbn [negb modify].
    unfold bind at 1.
    rewrite (getNftList_tokenIds_pass w (tr_tokenContract el) (tr_tokenIds el)
               acc (set_erc721Address (tr_tokenContract el) s) eq_refl).
    cbn [trace set_erc721Address].
    set (p1 := map (pair (tr_tokenContract el)) (tr_tokenIds el)).
    match goal with |- context [getNftList_contracts w rest ?a ?st] =>
      destruct (IH a st Hrest) as (s' & E & T) end.
    exists s'. rewrite E. cbn [trace set_trace] in T |- *.
    unfold candidates. cbn [flat_map]. fold (candidates rest). fold p1.
    rewrite listing_pass_app. cbn [fst snd].
    split; [now rewrite <- app_assoc | exact T].
Qed.

(** X12. The metadata loop of [getNftList].  In any world it always
    returns; what it adds to the list is a selection, in enumeration
    order, of the enumerated (collection, id) pairs; the tokenURI reads
    number as many as the enumerated ids, the metadata fetches at most
    as many, and no more tokens are listed than metadata was fetched.
    When every collection address is non-empty, the loop is exactly the
    flat pass over the enumerated pairs: for each pair in order, one read
    of the tokenURI of that id on that collection, then, if the URI is
    non-empty, one fetch of that URI with the fixed timeout, the token
    being listed with the fetched document if there is one. *)
Theorem getNftList_contracts_selects (w : World)
    (filteredData : list TokensRaw) (acc : list TokenBaseInfo) (s : State) :
  (exists kept s',
     getNftList_contracts w filteredData acc s = (Return (acc ++ kept), s') /\
     subsequence (map entry_key kept) (candidates filteredData) /\
     tokenURI_reads (trace s')
     = (tokenURI_reads (trace s) + length (candidates filteredData))%nat /\
     (metadata_fetches (trace s) + length kept
      <= metadata_fetches (trace s'))%nat /\
     (metadata_fetches (trace s')
      <= metadata_fetches (trace s) + length (candidates filteredData))%nat)
  /\
  (Forall (fun el => tr_tokenContract el <> "") filteredData ->
   exists s',
     getNftList_contracts w filteredData acc s
     = (Return (acc ++ snd (listing_pass w (trace s) (candidates filteredData))),
        s') /\
     trace s' = fst (listing_pass w (trace s) (candidates filteredData))).
Proof.
  split.
  - exact (getNftList_contracts_general w filteredData acc s).
  - exact (getNftList_contracts_pass w filteredData acc s).
Qed.

(** X12 on the sample chain: tokens 1 and 2 of one collection are each
    read on that collection, both documents are asked for, and the one
    that arrives is listed. *)
Lemma getNftList_contracts_selects_witness :
  exists s',
    getNftList_contracts Sample.online
      [{| tr_tokenContract := "0xBOOK"; tr_tokenIds := ["1"; "2"] |}] []
      Sample.ready
    = (Return [{| tokenContract := "0xBOOK"; tokenId := "1";
                  metadata := Sample.book |}], s') /\
    trace s'
    = [EvErc721TokenURI "0xBOOK" "1";
       EvFetchMetadata "ipfs://meta/1" MAX_METADATA_WAIT_TIME;
       EvErc721TokenURI "0xBOOK" "2";
       EvFetchMetadata "ipfs://meta/2" MAX_METADATA_WAIT_TIME].
Proof.
  apply (proj2 (getNftList_contracts_selects Sample.online
                  [{| tr_tokenContract := "0xBOOK"; tr_tokenIds := ["1"; "2"] |}]
                  [] Sample.ready)).
  constructor; [discriminate | constructor].
Defined.

Lemma bind_returns {A B} (m : M A) (k : A -> M B) s a s' :
  m s = (Return a, s') -> bind m k s = k a s'.
Proof. intros H. unfold bind. now rewrite H. Qed.

Lemma getNftList_limit_zero_eq (cfg : Config) (w : World) user offset s :
  getNftList cfg w user 0 offset s = (Return [], s).
Proof. reflexivity. Qed.

Lemma getNftList_cases (cfg : Config) (w : World) user limit offset s :
  limit <> 0 ->
  (exists e s1,
     _initContractRegistry cfg w (Number (chainId (provider s))) s = (Throw e, s1) /\
     getNftList cfg w user limit offset s = (Throw e, s1))
  \/
  (exists s1 s2,
     _initContractRegistry cfg w (Number (chainId (provider s))) s = (Return tt, s1) /\
     _initMarketPlace w None s1 = (Return tt, s2) /\
     getNftList cfg w user limit offset s
     = (rawData <- getUserTokens w user limit offset ;;
        match rawData with
        | None => ret []
        | Some rawData =>
            getNftList_contracts w
              (map _formatToken (filter has_tokenIds rawData)) []
        end) s2).
Proof.
  intros Hl. rewrite (getNftList_unfold cfg w user limit offset s Hl).
  destruct (_initContractRegistry cfg w (Number (chainId (provider s))) s)
    as [[[]|e|] s1] eqn:E.
  - right. destruct (_initMarketPlace_returns_tt w None s1) as (s2 & E2).
    exists s1, s2. split; [reflexivity|]. split; [exact E2|].
    rewrite (bind_returns _ _ _ _ _ E).
    exact (bind_returns (_initMarketPlace w None) _ s1 tt s2 E2).
  - left. exists e, s1. split; [reflexivity|]. unfold bind at 1. now rewrite E.
  - exfalso. rewrite _initContractRegistry_spec in E.
    destruct (networks s).
    + destruct (w_loadNetworks w (trace s)); [|discriminate].
      cbn zeta in E. destruct (chosen_registry cfg _ _); discriminate.
    + destruct (chosen_registry cfg _ _); discriminate.
Qed.

(** X13. [getNftList] never invents a token: whatever the world answers,
    a non-empty result is a selection, in enumeration order, of the
    (collection, id) pairs of an enumeration the marketplace gave for that
    user, offset and limit. *)
Theorem getNftList_lists_only_enumerated (cfg : Config) (w : World)
    (user : string) (limit offset : Z) (s : State)
    (l : list TokenBaseInfo) (s' : State) :
  getNftList cfg w user limit offset s = (Return l, s') ->
  l = [] \/
  exists h market raw,
    w_getUserTokensPart w h market user offset limit = Ok raw /\
    subsequence (map entry_key l)
      (candidates (map _formatToken (filter has_tokenIds raw))).
Proof.
  intros H. destruct (Z.eq_dec limit 0) as [-> | Hl].
  - rewrite getNftList_limit_zero_eq in H. injection H as <- _. now left.
  - destruct (getNftList_cases cfg w user limit offset s Hl)
      as [(e & s1 & _ & E) | (s1 & s2 & _ & _ & E)];
      rewrite E in H; [discriminate|].
    unfold bind in H. rewrite getUserTokens_spec in H.
    destruct (Marketplace.contractInstance s2) as [c|].
    + destruct (w_getUserTokensPart w (trace s2) c user offset limit)
        as [raw|e] eqn:W.
      * right. exists (trace s2), c, raw. split; [exact W|].
        match type of H with getNftList_contracts w ?f [] ?st = _ =>
          destruct (getNftList_contracts_general w f [] st)
            as (kept & st' & E' & Hsub & _) end.
        rewrite E' in H. injection H as <- _. exact Hsub.
      * injection H as <- _. now left.
    + injection H as <- _. now left.
Qed.

Lemma getNftList_lists_only_enumerated_witness :
  [{| tokenContract := "0xBOOK"; tokenId := "1"; metadata := Sample.book |}] = []
  \/
  exists h market raw,
    w_getUserTokensPart Sample.online h market "0xA11CE" 0 10 = Ok raw /\
    subsequence
      (map entry_key
         [{| tokenContract := "0xBOOK"; tokenId := "1";
             metadata := Sample.book |}])
      (candidates (map _formatToken (filter has_tokenIds raw))).
Proof.
  apply (getNftList_lists_only_enumerated Sample.cfg Sample.online "0xA11CE"
           10 0 Sample.connected
           [{| tokenContract := "0xBOOK"; tokenId := "1";
               metadata := Sample.book |}]
           (snd (getNftList Sample.cfg Sample.online "0xA11CE" 10 0
                   Sample.connected))).
  reflexivity.
Defined.

(** X14. The only exceptions [getNftList] lets out are those of the
    registry selection (a failed loading of the networks, or no default
    registry): a failing marketplace read, tokenURI read or metadata fetch
    never makes it throw.  It always settles. *)
Theorem getNftList_throws_only_from_registry (cfg : Config) (w : World)
    (user : string) (limit offset : Z) (s : State) :
  (forall e s',
     getNftList cfg w user limit offset s = (Throw e, s') ->
     limit <> 0 /\
     _initContractRegistry cfg w (Number (chainId (provider s))) s = (Throw e, s'))
  /\
  (forall s', getNftList cfg w user limit offset s <> (Pending, s')).
Proof.
  assert (Hbody : forall s2,
            exists l s3,
              (rawData <- getUserTokens w user limit offset ;;
               match rawData with
               | None => ret []
               | Some rawData =>
                   getNftList_contracts w
                     (map _formatToken (filter has_tokenIds rawData)) []
               end) s2 = (Return l, s3)).
  { intros s2. unfold bind.
    destruct (getUserTokens_returns w user limit offset s2) as ([raw|] & s3 & ->).
    - destruct (getNftList_contracts_general w
                  (map _formatToken (filter has_tokenIds raw)) [] s3)
        as (kept & s4 & -> & _). eauto.
    - unfold ret. eauto. }
  destruct (Z.eq_dec limit 0) as [-> | Hl].
  - rewrite getNftList_limit_zero_eq. split; intros; discriminate.
  - destruct (getNftList_cases cfg w user limit offset s Hl)
      as [(e & s1 & Ereg & E) | (s1 & s2 & _ & _ & E)]; rewrite E.
    + split.
      * intros e' s' [= <- <-]. now split.
      * discriminate.
    + destruct (Hbody s2) as (l & s3 & ->). split; intros; discriminate.
Qed.

Lemma getNftList_throws_only_from_registry_witness :
  10 <> 0 /\
  _initContractRegistry Sample.cfg Sample.offline
    (Number (chainId (provider Sample.connected))) Sample.connected
  = (Throw "offline",
     snd (getNftList Sample.cfg Sample.offline "0xA11CE" 10 0 Sample.connected)).
Proof.
  apply (proj1 (getNftList_throws_only_from_registry Sample.cfg Sample.offline
                  "0xA11CE" 10 0 Sample.connected)).
  reflexivity.
Defined.

(** X15. A rejected enumeration looks like an empty wallet: if, after the
    registry and marketplace have been set up, the marketplace read of the
    user's tokens is rejected, [getNftList] reports the error to the
    handler and returns the empty list, without reading any tokenURI. *)
Theorem getNftList_failed_enumeration_is_empty (cfg : Config) (w : World)
    (user : string) (limit offset : Z) (s s1 s2 : State) (c e : string) :
  limit <> 0 ->
  _initContractRegistry cfg w (Number (chainId (provider s))) s = (Return tt, s1) ->
  _initMarketPlace w None s1 = (Return tt, s2) ->
  Marketplace.contractInstance s2 = Some c ->
  w_getUserTokensPart w (trace s2) c user offset limit = Err e ->
  getNftList cfg w user limit offset s
  = (Return [],
     set_trace (trace s2 ++ [EvGetUserTokensPart c user offset limit;
                             EvHandleEthError e]) s2).
Proof.
  intros Hl Hreg Hmp Hc He.
  rewrite (getNftList_unfold cfg w user limit offset s Hl).
  rewrite (bind_returns _ _ _ _ _ Hreg), (bind_returns _ _ _ _ _ Hmp).
  unfold bind. now rewrite getUserTokens_spec, Hc, He.
Qed.

Lemma getNftList_failed_enumeration_is_empty_witness :
  getNftList Sample.cfg Sample.offline "0xA11CE" 10 0
    (set_networks Scenario.two_networks Sample.ready)
  = (Return [],
     set_trace
       ([EvGetMarketplaceContract "0xREG" ViaCurrent; EvHandleEthError "offline"]
        ++ [EvGetUserTokensPart "0xMARKET" "0xA11CE" 0 10;
            EvHandleEthError "offline"])
       (set_registryAddress "0xREG"
          (set_networks Scenario.two_networks Sample.ready))).
Proof.
  set (s := set_networks Scenario.two_networks Sample.ready).
  set (s1 := set_registryAddress "0xREG" s).
  set (s2 := set_trace [EvGetMarketplaceContract "0xREG" ViaCurrent;
                        EvHandleEthError "offline"] s1).
  apply (getNftList_failed_enumeration_is_empty Sample.cfg Sample.offline
           "0xA11CE" 10 0 s s1 s2 "0xMARKET" "offline");
    [discriminate | reflexivity | reflexivity | reflexivity | reflexivity].
Defined.

(** ** Minting *)

Lemma then_ret_snd {A} (m : M A) (s : State) :
  snd ((m ;; ret tt) s) = snd (m s).
Proof. unfold bind, ret. now destruct (m s) as [[a|e|] s']. Qed.

Lemma then_ret_returns {A} (m : M A) :
  always_returns m -> forall s, (m ;; ret tt) s = (Return tt, snd (m s)).
Proof.
  intros H s. unfold bind, ret. now destruct (H s) as (a & s' & ->).
Qed.

(** X16. The three mint operations do nothing at all while no chain is
    selected (chain id empty or 0): the state and the trace are unchanged.
    With a chain selected they still never throw. *)
Theorem mint_requires_chain (w : World) (b : BuyParams) (sg : Signature)
    (amountOfEth : string) (s : State) :
  (chain_truthy (chainId (provider s)) = false ->
   mintWithEth w b sg amountOfEth s = (Return tt, s) /\
   mintWithErc20 w b sg s = (Return tt, s) /\
   mintWithNft w b sg s = (Return tt, s))
  /\
  fst (mintWithEth w b sg amountOfEth s) = Return tt /\
  fst (mintWithErc20 w b sg s) = Return tt /\
  fst (mintWithNft w b sg s) = Return tt.
Proof.
  destruct (caught_operations_return w [] 0 0 "" b sg (Some amountOfEth)
              {| tx_to := ""; tx_data := encodeFunctionData "" b sg;
                 tx_value := None |})
    as (_ & _ & _ & _ & _ & Heth & Herc & Hnft & _).
  unfold mintWithEth, mintWithErc20, mintWithNft, bind at 1 3 5 7 9 11,
    gets at 1 2 3 4 5 6.
  split.
  - intros ->. repeat split.
  - destruct (chain_truthy (chainId (provider s))); cbn [negb];
      [|repeat split].
    rewrite (then_ret_returns _ Heth), (then_ret_returns _ Herc),
      (then_ret_returns _ Hnft). repeat split.
Qed.

Lemma mint_requires_chain_witness :
  mintWithEth Sample.online Sample.buyParams Sample.signature "1000" Sample.fresh
  = (Return tt, Sample.fresh) /\
  mintWithErc20 Sample.online Sample.buyParams Sample.signature Sample.fresh
  = (Return tt, Sample.fresh) /\
  mintWithNft Sample.online Sample.buyParams Sample.signature Sample.fresh
  = (Return tt, Sample.fresh).
Proof.
  apply (proj1 (mint_requires_chain Sample.online Sample.buyParams
                  Sample.signature "1000" Sample.fresh)).
  reflexivity.
Defined.

(** X17. What a mint sends.  With a chain selected, [mintWithErc20] and
    [mintWithNft] hand the wallet one transaction addressed to the
    accessor's contract address, carrying the encoded call and no value.
    [mintWithEth] does so only when the marketplace contract instance
    exists, and attaches the ETH amount as value unless the amount string
    is empty; without an instance it sends nothing. *)
Theorem mint_transaction (w : World) (b : BuyParams) (sg : Signature)
    (amountOfEth : string) (s : State) :
  chain_truthy (chainId (provider s)) = true ->
  (exists rest,
     trace (snd (mintWithErc20 w b sg s))
     = trace s ++
       EvSendTransaction
         {| tx_to := marketAddress s;
            tx_data := encodeFunctionData "buyTokenWithERC20" b sg;
            tx_value := None |} :: rest)
  /\
  (exists rest,
     trace (snd (mintWithNft w b sg s))
     = trace s ++
       EvSendTransaction
         {| tx_to := marketAddress s;
            tx_data := encodeFunctionData "buyTokenWithNFT" b sg;
            tx_value := None |} :: rest)
  /\
  (Marketplace.contractInstance s <> None ->
   exists rest,
     trace (snd (mintWithEth w b sg amountOfEth s))
     = trace s ++
       EvSendTransaction
         {| tx_to := marketAddress s;
            tx_data := encodeFunctionData "buyTokenWithETH" b sg;
            tx_value := if Js.truthy amountOfEth then Some amountOfEth
                        else None |} :: rest)
  /\
  (Marketplace.contractInstance s = None ->
   mintWithEth w b sg amountOfEth s = (Return tt, s)).
Proof.
  intros Hc.
  assert (Eerc : snd (mintWithErc20 w b sg s) = snd (buyTokenWithERC20 w b sg s)).
  { unfold mintWithErc20, bind at 1, gets at 1. rewrite Hc. apply then_ret_snd. }
  assert (Enft : snd (mintWithNft w b sg s) = snd (buyTokenWithNFT w b sg s)).
  { unfold mintWithNft, bind at 1, gets at 1. rewrite Hc. apply then_ret_snd. }
  assert (Eeth : mintWithEth w b sg amountOfEth s
                 = (buyTokenWithETH w b sg (Some amountOfEth) ;; ret tt) s).
  { unfold mintWithEth, bind at 1, gets at 1. now rewrite Hc. }
  split; [|split; [|split]].
  - rewrite Eerc, buyTokenWithERC20_sends.
    apply signAndSendTransaction_first_event.
  - rewrite Enft, buyTokenWithNFT_sends.
    apply signAndSendTransaction_first_event.
  - intros Hi. rewrite Eeth, then_ret_snd, buyTokenWithETH_sends.
    destruct (Marketplace.contractInstance s); [|now elim Hi].
    apply signAndSendTransaction_first_event.
  - intros Hi. rewrite Eeth. unfold bind. now rewrite buyTokenWithETH_sends, Hi.
Qed.

Lemma mint_transaction_witness :
  (exists rest,
     trace (snd (mintWithEth Sample.online Sample.buyParams Sample.signature
                   "1000" Sample.ready))
     = [] ++
       EvSendTransaction
         {| tx_to := "0xMARKET";
            tx_data := encodeFunctionData "buyTokenWithETH" Sample.buyParams
                         Sample.signature;
            tx_value := Some "1000" |} :: rest)
  /\
  mintWithEth Sample.online Sample.buyParams Sample.signature "1000"
    Sample.connected
  = (Return tt, Sample.connected).
Proof.
  split.
  - apply (proj1 (proj2 (proj2 (mint_transaction Sample.online Sample.buyParams
                                  Sample.signature "1000" Sample.ready
                                  eq_refl)))).
    discriminate.
  - apply (proj2 (proj2 (proj2 (mint_transaction Sample.online Sample.buyParams
                                  Sample.signature "1000" Sample.connected
                                  eq_refl)))).
    reflexivity.
Defined.

(** ** Dispatching approvals *)

(** X18. For an NFT payment, [approveTokenSpend] retargets the ERC-721
    accessor to the token's collection and requests exactly one approval
    of that token id for the bound marketplace address; no allowance is
    read and the recursion budget plays no part. *)
Theorem approveTokenSpend_nft (w : World) (fuel : nat) (tokenAmount : option Z)
    (a id : string) (s : State) :
  selectedAddress (provider s) <> "" ->
  marketPlaceAddress s <> "" ->
  a <> "" ->
  id <> "" ->
  approveTokenSpend w fuel nft tokenAmount (Some a) (Some id) s
  = (Return tt,
     set_trace (trace s ++ [EvErc721Approve a (marketPlaceAddress s) id])
       (set_erc721Address a s)).
Proof.
  intros Ho Hm Ha Hid.
  unfold approveTokenSpend, bind at 1, gets at 1. unfold bind at 1, gets at 1.
  rewrite (proj2 (truthy_true_iff _) Ho), (proj2 (truthy_true_iff _) Hm).
  cbn [negb orb].
  rewrite (proj2 (nonempty_Some_iff (Some a) a) (conj eq_refl Ha)).
  rewrite (proj2 (nonempty_Some_iff (Some id) id) (conj eq_refl Hid)).
  unfold bind, initErc721. rewrite (proj2 (truthy_true_iff _) Ha).
  reflexivity.
Qed.

Lemma approveTokenSpend_nft_witness :
  approveTokenSpend Sample.online 0 nft None (Some "0xBOOK") (Some "1")
    Sample.ready
  = (Return tt,
     set_trace (trace Sample.ready ++ [EvErc721Approve "0xBOOK" "0xMARKET" "1"])
       (set_erc721Address "0xBOOK" Sample.ready)).
Proof.
  apply (approveTokenSpend_nft Sample.online 0 None "0xBOOK" "1" Sample.ready);
    discriminate.
Defined.

(** X19. [approveTokenSpend] does nothing (state and trace unchanged) when
    the marketplace address is not bound, when the token address is absent
    or empty, when an ERC-20 or voucher approval lacks its amount, when an
    NFT approval lacks its token id, and for every other token type. *)
Theorem approveTokenSpend_missing_parameters (w : World) (fuel : nat)
    (tokenType : TOKEN_TYPES) (tokenAmount : option Z)
    (tokenAddress tokenId : option string) (s : State) :
  marketPlaceAddress s = "" \/
  tokenType = native \/
  Js.nonempty tokenAddress = None \/
  ((tokenType = erc20 \/ tokenType = voucher) /\ tokenAmount = None) \/
  (tokenType = nft /\ Js.nonempty tokenId = None) ->
  approveTokenSpend w fuel tokenType tokenAmount tokenAddress tokenId s
  = (Return tt, s).
Proof.
  intros H. unfold approveTokenSpend, bind at 1, gets at 1.
  unfold bind at 1, gets at 1.
  destruct (Js.truthy (selectedAddress (provider s))); [|reflexivity].
  destruct (Js.truthy (marketPlaceAddress s)) eqn:Hm; [|reflexivity].
  cbn [negb orb].
  destruct H as [H | [-> | [H | [[[-> | ->] ->] | [-> H]]]]].
  - apply truthy_true_iff in Hm. now elim Hm.
  - reflexivity.
  - rewrite H. now destruct tokenType.
  - now destruct (Js.nonempty tokenAddress).
  - now destruct (Js.nonempty tokenAddress).
  - rewrite H. now destruct (Js.nonempty tokenAddress).
Qed.

Lemma approveTokenSpend_missing_parameters_witness :
  approveTokenSpend Sample.online 3 erc20 None (Some "0xTOKEN") None Sample.ready
  = (Return tt, Sample.ready).
Proof.
  apply (approveTokenSpend_missing_parameters Sample.online 3 erc20 None
           (Some "0xTOKEN") None Sample.ready).
  right. right. right. left. split; [now left | reflexivity].
Defined.

(** X20. For ERC-20 and voucher payments alike, [approveTokenSpend] is the
    approval loop on the given token and amount: it leaves the state the
    loop leaves, ignores the token id, and returns normally exactly when
    the loop returns. *)
Theorem approveTokenSpend_erc20_is_the_loop (w : World) (fuel : nat)
    (tokenType : TOKEN_TYPES) (amount : Z) (a : string)
    (tokenId : option string) (s : State) :
  tokenType = erc20 \/ tokenType = voucher ->
  selectedAddress (provider s) <> "" ->
  marketPlaceAddress s <> "" ->
  a <> "" ->
  snd (approveTokenSpend w fuel tokenType (Some amount) (Some a) tokenId s)
  = snd (_isErc20TokenApproved w fuel amount (Some a) s)
  /\
  (fst (approveTokenSpend w fuel tokenType (Some amount) (Some a) tokenId s)
   = Return tt
   <-> exists b, fst (_isErc20TokenApproved w fuel amount (Some a) s) = Return b).
Proof.
  intros Ht Ho Hm Ha.
  assert (E : approveTokenSpend w fuel tokenType (Some amount) (Some a) tokenId s
              = (_isErc20TokenApproved w fuel amount (Some a) ;; ret tt) s).
  { unfold approveTokenSpend, bind at 1, gets at 1. unfold bind at 1, gets at 1.
    rewrite (proj2 (truthy_true_iff _) Ho), (proj2 (truthy_true_iff _) Hm).
    cbn [negb orb].
    rewrite (proj2 (nonempty_Some_iff (Some a) a) (conj eq_refl Ha)).
    now destruct Ht as [-> | ->]. }
  rewrite E. split; [apply then_ret_snd|].
  unfold bind, ret.
  destruct (_isErc20TokenApproved w fuel amount (Some a) s) as [[b|e|] s'];
    simpl; split; intros H; eauto; try discriminate;
    destruct H as [b' H]; discriminate.
Qed.

Lemma approveTokenSpend_erc20_is_the_loop_witness :
  snd (approveTokenSpend Sample.online 2 voucher (Some 100) (Some "0xTOKEN")
         (Some "9") Sample.ready)
  = snd (_isErc20TokenApproved Sample.online 2 100 (Some "0xTOKEN") Sample.ready)
  /\
  fst (approveTokenSpend Sample.online 2 voucher (Some 100) (Some "0xTOKEN")
         (Some "9") Sample.ready) = Return tt.
Proof.
  destruct (approveTokenSpend_erc20_is_the_loop Sample.online 2 voucher 100
              "0xTOKEN" (Some "9") Sample.ready)
    as [Hs Hf]; [now right | discriminate | discriminate | discriminate |].
  split; [exact Hs|]. apply Hf. now exists true.
Defined.

(** ** The approval loop, when it ends *)

Lemma _isErc20TokenApproved_after_rounds (w : World) amt owner mp :
  forall n fuel addr s,
    selectedAddress (provider s) = owner ->
    marketPlaceAddress s = mp ->
    Js.truthy owner = true ->
    let s1 := select_token addr s in
    let tok := erc20Address s1 in
    (forall k, (k < n)%nat ->
       allowance_or_0
         (w_allowance w (trace s ++ approval_rounds k tok owner mp amt)
            tok owner mp) < amt) ->
    amt <= allowance_or_0
             (w_allowance w (trace s ++ approval_rounds n tok owner mp amt)
                tok owner mp) ->
    _isErc20TokenApproved w (S (n + fuel)) amt addr s
    = (Return true,
       set_trace (trace s ++ approval_rounds n tok owner mp amt
                          ++ [EvErc20Allowance tok owner mp]) s1).
Proof.
  induction n as [|n IH]; intros fuel addr s Ho Hm Ht s1 tok Hlow Hhigh.
  - assert (H : Js.truthy (selectedAddress (provider s)) = true) by now rewrite Ho.
    rewrite (_isErc20TokenApproved_step w (0 + fuel) amt addr s H).
    fold s1 tok. rewrite Ho, Hm. simpl in Hhigh. rewrite app_nil_r in Hhigh.
    now rewrite (proj2 (Z.leb_le _ _) Hhigh).
  - assert (H : Js.truthy (selectedAddress (provider s)) = true) by now rewrite Ho.
    change (S (S n + fuel)) with (S (S (n + fuel))).
    rewrite (_isErc20TokenApproved_step w (S (n + fuel)) amt addr s H).
    fold s1 tok. rewrite Ho, Hm.
    assert (H0 := Hlow 0%nat ltac:(lia)). simpl in H0. rewrite app_nil_r in H0.
    rewrite (proj2 (Z.leb_gt _ _) H0).
    destruct (select_token_frame addr s) as (P & Q & R). fold s1 in P, Q, R.
    set (s2 := set_trace _ s1).
    assert (E2 : select_token None s2 = s2) by reflexivity.
    specialize (IH fuel None s2).
    cbv zeta in IH. rewrite E2 in IH.
    change (erc20Address s2) with tok in IH.
    change (trace s2)
      with (trace s ++ approval_round tok owner mp amt) in IH.
    rewrite IH.
    + subst s2. unfold set_trace. simpl. f_equal. f_equal.
      now rewrite <- app_assoc.
    + subst s2. simpl. now rewrite P.
    + subst s2. simpl. now rewrite Q.
    + exact Ht.
    + intros k Hk. rewrite <- app_assoc.
      apply (Hlow (S k)). lia.
    + rewrite <- app_assoc. exact Hhigh.
Qed.

(** X21. If the first [n] allowance reads of the loop are short and the
    next one covers the amount, a call by a selected address returns
    [true] (given a budget of more than [n] calls, however large), having
    issued exactly [n] read-then-approve rounds for that token, spender
    and amount, followed by the final read. *)
Theorem approval_loop_terminates_after_rounds (w : World) (n fuel : nat)
    (amt : Z) (addr : option string) (s : State) :
  Js.truthy (selectedAddress (provider s)) = true ->
  let owner := selectedAddress (provider s) in
  let mp := marketPlaceAddress s in
  let s1 := select_token addr s in
  let tok := erc20Address s1 in
  (forall k, (k < n)%nat ->
     allowance_or_0
       (w_allowance w (trace s ++ approval_rounds k tok owner mp amt)
          tok owner mp) < amt) ->
  amt <= allowance_or_0
           (w_allowance w (trace s ++ approval_rounds n tok owner mp amt)
              tok owner mp) ->
  _isErc20TokenApproved w (S (n + fuel)) amt addr s
  = (Return true,
     set_trace (trace s ++ approval_rounds n tok owner mp amt
                        ++ [EvErc20Allowance tok owner mp]) s1)
  /\
  approvals (approval_rounds n tok owner mp amt) = n.
Proof.
  intros Ht owner mp s1 tok Hlow Hhigh. split.
  - now apply (_isErc20TokenApproved_after_rounds w amt owner mp n fuel addr s).
  - clear. induction n as [|n IH]; [reflexivity|].
    cbn [approval_rounds]. rewrite approvals_app, IH. reflexivity.
Qed.

Lemma approval_loop_terminates_after_rounds_witness :
  _isErc20TokenApproved Sample.online 7 100 (Some "0xTOKEN") Sample.ready
  = (Return true,
     set_trace
       (trace Sample.ready
        ++ approval_rounds 1 "0xTOKEN" "0xA11CE" "0xMARKET" 100
        ++ [EvErc20Allowance "0xTOKEN" "0xA11CE" "0xMARKET"])
       (select_token (Some "0xTOKEN") Sample.ready))
  /\
  approvals (approval_rounds 1 "0xTOKEN" "0xA11CE" "0xMARKET" 100) = 1%nat.
Proof.
  apply (approval_loop_terminates_after_rounds Sample.online 1 5 100
           (Some "0xTOKEN") Sample.ready).
  - reflexivity.
  - intros k Hk. assert (k = 0%nat) as -> by lia. reflexivity.
  - vm_compute. discriminate.
Defined.

(** ** Following a chain change *)

Lemma _initContractRegistry_frame (cfg : Config) (w : World) chain s :
  let s1 := snd (_initContractRegistry cfg w chain s) in
  provider s1 = provider s /\
  marketAddress s1 = marketAddress s /\
  marketPlaceAddress s1 = marketPlaceAddress s.
Proof.
  rewrite _initContractRegistry_spec.
  destruct (networks s).
  - destruct (w_loadNetworks w (trace s)); [|now repeat split].
    cbn zeta. destruct (chosen_registry cfg chain a); now repeat split.
  - destruct (chosen_registry cfg chain (n :: l)); now repeat split.
Qed.

Lemma on_chainId_change_cases (cfg : Config) (w : World) (s : State) :
  let chain := Number (chainId (provider s)) in
  (exists e s1,
     _initContractRegistry cfg w chain s = (Throw e, s1) /\
     on_chainId_change cfg w s = (Throw e, s1))
  \/
  (exists s1,
     _initContractRegistry cfg w chain s = (Return tt, s1) /\
     on_chainId_change cfg w s = _initMarketPlace w None s1).
Proof.
  intros chain.
  assert (U : on_chainId_change cfg w s
              = (_initContractRegistry cfg w chain ;; _initMarketPlace w None) s)
    by reflexivity.
  rewrite U.
  destruct (_initContractRegistry cfg w chain s) as [[[]|e|] s1] eqn:E.
  - right. exists s1. split; [reflexivity|].
    exact (bind_returns _ _ s tt s1 E).
  - left. exists e, s1. split; [reflexivity|]. unfold bind. now rewrite E.
  - exfalso. rewrite _initContractRegistry_spec in E.
    destruct (networks s).
    + destruct (w_loadNetworks w (trace s)); [|discriminate].
      cbn zeta in E. destruct (chosen_registry cfg _ _); discriminate.
    + destruct (chosen_registry cfg _ _); discriminate.
Qed.

Lemma _initMarketPlace_keeps_step_general (w : World) (s : State) :
  exists s',
    _initMarketPlace w None s = (Return tt, s') /\
    (marketPlaceAddress s = marketAddress s ->
     marketPlaceAddress s' = marketAddress s') /\
    (marketAddress s <> "" -> marketAddress s' <> "").
Proof.
  destruct (_initMarketPlace_spec w None s)
    as (found & s1 & _ & _ & _ & _ & _ & Hm & Hmp & _ & _ & E).
  rewrite E. destruct (Js.nonempty found) as [a|] eqn:Ef.
  - eexists. split; [reflexivity|]. simpl.
    apply nonempty_Some_iff in Ef. destruct Ef as [_ Ha]. auto.
  - exists s1. split; [reflexivity|]. rewrite Hm, Hmp. auto.
Qed.

(** X22. What the chain-id watcher does.  Its outcome is that of the
    registry selection: it throws what [_initContractRegistry] throws,
    leaving the state that left, and returns normally whenever the
    selection returns, even if the registry read that follows is rejected.
    It never clears the marketplace binding, and keeps the accessor's
    address and the orchestrator's copy equal if they were.  When every
    registry read is rejected, both addresses stay those of the previous
    chain.  When the selection returns, the registry accessor can reach
    a provider (a default provider exists, or the wallet is connected
    with a provider handle) and the registry answers a non-empty address,
    the watcher returns and both addresses become that address. *)
Theorem on_chainId_change_binding (cfg : Config) (w : World) (s : State) :
  let chain := Number (chainId (provider s)) in
  let s' := snd (on_chainId_change cfg w s) in
  fst (on_chainId_change cfg w s) = fst (_initContractRegistry cfg w chain s)
  /\
  (forall e,
     fst (_initContractRegistry cfg w chain s) = Throw e ->
     s' = snd (_initContractRegistry cfg w chain s))
  /\
  (marketAddress s <> "" -> marketAddress s' <> "")
  /\
  (marketPlaceAddress s = marketAddress s ->
   marketPlaceAddress s' = marketAddress s')
  /\
  (forall e,
     (forall h reg via, w_getMarketplaceContract w h reg via = Err e) ->
     marketAddress s' = marketAddress s /\
     marketPlaceAddress s' = marketPlaceAddress s)
  /\
  (forall a,
     (forall h reg via, w_getMarketplaceContract w h reg via = Ok a) ->
     a <> "" ->
     defaultProvider (provider s) = true \/
     isConnected (provider s) && currentProvider (provider s) = true ->
     fst (_initContractRegistry cfg w chain s) = Return tt ->
     fst (on_chainId_change cfg w s) = Return tt /\
     marketAddress s' = a /\ marketPlaceAddress s' = a).
Proof.
  intros chain s'. subst s'.
  pose proof (_initContractRegistry_frame cfg w chain s) as F. cbv zeta in F.
  destruct (on_chainId_change_cases cfg w s)
    as [(e & s1 & Ereg & E) | (s1 & Ereg & E)];
    fold chain in Ereg; rewrite Ereg in F |- *; simpl in F;
    destruct F as (Fp & Fm & Fmp); rewrite E.
  - simpl. rewrite Fm, Fmp. split; [reflexivity|]. split; [reflexivity|].
    split; [auto|]. split; [auto|]. split.
    + intros _ _. now split.
    + intros a _ _ _ H. discriminate H.
  - destruct (_initMarketPlace_keeps_step_general w s1) as (s2 & E2 & Hstep & Hne).
    rewrite E2. simpl. split; [reflexivity|]. split; [discriminate|].
    split; [|split; [|split]].
    + intros H. apply Hne. now rewrite Fm.
    + intros H. apply Hstep. now rewrite Fm, Fmp.
    + intros e Hrej. rewrite <- Fm, <- Fmp.
      assert (X : _initMarketPlace w None s1 = (Return tt, s2)) by exact E2.
      unfold _initMarketPlace, bind at 1 in X. cbn [Js.nonempty] in X.
      rewrite getMarketPlaceAddress_spec in X.
      destruct (Registry.contractInstance s1) as [[reg via]|].
      * rewrite Hrej in X. injection X as <-. now split.
      * injection X as <-. now split.
    + intros a Hok Ha Hd _. split; [reflexivity|].
      assert (Hreg : registryAddress s1 <> "").
      { apply (proj1 (_initContractRegistry_post cfg w chain s) s1 Ereg). }
      assert (Hinst : exists via,
                 Registry.contractInstance s1 = Some (registryAddress s1, via)).
      { unfold Registry.contractInstance. rewrite Fp.
        rewrite (proj2 (truthy_true_iff _) Hreg).
        destruct (isConnected (provider s) && currentProvider (provider s));
          simpl; [eauto|].
        destruct Hd as [Hd | Hd]; [|discriminate Hd].
        rewrite Hd. simpl. eauto. }
      destruct Hinst as (via & Hinst).
      destruct (proj2 (_initMarketPlace_binds_address w s1) (registryAddress s1)
                  via a Hinst (Hok _ _ _) Ha) as (B1 & B2 & _).
      rewrite E2 in B1, B2. now split.
Qed.

(** X22 on the sample worlds: offline with the networks known, the watcher
    returns and the binding stays; online it returns and binds the
    registry's answer. *)
Lemma on_chainId_change_binding_witness :
  (fst (on_chainId_change Sample.cfg Sample.offline
          (set_networks Scenario.two_networks Sample.ready)) = Return tt /\
   marketAddress
     (snd (on_chainId_change Sample.cfg Sample.offline
             (set_networks Scenario.two_networks Sample.ready)))
   = "0xMARKET" /\
   marketPlaceAddress
     (snd (on_chainId_change Sample.cfg Sample.offline
             (set_networks Scenario.two_networks Sample.ready)))
   = "0xMARKET")
  /\
  (fst (on_chainId_change Sample.cfg Sample.online Sample.connected) = Return tt /\
   marketAddress (snd (on_chainId_change Sample.cfg Sample.online Sample.connected))
   = "0xMARKET" /\
   marketPlaceAddress
     (snd (on_chainId_change Sample.cfg Sample.online Sample.connected))
   = "0xMARKET")
  /\
  snd (on_chainId_change Sample.cfg Sample.offline Sample.connected)
  = snd (_initContractRegistry Sample.cfg Sample.offline 1 Sample.connected).
Proof.
  split; [|split].
  - destruct (on_chainId_change_binding Sample.cfg Sample.offline
                (set_networks Scenario.two_networks Sample.ready))
      as (O & _ & _ & _ & R & _).
    split; [exact O|]. apply (R "offline"). reflexivity.
  - apply (proj2 (proj2 (proj2 (proj2 (proj2
             (on_chainId_change_binding Sample.cfg Sample.online
                Sample.connected))))) "0xMARKET");
      [reflexivity | discriminate | now left | reflexivity].
  - apply (proj1 (proj2 (on_chainId_change_binding Sample.cfg Sample.offline
                           Sample.connected)) "offline").
    reflexivity.
Defined.

(* ===================================================================== *)
(** * Wallet requests *)
(* ===================================================================== *)

Lemma wallet_await_absorbed (a : Wallet.Action)
    (answer : list Wallet.Action -> reply unit) (h : list Wallet.Action) :
  Wallet.try_catch (Wallet.await a answer)
    (fun error => Wallet.act (Wallet.HandleEthError error)) h
  = match answer h with
    | Ok _ => (Return tt, h ++ [a])
    | Err e => (Return tt, h ++ [a; Wallet.HandleEthError e])
    end.
Proof.
  unfold Wallet.try_catch, Wallet.await, Wallet.act.
  destruct (answer h); [reflexivity|]. now rewrite <- app_assoc.
Qed.

Lemma wallet_redirect_spec (env : Wallet.Env) (h : list Wallet.Action) :
  Wallet.redirect env h
  = match Wallet.window_open env h (Wallet.APP_URL env) with
    | Ok _ => (Return tt, h ++ [Wallet.WindowOpen (Wallet.APP_URL env)])
    | Err _ =>
        (Return tt,
         h ++ [Wallet.WindowOpen (Wallet.APP_URL env); Wallet.LocationReload])
    end.
Proof.
  unfold Wallet.redirect, Wallet.try_catch, Wallet.await, Wallet.act.
  destruct (Wallet.window_open env h (Wallet.APP_URL env)); [reflexivity|].
  now rewrite <- app_assoc.
Qed.

(** X23. [connect] never throws, and what it does is decided by the
    runtime and by the answers it gets.  On a mobile browser whose user
    agent lacks 'MetaMask' it opens the deep link and nothing else if
    the opening succeeds, and reloads the page if the opening throws: the
    wallet is not asked for accounts and the error handler is not called.
    Everywhere else it asks the wallet for accounts once; if the wallet
    accepts that is all, and if it rejects with [e] then [e] is passed to
    the error handler. *)
Theorem connect_redirects_or_requests (env : Wallet.Env)
    (h : list Wallet.Action) :
  Wallet.connect env h
  = (Return tt,
     h ++
     if Wallet.isMobile env && negb (Wallet.userAgentIncludesMetaMask env)
     then
       match Wallet.window_open env h (Wallet.APP_URL env) with
       | Ok _ => [Wallet.WindowOpen (Wallet.APP_URL env)]
       | Err _ => [Wallet.WindowOpen (Wallet.APP_URL env); Wallet.LocationReload]
       end
     else
       match Wallet.connectEthAccounts env h with
       | Ok _ => [Wallet.ConnectEthAccounts]
       | Err e => [Wallet.ConnectEthAccounts; Wallet.HandleEthError e]
       end).
Proof.
  unfold Wallet.connect.
  destruct (Wallet.isMobile env && negb (Wallet.userAgentIncludesMetaMask env)).
  - unfold Wallet.try_catch at 1. rewrite wallet_redirect_spec.
    now destruct (Wallet.window_open env h (Wallet.APP_URL env)).
  - rewrite wallet_await_absorbed.
    now destruct (Wallet.connectEthAccounts env h).
Qed.

(** X23 on a phone and on a desktop whose wallet rejects. *)
Lemma connect_redirects_or_requests_witness :
  Wallet.connect Wallet.phone []
  = (Return tt,
     [Wallet.WindowOpen "https://metamask.app.link/dapp/books.example/"])
  /\
  Wallet.connect Wallet.desktop []
  = (Return tt,
     [Wallet.ConnectEthAccounts;
      Wallet.HandleEthError "User rejected the request"]).
Proof.
  split.
  - rewrite (connect_redirects_or_requests Wallet.phone []). reflexivity.
  - rewrite (connect_redirects_or_requests Wallet.desktop []). reflexivity.
Defined.

(** X24. [addNetwork] never throws.  For a chain missing from the URL
    table or from the network store it reports 'Unsupported network' to
    [ErrorHandler.process] and asks the wallet nothing.  For a known chain
    it asks the wallet once to add the chain, with the store's name and
    currency and the table's URLs: if the wallet accepts, that request is
    the only action; if the wallet rejects with [e], [addChain] passes [e]
    to [handleEthError], and [ErrorHandler.process] is not called. *)
Theorem addNetwork_supported_or_reported (env : Wallet.Env) (chainID : ChainId)
    (h : list Wallet.Action) :
  (Wallet.getNetworkInfo env chainID = None \/
   Wallet.getNetworkByID env (Number chainID) = None ->
   Wallet.addNetwork env chainID h
   = (Return tt, h ++ [Wallet.ErrorHandlerProcess "Unsupported network"]))
  /\
  (forall urls info,
     Wallet.getNetworkInfo env chainID = Some urls ->
     Wallet.getNetworkByID env (Number chainID) = Some info ->
     let currency :=
       {| Wallet.nc_name := Wallet.token_name info;
          Wallet.nc_symbol := Wallet.token_symbol info;
          Wallet.nc_decimals := Wallet.decimals info |} in
     let request :=
       Wallet.RequestAddEthChain (Number chainID) (Wallet.net_name info)
         (Wallet.rpcUrl urls) currency (Wallet.blockExplorerUrl urls) in
     Wallet.addNetwork env chainID h
     = (Return tt,
        h ++
        match Wallet.requestAddEthChain env h (Number chainID)
                (Wallet.net_name info) (Wallet.rpcUrl urls) currency
                (Wallet.blockExplorerUrl urls) with
        | Ok _ => [request]
        | Err e => [request; Wallet.HandleEthError e]
        end)).
Proof.
  split.
  - intros H. unfold Wallet.addNetwork, Wallet.try_catch, Wallet.throw, Wallet.act.
    destruct H as [H | H]; rewrite H.
    + now destruct (Wallet.getNetworkByID env (Number chainID)).
    + reflexivity.
  - intros urls info Hu Hi currency request.
    unfold Wallet.addNetwork, Wallet.try_catch at 1. rewrite Hu, Hi.
    unfold Wallet.addChain. rewrite wallet_await_absorbed.
    fold currency request.
    now destruct (Wallet.requestAddEthChain env h (Number chainID)
                    (Wallet.net_name info) (Wallet.rpcUrl urls) currency
                    (Wallet.blockExplorerUrl urls)).
Qed.

(** X24 on a desktop that knows chain 137 only and whose wallet rejects. *)
Lemma addNetwork_supported_or_reported_witness :
  Wallet.addNetwork Wallet.desktop (ChainNum 5) []
  = (Return tt, [] ++ [Wallet.ErrorHandlerProcess "Unsupported network"])
  /\
  Wallet.addNetwork Wallet.desktop (ChainNum 137) []
  = (Return tt,
     [Wallet.RequestAddEthChain 137 "Polygon" "https://rpc.example/137"
        {| Wallet.nc_name := "Matic"; Wallet.nc_symbol := "MATIC";
           Wallet.nc_decimals := 18 |}
        "https://scan.example/137";
      Wallet.HandleEthError "User rejected the request"]).
Proof.
  split.
  - apply (proj1 (addNetwork_supported_or_reported Wallet.desktop (ChainNum 5) [])).
    left. reflexivity.
  - apply (proj2 (addNetwork_supported_or_reported Wallet.desktop
                    (ChainNum 137) [])
             {| Wallet.rpcUrl := "https://rpc.example/137";
                Wallet.blockExplorerUrl := "https://scan.example/137" |}
             {| Wallet.net_name := "Polygon"; Wallet.token_name := "Matic";
                Wallet.token_symbol := "MATIC"; Wallet.decimals := 18 |});
      reflexivity.
Defined.

(* ===================================================================== *)
(** * Formatting *)
(* ===================================================================== *)

Lemma string_length_append (a b : string) :
  String.length (a ++ b)%string = (String.length a + String.length b)%nat.
Proof. induction a as [|c a IH]; simpl; [reflexivity | now rewrite IH]. Qed.

Lemma substring_head_length (n : nat) (s : string) :
  String.length (substring 0 n s) = Nat.min n (String.length s).
Proof.
  revert s. induction n as [|n IH]; intros [|c s]; simpl; try reflexivity.
  now rewrite IH.
Qed.

Lemma substring_split (n : nat) (s : string) :
  (n <= String.length s)%nat ->
  s = (substring 0 n s ++ substring n (String.length s - n) s)%string.
Proof.
  revert s. induction n as [|n IH]; intros s H.
  - rewrite Nat.sub_0_r. simpl.
    assert (E : substring 0 0 s = ""%string) by now destruct s.
    rewrite E. simpl. clear. induction s as [|c s IH]; simpl; [reflexivity|].
    now rewrite <- IH.
  - destruct s as [|c s]; simpl in H; [lia|]. simpl. f_equal.
    apply IH. lia.
Qed.

Lemma substring_tail_length (n : nat) (s : string) :
  String.length (substring n (String.length s - n) s) = (String.length s - n)%nat.
Proof.
  revert s. induction n as [|n IH]; intros s.
  - rewrite Nat.sub_0_r. induction s as [|c s IHs]; simpl; [reflexivity|].
    now rewrite IHs.
  - destruct s as [|c s]; simpl; [reflexivity | apply IH].
Qed.

Lemma substring_all (m : nat) (s : string) :
  (String.length s <= m)%nat -> substring 0 m s = s.
Proof.
  revert s. induction m as [|m IH]; intros [|c s] H; simpl in *;
    try reflexivity; try lia.
  f_equal. apply IH. lia.
Qed.

(** X25. [cropAddress] on an address of at least eleven characters shows
    its first six and its last five characters around three dots and drops
    what lies between: the result has fourteen characters whatever the
    length of the address.  An address of at most five characters is
    instead shown in full twice. *)
Theorem cropAddress_shape (address : string) :
  ((11 <= String.length address)%nat ->
   exists head middle tail,
     address = (head ++ middle ++ tail)%string /\
     String.length head = 6%nat /\
     String.length tail = 5%nat /\
     Formatting.cropAddress address = (head ++ "..." ++ tail)%string /\
     String.length (Formatting.cropAddress address) = 14%nat)
  /\
  ((String.length address <= 5)%nat ->
   Formatting.cropAddress address = (address ++ "..." ++ address)%string).
Proof.
  unfold Formatting.cropAddress, Formatting.slice_to, Formatting.slice_last.
  split.
  - intros H.
    set (L := String.length address) in *.
    set (rest := substring 6 (L - 6) address).
    assert (E1 : address = (substring 0 6 address ++ rest)%string).
    { apply substring_split. lia. }
    assert (Lrest : String.length rest = (L - 6)%nat).
    { apply substring_tail_length. }
    assert (E2 : rest = (substring 0 (L - 11) rest
                         ++ substring (L - 11) (String.length rest - (L - 11)) rest)%string).
    { apply substring_split. lia. }
    assert (Etail : substring (L - 5) 5 address
                    = substring (L - 11) (String.length rest - (L - 11)) rest).
    { rewrite Lrest. replace (L - 6 - (L - 11))%nat with 5%nat by lia.
      replace (L - 5)%nat with (6 + (L - 11))%nat by lia.
      rewrite E1 at 1. clear -H.
      assert (H6 : String.length (substring 0 6 address) = 6%nat).
      { rewrite substring_head_length. fold L. lia. }
      revert H6. generalize (substring 0 6 address) as p.
      generalize (L - 11)%nat as k. generalize rest as r. clear.
      intros r k p.
      destruct p as [|c1 [|c2 [|c3 [|c4 [|c5 [|c6 [|c7 p]]]]]]];
        simpl; intros H6; try discriminate. reflexivity. }
    exists (substring 0 6 address), (substring 0 (L - 11) rest),
      (substring (L - 5) 5 address).
    assert (Lh : String.length (substring 0 6 address) = 6%nat).
    { rewrite substring_head_length. fold L. lia. }
    assert (Lt : String.length (substring (L - 5) 5 address) = 5%nat).
    { rewrite Etail, substring_tail_length, Lrest. lia. }
    repeat split; try assumption.
    + rewrite Etail, <- E2. exact E1.
    + rewrite !string_length_append, Lh, Lt. reflexivity.
  - intros H. replace (String.length address - 5)%nat with 0%nat by lia.
    rewrite !substring_all by lia. reflexivity.
Qed.

Lemma cropAddress_shape_witness :
  String.length
    (Formatting.cropAddress "0x52908400098527886E0F7030069857D2E4169EE7")
  = 14%nat
  /\
  Formatting.cropAddress "0x1" = "0x1...0x1".
Proof.
  split.
  - destruct (proj1 (cropAddress_shape
                       "0x52908400098527886E0F7030069857D2E4169EE7"))
      as (hd & mid & tl & _ & _ & _ & _ & Hlen).
    + simpl. lia.
    + exact Hlen.
  - apply (proj2 (cropAddress_shape "0x1")). simpl. lia.
Defined.

(* ===================================================================== *)
(** * The context-menu listener *)
(* ===================================================================== *)

Section ContextMenuFacts.

Variable Obj : Type.
Variable Point : Type.
Variable containsPoint : Obj -> Point -> bool.

(** X26. A press of any button but the right one, and a right press that
    hits no object, leave the canvas selection and the context-menu flag
    as they are. *)
Theorem on_mouse_down_ignored (button : Z) (pointer : Point) (canvas : ContextMenu.Canvas Obj) :
  button <> ContextMenu.MOUSE_right \/
  (forall object, In object (ContextMenu.objects Obj canvas) ->
                  containsPoint object pointer = false) ->
  ContextMenu.on_mouse_down Obj Point containsPoint button pointer canvas
  = canvas.
Proof.
  intros [H | H]; unfold ContextMenu.on_mouse_down.
  - now rewrite (proj2 (Z.eqb_neq _ _) H).
  - destruct (button =? ContextMenu.MOUSE_right); [|reflexivity]. simpl.
    destruct (find _ _) as [t|] eqn:F; [|reflexivity].
    apply find_some in F. destruct F as [Hin Hc].
    rewrite (H t Hin) in Hc. discriminate.
Qed.

(** X27. A right press over objects makes active the first object, in
    the order of [getObjects], that contains the pointer, and flips the
    context-menu flag; the objects themselves are untouched.  A second
    right press at the same place flips the flag back and keeps the same
    object active. *)
Theorem on_mouse_down_selects_first_hit (pointer : Point) (canvas : ContextMenu.Canvas Obj)
    (below above : list Obj) (target : Obj) :
  ContextMenu.objects Obj canvas = below ++ target :: above ->
  (forall object, In object below -> containsPoint object pointer = false) ->
  containsPoint target pointer = true ->
  let once :=
    ContextMenu.on_mouse_down Obj Point containsPoint ContextMenu.MOUSE_right
      pointer canvas in
  let twice :=
    ContextMenu.on_mouse_down Obj Point containsPoint ContextMenu.MOUSE_right
      pointer once in
  ContextMenu.activeObject Obj once = Some target /\
  ContextMenu.contextMenuState Obj once
  = negb (ContextMenu.contextMenuState Obj canvas) /\
  ContextMenu.objects Obj once = ContextMenu.objects Obj canvas /\
  ContextMenu.activeObject Obj twice = Some target /\
  ContextMenu.contextMenuState Obj twice = ContextMenu.contextMenuState Obj canvas.
Proof.
  intros Hobj Hbelow Hhit.
  assert (F : forall l, (forall o, In o l -> containsPoint o pointer = false) ->
              find (fun o => containsPoint o pointer) (l ++ target :: above)
              = Some target).
  { induction l as [|x l IH]; intros Hl; simpl.
    - now rewrite Hhit.
    - rewrite (Hl x (or_introl eq_refl)). apply IH.
      intros o Ho. apply Hl. now right. }
  unfold ContextMenu.on_mouse_down. simpl.
  rewrite Hobj, (F below Hbelow). simpl.
  rewrite (F below Hbelow). simpl. rewrite negb_involutive. repeat split.
Qed.

End ContextMenuFacts.

(** On a canvas of horizontal spans hit at an abscissa. *)
Lemma on_mouse_down_ignored_witness :
  ContextMenu.on_mouse_down (Z * Z) Z
    (fun span x => (fst span <=? x) && (x <=? snd span))
    ContextMenu.MOUSE_left 5
    {| ContextMenu.objects := [(0, 10)];
       ContextMenu.activeObject := None;
       ContextMenu.contextMenuState := false |}
  = {| ContextMenu.objects := [(0, 10)];
       ContextMenu.activeObject := None;
       ContextMenu.contextMenuState := false |}.
Proof.
  apply (on_mouse_down_ignored (Z * Z) Z
           (fun span x => (fst span <=? x) && (x <=? snd span))).
  left. discriminate.
Defined.

Lemma on_mouse_down_selects_first_hit_witness :
  let hit := fun (span : Z * Z) x => (fst span <=? x) && (x <=? snd span) in
  let canvas :=
    {| ContextMenu.objects := [(20, 30); (0, 10); (4, 6)];
       ContextMenu.activeObject := None;
       ContextMenu.contextMenuState := false |} in
  let once :=
    ContextMenu.on_mouse_down (Z * Z) Z hit ContextMenu.MOUSE_right 5 canvas in
  ContextMenu.activeObject (Z * Z) once = Some (0, 10) /\
  ContextMenu.contextMenuState (Z * Z) once = true.
Proof.
  intros hit canvas once.
  destruct (on_mouse_down_selects_first_hit (Z * Z) Z hit 5 canvas
              [(20, 30)] [(4, 6)] (0, 10)) as (A & B & _).
  - reflexivity.
  - intros o [<- | []]. reflexivity.
  - reflexivity.
  - split; [exact A | exact B].
Defined.

(* ===================================================================== *)
(** * Style switches *)
(* ===================================================================== *)

Lemma count_matching {A} (p : A -> bool) (l : list A) (start : nat) :
  fold_left (fun count value => if p value then (count + 1)%nat else count)
            l start
  = (start + length (filter p l))%nat.
Proof.
  revert start. induction l as [|x l IH]; intros start; simpl; [lia|].
  rewrite IH. destruct (p x); simpl; lia.
Qed.

Lemma filter_all_length {A} (p : A -> bool) (l : list A) :
  length (filter p l) = length l <-> forallb p l = true.
Proof.
  induction l as [|x l IH]; simpl; [tauto|].
  pose proof (filter_length_le p l) as Hle.
  destruct (p x); simpl.
  - rewrite <- IH. split; intros H; lia.
  - split; [intros H; lia | discriminate].
Qed.

(** X28. The style a switch applies to a selection: 'normal' exactly when
    every selected character already has the style (in particular for an
    empty selection), the style itself as soon as one character lacks it.
    For the whole text, bold and normal swap, and every other weight,
    numeric ones included, becomes bold. *)
Theorem selection_style_switch (weights : list TextStyle.FontWeight)
    (styles : list string) (w : TextStyle.FontWeight) :
  (TextStyle.bold_selectionStyle weights
   = if forallb TextStyle.is_bold weights then "normal" else "bold")
  /\
  (TextStyle.italic_selectionStyle styles
   = if forallb (fun v => String.eqb v "italic") styles then "normal"
     else "italic")
  /\
  TextStyle.bold_wholeTextStyle
    (TextStyle.WeightName (TextStyle.bold_wholeTextStyle w))
  = (if TextStyle.is_bold w then "bold" else "normal")
  /\
  (forall n, TextStyle.bold_wholeTextStyle (TextStyle.WeightNumber n) = "bold").
Proof.
  assert (G : forall A (p : A -> bool) (l : list A),
            (0 + length (filter p l) =? length l)%nat = forallb p l).
  { intros A p l. simpl. destruct (forallb p l) eqn:F.
    - apply Nat.eqb_eq. now apply filter_all_length.
    - apply Nat.eqb_neq. intros H. apply filter_all_length in H. congruence. }
  repeat split.
  - unfold TextStyle.bold_selectionStyle. now rewrite count_matching, G.
  - unfold TextStyle.italic_selectionStyle.
    now rewrite (count_matching (fun v => String.eqb v "italic")), G.
  - unfold TextStyle.bold_wholeTextStyle. now destruct (TextStyle.is_bold w).
Qed.

(* ===================================================================== *)
(** * The marketplace reads, uniformly *)
(* ===================================================================== *)

Lemma guarded_read_spec {A} (ev : string -> Event)
    (answer : History -> string -> reply A) (s : State) :
  try_catch
    (inst <- gets Marketplace.contractInstance ;;
     match inst with
     | None => ret None
     | Some c =>
         data <- await (ev c) (fun h => answer h c) ;;
         ret (Some data)
     end)
    (fun error => handleEthError error ;; ret None) s
  = read_outcome ev answer s.
Proof.
  unfold read_outcome, try_catch, bind, gets, await, handleEthError, emit,
    modify, ret.
  destruct (Marketplace.contractInstance s) as [c|]; [|reflexivity].
  destruct (answer (trace s) c); simpl; [reflexivity|].
  now rewrite <- app_assoc.
Qed.

(** X29. The five marketplace reads obey one contract: without a contract
    instance (no provider handle, or no contract address) they return
    [undefined] and issue nothing; otherwise they make a single contract
    call, return its data, and turn a rejection into a report to the error
    handler followed by [undefined].  The paginated reads take
    (limit, offset) and call the contract with (offset, limit). *)
Theorem marketplace_reads_contract (w : World) (tokenContracts : list string)
    (user : string) (limit offset : Z) (s : State) :
  getTokenParams w tokenContracts s
  = read_outcome (fun c => EvGetDetailedTokenInfo c tokenContracts)
      (fun h c => w_getDetailedTokenInfo w h c tokenContracts) s
  /\
  getTokenContractsCount w s
  = read_outcome EvGetActiveTokenContractsCount
      (w_getActiveTokenContractsCount w) s
  /\
  getBooksContracts w limit offset s
  = read_outcome (fun c => EvGetTokenContractsPart c offset limit)
      (fun h c => w_getTokenContractsPart w h c offset limit) s
  /\
  getBooksBatch w limit offset s
  = read_outcome (fun c => EvGetBriefTokenInfoPart c offset limit)
      (fun h c => w_getBriefTokenInfoPart w h c offset limit) s
  /\
  getUserTokens w user limit offset s
  = read_outcome (fun c => EvGetUserTokensPart c user offset limit)
      (fun h c => w_getUserTokensPart w h c user offset limit) s.
Proof.
  repeat split.
  - apply (guarded_read_spec (fun c => EvGetDetailedTokenInfo c tokenContracts)
             (fun h c => w_getDetailedTokenInfo w h c tokenContracts)).
  - apply (guarded_read_spec EvGetActiveTokenContractsCount
             (w_getActiveTokenContractsCount w)).
  - apply (guarded_read_spec (fun c => EvGetTokenContractsPart c offset limit)
             (fun h c => w_getTokenContractsPart w h c offset limit)).
  - apply (guarded_read_spec (fun c => EvGetBriefTokenInfoPart c offset limit)
             (fun h c => w_getBriefTokenInfoPart w h c offset limit)).
  - apply getUserTokens_spec.
Qed.

(* ===================================================================== *)
(** * The listing of a wallet that owns nothing *)
(* ===================================================================== *)




